(** * done-it: the todo persistence and authorization contract

    A shallow embedding of [src/lib/db.ts], [src/lib/init.ts], the route
    handlers [src/app/api/todos/route.ts], [src/app/api/todos/[id]/route.ts]
    and [src/app/api/todos/stats/route.ts] and the todo handlers of the page
    [src/unnamed/part_000], followed by the properties of the specification
    stated over that embedding and by further properties of the code.

    Conventions of the embedding.
    - JavaScript values that reach the handlers come from [request.json()]
      and are JSON values ([jsval]); [undefined] is the [None] of a lookup.
    - Strings are sequences of code units below 256.
    - The storage engine is a pair of tables ([gmap] from primary key to
      row).  Every statement sent to it first asks an oracle whether the
      backend fails on it; the oracle is the list [faults] of the world.
      A statement that the oracle lets through meets the driver and the
      schema of [initDb]: the values that [better-sqlite3] and [pg] bind,
      what the type of a column makes of a bound value ([stored_value]),
      and the constraints NOT NULL, UNIQUE, VARCHAR(n) and the foreign
      key ([row_ok], [user_ok]).
    - An [async] function is a state transformer that either returns a
      value or throws (a rejected promise).
    - The page holds the todos as the list route sends them, and a [fetch]
      of the page runs the route with the session of the cookie. *)

From Stdlib Require Import ZArith String Ascii List Bool Lia.
From Stdlib Require Import Floats.SpecFloat.
From Stdlib Require Import Sorted.
From Stdlib Require Import DecimalString DecimalPos DecimalZ.
From stdpp Require Import base option list gmap strings.

Set Warnings "-register-all".

Local Open Scope string_scope.
Local Open Scope Z_scope.

(** ** JavaScript strings *)

Module Js.

(** [WhiteSpace] and [LineTerminator] code units below 256: TAB, LF, VT,
    FF, CR, SP and NBSP. *)
Definition isWhiteSpace (c : ascii) : bool :=
  let n := nat_of_ascii c in
  ((n =? 9) || (n =? 10) || (n =? 11) || (n =? 12) || (n =? 13)
   || (n =? 32) || (n =? 160))%nat.

Fixpoint trimStart (s : string) : string :=
  match s with
  | EmptyString => EmptyString
  | String c r => if isWhiteSpace c then trimStart r else s
  end.

Fixpoint trimEnd (s : string) : string :=
  match s with
  | EmptyString => EmptyString
  | String c r =>
      match trimEnd r with
      | EmptyString => if isWhiteSpace c then EmptyString else String c EmptyString
      | r' => String c r'
      end
  end.

(** [String.prototype.trim] *)
Definition trim (s : string) : string := trimEnd (trimStart s).

(** Value of a code unit as a digit: 0-9, then a-z and A-Z for 10..35. *)
Definition digitValue (c : ascii) : option Z :=
  let n := Z.of_nat (nat_of_ascii c) in
  if (48 <=? n) && (n <=? 57) then Some (n - 48)
  else if (97 <=? n) && (n <=? 122) then Some (n - 87)
  else if (65 <=? n) && (n <=? 90) then Some (n - 55)
  else None.

(** The longest prefix of radix-[R] digits, as a number; [acc] is [None]
    until a first digit has been read. *)
Fixpoint parseDigits (R : Z) (s : string) (acc : option Z) : option Z :=
  match s with
  | EmptyString => acc
  | String c r =>
      match digitValue c with
      | Some d =>
          if d <? R
          then parseDigits R r (Some (match acc with Some a => a * R + d | None => d end))
          else acc
      | None => acc
      end
  end.

(** [parseInt(str)] with no radix argument (ECMAScript 19.2.5): leading
    white space is skipped, one sign is read, a [0x]/[0X] prefix selects
    radix 16, and the longest prefix of digits is converted; [None] is
    [NaN].  Numbers are integers here: up to 2^53 in magnitude the result
    is the JavaScript number; beyond, JavaScript rounds it to the nearest
    double and the embedding keeps the integer. *)
Definition parseInt (str : string) : option Z :=
  let S0 := trimStart str in
  let '(sign, S1) :=
    match S0 with
    | String "-" r => (-1, r)
    | String "+" r => (1, r)
    | _ => (1, S0)
    end in
  let '(R, S2) :=
    match S1 with
    | String "0" (String "x" r) => (16, r)
    | String "0" (String "X" r) => (16, r)
    | _ => (10, S1)
    end in
  match parseDigits R S2 None with
  | None => None
  | Some n => Some (sign * n)
  end.

(** [`${n}`] and [String(n)] for an integer [n]: the decimal digits,
    after a minus sign for a negative number.  This is the JavaScript
    text of every integer up to 2^53 in magnitude; a larger number is
    printed by JavaScript with the fewest digits that read back as the
    same double. *)
Definition Number_toString (n : Z) : string :=
  NilZero.string_of_int (Z.to_int n).

(** ** JSON values *)

Inductive jsval : Type :=
| JNull
| JBool (b : bool)
| JNum (n : Z)
| JStr (s : string)
| JArr (l : list jsval)
| JObj (l : list (string * jsval)).

(** [ToBoolean] *)
Definition truthy (v : jsval) : bool :=
  match v with
  | JNull => false
  | JBool b => b
  | JNum n => negb (n =? 0)
  | JStr s => negb (String.eqb s "")
  | JArr _ | JObj _ => true
  end.

(** [ToBoolean] of a possibly [undefined] value. *)
Definition truthy_opt (v : option jsval) : bool :=
  match v with Some x => truthy x | None => false end.

(** Own property of a parsed JSON object, whose keys are distinct (of a
    list that repeats a key, the first entry counts). *)
Fixpoint assoc (k : string) (l : list (string * jsval)) : option jsval :=
  match l with
  | [] => None
  | (k', v) :: r => if String.eqb k k' then Some v else assoc k r
  end.

(** [['high', 'medium', 'low'].includes(v)] *)
Definition validPriority (v : option jsval) : bool :=
  match v with
  | Some (JStr s) => String.eqb s "high" || String.eqb s "medium" || String.eqb s "low"
  | _ => false
  end.

(** ** IEEE 754 binary64 arithmetic of [Number] *)

Definition prec : Z := 53.
Definition emax : Z := 1024.

Definition number_of_Z (z : Z) : spec_float :=
  match z with
  | Z0 => S754_zero false
  | Zpos p => binary_normalize prec emax (Zpos p) 0 false
  | Zneg p => SFopp (binary_normalize prec emax (Zpos p) 0 false)
  end.

Definition number_div (x y : spec_float) : spec_float := SFdiv prec emax x y.
Definition number_mul (x y : spec_float) : spec_float := SFmul prec emax x y.

(** [Math.round]: the integer closest to [x], ties towards +infinity,
    that is floor(x + 1/2) computed exactly; [None] for NaN and the
    infinities. *)
Definition Math_round (x : spec_float) : option Z :=
  match x with
  | S754_zero _ => Some 0
  | S754_finite s m e =>
      let v := if s then Z.neg m else Z.pos m in
      Some (if 0 <=? e then v * 2 ^ e
            else (2 * v + 2 ^ (- e)) / 2 ^ (- e + 1))
  | _ => None
  end.

End Js.

Import Js.

(** ** Rows of the two tables *)

Module User.
Record t : Type := mk {
  id : Z;
  username : string;
  password_hash : string;
  created_at : string
}.
End User.

Module Todo.
(** Columns that a request can write hold whatever value the statement
    bound: the handlers pass request values on without converting them. *)
Record t : Type := mk {
  id : Z;
  user_id : Z;
  title : jsval;
  description : jsval;
  priority : jsval;
  category : jsval;
  completed : jsval;
  completed_at : jsval;
  due_date : jsval;
  created_at : string;
  updated_at : string
}.
End Todo.

(** The keys of [Partial<Omit<Todo, 'id' | 'user_id' | 'created_at'>>]. *)
Inductive column : Type :=
| Title | Description | Priority | Category
| Completed | CompletedAt | DueDate | UpdatedAt.

#[global] Instance column_eq_dec : EqDecision column.
Proof. solve_decision. Defined.

Definition column_name (c : column) : string :=
  match c with
  | Title => "title"
  | Description => "description"
  | Priority => "priority"
  | Category => "category"
  | Completed => "completed"
  | CompletedAt => "completed_at"
  | DueDate => "due_date"
  | UpdatedAt => "updated_at"
  end.

Definition get_col (c : column) (t : Todo.t) : jsval :=
  match c with
  | Title => Todo.title t
  | Description => Todo.description t
  | Priority => Todo.priority t
  | Category => Todo.category t
  | Completed => Todo.completed t
  | CompletedAt => Todo.completed_at t
  | DueDate => Todo.due_date t
  | UpdatedAt => JStr (Todo.updated_at t)
  end.

Definition set_updated_at (s : string) (t : Todo.t) : Todo.t :=
  Todo.mk (Todo.id t) (Todo.user_id t) (Todo.title t) (Todo.description t)
    (Todo.priority t) (Todo.category t) (Todo.completed t)
    (Todo.completed_at t) (Todo.due_date t) (Todo.created_at t) s.

(** One assignment [c = v] of an UPDATE.  An [updated_at] among the
    caller's fields is followed in the same SET list by the automatic
    [updated_at], which decides the stored value (see [sql_update]). *)
Definition set_col (c : column) (v : jsval) (t : Todo.t) : Todo.t :=
  let '(Todo.mk i u ti de pr ca co cat du cr up) := t in
  match c with
  | Title => Todo.mk i u v de pr ca co cat du cr up
  | Description => Todo.mk i u ti v pr ca co cat du cr up
  | Priority => Todo.mk i u ti de v ca co cat du cr up
  | Category => Todo.mk i u ti de pr v co cat du cr up
  | Completed => Todo.mk i u ti de pr ca v cat du cr up
  | CompletedAt => Todo.mk i u ti de pr ca co v du cr up
  | DueDate => Todo.mk i u ti de pr ca co cat v cr up
  | UpdatedAt => t
  end.

Definition apply_sets (sets : list (column * jsval)) (t : Todo.t) : Todo.t :=
  fold_left (fun r kv => set_col (fst kv) (snd kv) r) sets t.

(** ** The process and its storage *)

Record World : Type := mkWorld {
  isProduction : bool;          (* !!process.env.DATABASE_URL *)
  users : gmap Z User.t;
  todos : gmap Z Todo.t;
  users_seq : Z;                (* last key handed out by AUTOINCREMENT / SERIAL *)
  todos_seq : Z;
  initialized : bool;           (* the flag of src/lib/init.ts *)
  faults : list bool;           (* oracle: does the next statement fail? *)
  date_now : string;            (* new Date().toISOString() *)
  current_timestamp : string    (* CURRENT_TIMESTAMP of the backend *)
}.

Definition set_users (u : gmap Z User.t) (n : Z) (w : World) : World :=
  mkWorld (isProduction w) u (todos w) n (todos_seq w) (initialized w)
    (faults w) (date_now w) (current_timestamp w).

Definition set_todos (t : gmap Z Todo.t) (n : Z) (w : World) : World :=
  mkWorld (isProduction w) (users w) t (users_seq w) n (initialized w)
    (faults w) (date_now w) (current_timestamp w).

Definition set_initialized (b : bool) (w : World) : World :=
  mkWorld (isProduction w) (users w) (todos w) (users_seq w) (todos_seq w) b
    (faults w) (date_now w) (current_timestamp w).

Definition set_faults (f : list bool) (w : World) : World :=
  mkWorld (isProduction w) (users w) (todos w) (users_seq w) (todos_seq w)
    (initialized w) f (date_now w) (current_timestamp w).

(** ** Async functions: state and exceptions *)

Inductive outcome (A : Type) : Type :=
| Ret (a : A)
| Throw.
Arguments Ret {A} a.
Arguments Throw {A}.

Definition M (A : Type) : Type := World -> outcome A * World.

#[global] Instance M_ret : MRet M := fun A a w => (Ret a, w).

#[global] Instance M_bind : MBind M := fun A B f m w =>
  match m w with
  | (Ret a, w') => f a w'
  | (Throw, w') => (Throw, w')
  end.

Definition throw {A : Type} : M A := fun w => (Throw, w).
Definition get_world : M World := fun w => (Ret w, w).
Definition put_world (w : World) : M unit := fun _ => (Ret tt, w).

(** [try { body } catch { handler }] where every call of [body] is awaited. *)
Definition try_catch {A : Type} (body handler : M A) : M A := fun w =>
  match body w with
  | (Ret a, w') => (Ret a, w')
  | (Throw, w') => handler w'
  end.

(** What a [return e] inside an async function hands back: a value, or a
    promise that was not awaited. *)
Inductive completion (A : Type) : Type :=
| Value (a : A)
| Promise (p : M A).
Arguments Value {A} a.
Arguments Promise {A} p.

(** [try { body } catch { handler }] in an async function whose [body] may
    end in [return f(...)] with [f] async.  The promise leaves the [try]
    block unawaited and settles the caller's promise afterwards, so a
    rejection of it does not run [handler]. *)
Definition try_async {A : Type} (body : M (completion A)) (handler : M A) : M A :=
  fun w =>
    match body w with
    | (Ret (Value a), w') => (Ret a, w')
    | (Ret (Promise p), w') => p w'
    | (Throw, w') => handler w'
    end.

(** ** The storage engine *)

(** Every statement first asks the oracle. *)
Definition statement : M unit := fun w =>
  match faults w with
  | true :: fs => (Throw, set_faults fs w)
  | false :: fs => (Ret tt, set_faults fs w)
  | [] => (Ret tt, w)
  end.

(** *** Bound values and column types

    The value that a column holds after an INSERT or UPDATE bound [v] to
    it, as a later SELECT returns it; [None] when the statement fails on
    the value. *)

(** [isspace] of the C locale. *)
Definition isSpace (c : ascii) : bool :=
  let n := nat_of_ascii c in
  ((9 <=? n) && (n <=? 13) || (n =? 32))%nat.

Fixpoint stripStart (s : string) : string :=
  match s with
  | EmptyString => EmptyString
  | String c r => if isSpace c then stripStart r else s
  end.

Fixpoint stripEnd (s : string) : string :=
  match s with
  | EmptyString => EmptyString
  | String c r =>
      match stripEnd r with
      | EmptyString => if isSpace c then EmptyString else String c EmptyString
      | r' => String c r'
      end
  end.

Definition isDigit (c : ascii) : bool :=
  let n := nat_of_ascii c in ((48 <=? n) && (n <=? 57))%nat.

Fixpoint all_digits (s : string) : bool :=
  match s with
  | EmptyString => true
  | String c r => isDigit c && all_digits r
  end.

(** An integer literal between white space: a sign and digits. *)
Definition integer_literal (s : string) : option Z :=
  let s := stripEnd (stripStart s) in
  let '(sign, d) :=
    match s with
    | String "-" r => (-1, r)
    | String "+" r => (1, r)
    | _ => (1, s)
    end in
  if all_digits d
  then match parseDigits 10 d None with
       | Some n => Some (sign * n)
       | None => None
       end
  else None.

(** SQLite.  [better-sqlite3] binds a number as a REAL, a string as a
    TEXT and [null] as NULL, and throws a TypeError on a boolean, an array
    or an object.  [completed INTEGER] has INTEGER affinity: a REAL with
    an integer value is kept as that integer, and a TEXT that is an
    integer literal becomes the integer (a text that reads as a number
    in another notation, with a fraction or an exponent, becomes that
    number too; the embedding, whose numbers are integers, does not read
    these notations and leaves such a text as it is).  The other columns
    of [todos] are TEXT: a REAL becomes its text, which for an integer
    below 10^15 in magnitude is the digits followed by [.0] (beyond,
    SQLite writes an exponent, and the embedding still the digits). *)
Definition sqlite_value (c : column) (v : jsval) : option jsval :=
  match v with
  | JBool _ | JArr _ | JObj _ => None
  | JNull => Some JNull
  | JNum n =>
      Some (match c with
            | Completed => JNum n
            | _ => JStr (Number_toString n ++ ".0")
            end)
  | JStr s =>
      Some (match c with
            | Completed =>
                match integer_literal s with
                | Some n => JNum n
                | None => JStr s
                end
            | _ => JStr s
            end)
  end.

Definition toLower (c : ascii) : ascii :=
  let n := nat_of_ascii c in
  if ((65 <=? n) && (n <=? 90))%nat then ascii_of_nat (n + 32) else c.

Fixpoint lowercase (s : string) : string :=
  match s with
  | EmptyString => EmptyString
  | String c r => String (toLower c) (lowercase r)
  end.

(** The input of PostgreSQL's [boolean]: between white space and in any
    case, a prefix of [true], [false], [yes] or [no], or [on], [of],
    [off], [1] or [0]. *)
Definition pg_boolean (s : string) : option bool :=
  let s := lowercase (stripEnd (stripStart s)) in
  if String.eqb s "" then None
  else if String.prefix s "true" || String.prefix s "yes"
          || String.eqb s "on" || String.eqb s "1" then Some true
  else if String.prefix s "false" || String.prefix s "no"
          || String.eqb s "of" || String.eqb s "off" || String.eqb s "0" then Some false
  else None.

(** PostgreSQL.  [pg] sends a number and a boolean as their text and a
    string as it is.  [title], [description], [priority] and [category]
    hold text (an array or an object is sent as a text of it, which the
    embedding does not render: it keeps the value).  [completed BOOLEAN]
    reads the text as a boolean or fails.  [completed_at], [due_date] and
    [updated_at] are TIMESTAMP: timestamps are strings here, a string
    bound to such a column stands for one that PostgreSQL reads as a
    timestamp and is returned as it was bound, and the text of a number,
    of a boolean, of an array or of an object is none. *)
Definition pg_value (c : column) (v : jsval) : option jsval :=
  match c with
  | Title | Description | Priority | Category =>
      Some (match v with
            | JNum n => JStr (Number_toString n)
            | JBool b => JStr (if b then "true" else "false")
            | _ => v
            end)
  | Completed =>
      match v with
      | JNull | JBool _ => Some v
      | JNum n => if n =? 1 then Some (JBool true)
                  else if n =? 0 then Some (JBool false) else None
      | JStr s => JBool <$> pg_boolean s
      | JArr _ | JObj _ => None
      end
  | CompletedAt | DueDate | UpdatedAt =>
      match v with
      | JNull | JStr _ => Some v
      | _ => None
      end
  end.

Definition stored_value (pg : bool) (c : column) (v : jsval) : option jsval :=
  if pg then pg_value c v else sqlite_value c v.

(** The assignments of a statement with the values as the columns hold
    them; [None] when a value makes the statement fail. *)
Fixpoint stored_sets (pg : bool) (sets : list (column * jsval))
  : option (list (column * jsval)) :=
  match sets with
  | [] => Some []
  | (c, v) :: rest =>
      match stored_value pg c v, stored_sets pg rest with
      | Some v', Some rest' => Some ((c, v') :: rest')
      | _, _ => None
      end
  end.

(** A string value fits [VARCHAR(n)]. *)
Definition fits (n : nat) (v : jsval) : bool :=
  match v with
  | JStr s => (String.length s <=? n)%nat
  | _ => true
  end.

(** Constraints of the [todos] schema on a row: [title ... NOT NULL] in
    both schemas; [VARCHAR(500)], [VARCHAR(20)] and [VARCHAR(100)] in the
    PostgreSQL schema only. *)
Definition row_ok (pg : bool) (t : Todo.t) : bool :=
  match Todo.title t with
  | JNull => false
  | _ => if pg then fits 500 (Todo.title t) && fits 20 (Todo.priority t)
                    && fits 100 (Todo.category t)
         else true
  end.

(** Some row of [users] has the username. *)
Definition username_taken (name : string) (m : gmap Z User.t) : bool :=
  existsb (fun kv => String.eqb (User.username (snd kv)) name) (map_to_list m).

(** Constraints of the [users] schema on a row: [VARCHAR(255)] for
    [username] and [password_hash] in the PostgreSQL schema only. *)
Definition user_ok (pg : bool) (name hash : string) : bool :=
  if pg then (String.length name <=? 255)%nat && (String.length hash <=? 255)%nat
  else true.

(** [INSERT INTO users (username, password_hash) VALUES (?, ?)];
    [username ... UNIQUE], and in the PostgreSQL schema [VARCHAR(255)]
    for both columns. *)
Definition sql_insert_user (name hash : string) : M User.t :=
  _ ← statement;
  w ← get_world;
  let k := users_seq w + 1 in
  if username_taken name (users w) || negb (user_ok (isProduction w) name hash) then throw
  else match users w !! k with
       | Some _ => throw
       | None =>
           let row := User.mk k name hash (current_timestamp w) in
           _ ← put_world (set_users (<[k := row]> (users w)) k w);
           mret row
       end.

(** [SELECT * FROM users WHERE id = ?], first row. *)
Definition sql_select_user_by_id (k : Z) : M (option User.t) :=
  _ ← statement;
  w ← get_world;
  mret (users w !! k).

(** [SELECT * FROM users WHERE username = ?], first row. *)
Definition sql_select_user_by_username (name : string) : M (option User.t) :=
  _ ← statement;
  w ← get_world;
  mret (snd <$> find (fun kv => String.eqb (User.username (snd kv)) name)
                     (map_to_list (users w))).

(** The row of [INSERT INTO todos (user_id, title, description, priority,
    category, due_date) VALUES (...)]: each value as its column holds it,
    the other columns with their defaults; [None] when the driver or a
    column type fails on a value. *)
Definition inserted_row (w : World) (userId : Z) (ti de pr ca du : jsval)
  : option Todo.t :=
  let pg := isProduction w in
  match stored_value pg Title ti, stored_value pg Description de,
        stored_value pg Priority pr, stored_value pg Category ca,
        stored_value pg DueDate du with
  | Some ti', Some de', Some pr', Some ca', Some du' =>
      Some (Todo.mk (todos_seq w + 1) userId ti' de' pr' ca'
              (if pg then JBool false else JNum 0) JNull du'
              (current_timestamp w) (current_timestamp w))
  | _, _, _, _, _ => None
  end.

(** The INSERT of [createTodo]; [user_id] references [users(id)]. *)
Definition sql_insert_todo (userId : Z) (ti de pr ca du : jsval) : M Todo.t :=
  _ ← statement;
  w ← get_world;
  let k := todos_seq w + 1 in
  match inserted_row w userId ti de pr ca du with
  | None => throw
  | Some row =>
      match users w !! userId, todos w !! k with
      | Some _, None =>
          if row_ok (isProduction w) row
          then _ ← put_world (set_todos (<[k := row]> (todos w)) k w); mret row
          else throw
      | _, _ => throw
      end
  end.

(** [SELECT * FROM todos WHERE id = ?], first row. *)
Definition sql_select_todo (k : Z) : M (option Todo.t) :=
  _ ← statement;
  w ← get_world;
  mret (todos w !! k).

(** Insertion into a list ordered by [created_at], latest first. *)
Definition insert_desc (t : Todo.t) : list Todo.t -> list Todo.t :=
  fix go (l : list Todo.t) : list Todo.t :=
    match l with
    | [] => [t]
    | x :: r =>
        if String.leb (Todo.created_at x) (Todo.created_at t)
        then t :: l else x :: go r
    end.

(** The rows [WHERE user_id = ?]. *)
Definition rows_of_user (userId : Z) (m : gmap Z Todo.t) : list Todo.t :=
  filter (fun t => Todo.user_id t = userId) (snd <$> map_to_list m).

(** [SELECT * FROM todos WHERE user_id = ? ORDER BY created_at DESC] *)
Definition sql_select_todos_by_user (userId : Z) : M (list Todo.t) :=
  _ ← statement;
  w ← get_world;
  mret (foldr insert_desc [] (rows_of_user userId (todos w))).

(** One SET list applied to the row with key [k]; [stamp] is the value
    of the automatic [updated_at], the last assignment of the list.  SQLite
    keeps the rightmost assignment of a column named twice; PostgreSQL
    rejects the statement.  A value that the driver does not bind or the
    column type does not read fails the statement, whether or not a row
    has the key. *)
Definition sql_update_todo (k : Z) (sets : list (column * jsval)) (stamp : string)
  : M (option Todo.t) :=
  _ ← statement;
  w ← get_world;
  if isProduction w && negb (bool_decide (NoDup (sets.*1 ++ [UpdatedAt])%list))
  then throw
  else match stored_sets (isProduction w) sets with
       | None => throw
       | Some values =>
           match todos w !! k with
           | None => mret None
           | Some t =>
               let t' := set_updated_at stamp (apply_sets values t) in
               if row_ok (isProduction w) t'
               then _ ← put_world (set_todos (<[k := t']> (todos w)) (todos_seq w) w);
                    mret (Some t')
               else throw
           end
       end.

(** [DELETE FROM todos WHERE id = ?]; the result is the row count. *)
Definition sql_delete_todo (k : Z) : M Z :=
  _ ← statement;
  w ← get_world;
  match todos w !! k with
  | None => mret 0
  | Some _ =>
      _ ← put_world (set_todos (delete k (todos w)) (todos_seq w) w);
      mret 1
  end.

(** [completed = true] (PostgreSQL) and [completed = 1] (SQLite, which
    keeps booleans as the integers 0 and 1). *)
Definition sql_is_true (v : jsval) : bool :=
  match v with
  | JBool true => true
  | JNum 1 => true
  | _ => false
  end.

(** [SELECT COUNT( * ) as total, SUM(CASE WHEN completed ... THEN 1 ELSE 0
    END) as completed FROM todos WHERE user_id = ?]; SUM over no row is
    NULL. *)
Definition sql_select_stats (userId : Z) : M (Z * option Z) :=
  _ ← statement;
  w ← get_world;
  let rows := rows_of_user userId (todos w) in
  mret (Z.of_nat (length rows),
        match rows with
        | [] => None
        | _ => Some (Z.of_nat (length (filter (fun t => sql_is_true (Todo.completed t) = true) rows)))
        end).

(** ** src/lib/db.ts

    [pgPool] is set exactly when [isProduction] holds and [sqliteDb]
    exactly when it does not (module initialisation), so
    [isProduction && pgPool] is [isProduction] and the [else if (sqliteDb)]
    branch is the other case. *)

(** [initDb]: two [CREATE TABLE IF NOT EXISTS] and one
    [CREATE INDEX IF NOT EXISTS], on either backend. *)
Definition initDb : M unit :=
  _ ← statement; _ ← statement; statement.

(** src/lib/init.ts *)
Definition ensureDbInitialized : M unit :=
  w ← get_world;
  if negb (initialized w)
  then _ ← initDb; w' ← get_world; put_world (set_initialized true w')
  else mret tt.

Definition getUserByUsername (username : string) : M (option User.t) :=
  sql_select_user_by_username username.

Definition getUserById (id : Z) : M (option User.t) :=
  sql_select_user_by_id id.

Definition createUser (username passwordHash : string) : M (option User.t) :=
  try_async
    (w ← get_world;
     if isProduction w then
       row ← sql_insert_user username passwordHash;
       mret (Value (Some row))
     else
       row ← sql_insert_user username passwordHash;
       mret (Promise (getUserById (User.id row))))
    (mret None).

Definition getTodosByUserId (userId : Z) : M (list Todo.t) :=
  sql_select_todos_by_user userId.

Definition getTodoById (id : Z) : M (option Todo.t) :=
  sql_select_todo id.

Definition createTodo (userId : Z) (title : string)
    (description priority category dueDate : jsval) : M (option Todo.t) :=
  try_async
    (w ← get_world;
     if isProduction w then
       row ← sql_insert_todo userId (JStr title) description priority category dueDate;
       mret (Value (Some row))
     else
       row ← sql_insert_todo userId (JStr title) description priority category dueDate;
       mret (Promise (getTodoById (Todo.id row))))
    (mret None).

Definition updateTodo (id : Z) (updates : list (column * jsval)) : M (option Todo.t) :=
  try_async
    (let fields := updates in   (* one entry of fields and values per key *)
     if (length fields =? 0)%nat then mret (Promise (getTodoById id))
     else
       w ← get_world;
       if isProduction w then
         row ← sql_update_todo id fields (date_now w);
         mret (Value row)
       else
         _ ← sql_update_todo id fields (current_timestamp w);
         mret (Promise (getTodoById id)))
    (mret None).

Definition deleteTodo (id : Z) : M bool :=
  try_catch
    (rowCount ← sql_delete_todo id;
     mret (0 <? rowCount))
    (mret false).

Record Stats : Type := mkStats {
  total : Z;
  completed : Z;
  completionRate : Z
}.

(** [total > 0 ? Math.round((completed / total) * 100) : 0].  With
    [total > 0] and counts the quotient is finite, so [Math.round] has a
    value. *)
Definition completionRateOf (total completed : Z) : Z :=
  if 0 <? total
  then default 0 (Math_round (number_mul (number_div (number_of_Z completed) (number_of_Z total))
                                         (number_of_Z 100)))
  else 0.

Definition getCompletedTodoStats (userId : Z) : M Stats :=
  r ← sql_select_stats userId;
  let total := fst r in                   (* result.total || 0 *)
  let completed := default 0 (snd r) in   (* result.completed || 0 *)
  mret (mkStats total completed (completionRateOf total completed)).

(** ** Requests and responses *)

(** src/lib/session.ts *)
Record SessionData : Type := mkSession {
  userId : option Z;
  username : option string;
  isLoggedIn : bool
}.

Inductive body : Type :=
| ErrorBody (error : string)
| TodoBody (todo : Todo.t)
| SuccessBody.

(** [NextResponse.json(body, { status })] *)
Record Response : Type := json {
  payload : body;
  status : Z
}.

(** [!session.isLoggedIn || !session.userId] *)
Definition notAuthenticated (session : SessionData) : bool :=
  negb (isLoggedIn session)
  || negb (match userId session with Some n => negb (n =? 0) | None => false end).

(** [await request.json()]: a body that is not JSON makes it throw. *)
Definition request_json (request : option jsval) : M jsval :=
  match request with
  | Some v => mret v
  | None => throw
  end.

(** [!v || v.trim().length === 0]; [None] is the TypeError of calling
    [trim] on a value that has none (a truthy value that is no string). *)
Definition blank (v : option jsval) : option bool :=
  if negb (truthy_opt v) then Some true
  else match v with
       | Some (JStr s) => Some (String.length (trim s) =? 0)%nat
       | _ => None
       end.

(** ** src/app/api/todos/[id]/route.ts *)

Definition allowedFields : list column :=
  [Title; Description; Priority; Category; Completed; DueDate].

(** How one turn of the loop over [allowedFields] ends. *)
Inductive step (A : Type) : Type :=
| Continue (a : A)
| Return (r : Response)
| Raise.
Arguments Continue {A} a.
Arguments Return {A} r.
Arguments Raise {A}.

(** The body of the loop for one [key] with [key in updates]; [v] is
    [updates[key]].  [filteredUpdates] keeps its keys in insertion order. *)
Definition filter_present (existingTodo : Todo.t) (now : string) (key : column)
    (v : jsval) (filteredUpdates : list (column * jsval))
  : step (list (column * jsval)) :=
  match (if bool_decide (key = Title) then blank (Some v) else Some false) with
  | None => Raise
  | Some true => Return (json (ErrorBody "Title cannot be empty") 400)
  | Some false =>
      if bool_decide (key = Priority) && negb (validPriority (Some v))
      then Return (json (ErrorBody "Invalid priority") 400)
      else
        match bool_decide (key = Completed), v with
        | true, JBool b =>
            let filteredUpdates := (filteredUpdates ++ [(key, v)])%list in
            if b && negb (truthy (Todo.completed existingTodo))
            then Continue (filteredUpdates ++ [(CompletedAt, JStr now)])%list
            else if negb b
            then Continue (filteredUpdates ++ [(CompletedAt, JNull)])%list
            else Continue filteredUpdates
        | _, _ => Continue (filteredUpdates ++ [(key, v)])%list
        end
  end.

(** [for (const key of allowedFields) { if (key in updates) { ... } }] on
    the properties [props] of the parsed body. *)
Fixpoint filter_loop (existingTodo : Todo.t) (now : string)
    (props : list (string * jsval)) (keys : list column)
    (filteredUpdates : list (column * jsval)) : step (list (column * jsval)) :=
  match keys with
  | [] => Continue filteredUpdates
  | key :: rest =>
      match assoc (column_name key) props with
      | None => filter_loop existingTodo now props rest filteredUpdates
      | Some v =>
          match filter_present existingTodo now key v filteredUpdates with
          | Continue f => filter_loop existingTodo now props rest f
          | other => other
          end
      end
  end.

(** The loop on any JSON body: [key in updates] is a TypeError when
    [updates] is no object, and false for the six field names when it is
    an array. *)
Definition filterUpdates (existingTodo : Todo.t) (now : string) (updates : jsval)
  : step (list (column * jsval)) :=
  match updates with
  | JObj props => filter_loop existingTodo now props allowedFields []
  | JArr _ => Continue []
  | _ => Raise
  end.

Definition PATCH (session : SessionData) (id : string) (request : option jsval)
  : M Response :=
  try_catch
    (_ ← ensureDbInitialized;
     if notAuthenticated session
     then mret (json (ErrorBody "Unauthorized") 401)
     else
       match parseInt id with
       | None => mret (json (ErrorBody "Invalid todo ID") 400)
       | Some todoId =>
           existingTodo ← getTodoById todoId;
           match existingTodo with
           | None => mret (json (ErrorBody "Todo not found") 404)
           | Some existingTodo =>
               if negb (bool_decide (Some (Todo.user_id existingTodo) = userId session))
               then mret (json (ErrorBody "Unauthorized") 403)
               else
                 updates ← request_json request;
                 w ← get_world;
                 match filterUpdates existingTodo (date_now w) updates with
                 | Return r => mret r
                 | Raise => throw
                 | Continue filteredUpdates =>
                     todo ← updateTodo todoId filteredUpdates;
                     match todo with
                     | None => mret (json (ErrorBody "Failed to update todo") 500)
                     | Some todo => mret (json (TodoBody todo) 200)
                     end
                 end
           end
       end)
    (mret (json (ErrorBody "An error occurred while updating todo") 500)).

Definition DELETE (session : SessionData) (id : string) : M Response :=
  try_catch
    (_ ← ensureDbInitialized;
     if notAuthenticated session
     then mret (json (ErrorBody "Unauthorized") 401)
     else
       match parseInt id with
       | None => mret (json (ErrorBody "Invalid todo ID") 400)
       | Some todoId =>
           existingTodo ← getTodoById todoId;
           match existingTodo with
           | None => mret (json (ErrorBody "Todo not found") 404)
           | Some existingTodo =>
               if negb (bool_decide (Some (Todo.user_id existingTodo) = userId session))
               then mret (json (ErrorBody "Unauthorized") 403)
               else
                 success ← deleteTodo todoId;
                 if negb success
                 then mret (json (ErrorBody "Failed to delete todo") 500)
                 else mret (json SuccessBody 200)
           end
       end)
    (mret (json (ErrorBody "An error occurred while deleting todo") 500)).

(** ** src/app/api/todos/route.ts *)

(** [const { title, ... } = await request.json()]: destructuring [null]
    is a TypeError; a value that is no object has none of the properties. *)
Definition destructure (v : jsval) : option (string -> option jsval) :=
  match v with
  | JNull => None
  | JObj props => Some (fun k => assoc k props)
  | _ => Some (fun _ => None)
  end.

(** [x?.trim() || null]; [None] is the TypeError of calling [trim] on a
    value that is neither nullish nor a string. *)
Definition trim_or_null (x : option jsval) : option jsval :=
  match x with
  | None | Some JNull => Some JNull
  | Some (JStr s) => Some (if String.eqb (trim s) "" then JNull else JStr (trim s))
  | Some _ => None
  end.

(** [['high', 'medium', 'low'].includes(priority) ? priority : 'medium'] *)
Definition finalPriority (priority : option jsval) : jsval :=
  match priority with
  | Some p => if validPriority priority then p else JStr "medium"
  | None => JStr "medium"
  end.

Definition POST (session : SessionData) (request : option jsval) : M Response :=
  try_catch
    (_ ← ensureDbInitialized;
     if notAuthenticated session
     then mret (json (ErrorBody "Unauthorized") 401)
     else
       parsed ← request_json request;
       match destructure parsed with
       | None => throw
       | Some prop =>
           let title := prop "title" in
           let description := prop "description" in
           let priority := prop "priority" in
           let category := prop "category" in
           let dueDate := prop "dueDate" in
           match blank title, title with
           | None, _ => throw
           | Some true, _ => mret (json (ErrorBody "Title is required") 400)
           | Some false, Some (JStr title) =>
               if (500 <? String.length title)%nat
               then mret (json (ErrorBody "Title must be less than 500 characters") 400)
               else
                 match trim_or_null description, trim_or_null category with
                 | Some description, Some category =>
                     todo ← createTodo (default 0 (userId session)) (trim title)
                              description (finalPriority priority) category
                              (if truthy_opt dueDate then default JNull dueDate else JNull);
                     match todo with
                     | None => mret (json (ErrorBody "Failed to create todo") 500)
                     | Some todo => mret (json (TodoBody todo) 201)
                     end
                 | _, _ => throw
                 end
           | Some false, _ => throw
           end
       end)
    (mret (json (ErrorBody "An error occurred while creating todo") 500)).

(** ** Auxiliary definitions of the statements *)

(** No failure of the backend is scheduled. *)
Definition healthy (w : World) : Prop := faults w = [].

(** The world once [ensureDbInitialized] has run. *)
Definition booted (w : World) : World :=
  if initialized w then w else set_initialized true w.

(** The value of the automatic [updated_at]. *)
Definition refresh_stamp (w : World) : string :=
  if isProduction w then date_now w else current_timestamp w.

(** What the driver needs of the field list: PostgreSQL takes no column
    twice, the automatic [updated_at] included. *)
Definition accepted (w : World) (updates : list (column * jsval)) : Prop :=
  isProduction w = true -> (UpdatedAt ∉ updates.*1) /\ NoDup (updates.*1).

(** What one turn of the loop adds to [filteredUpdates] when it does not
    leave the handler. *)
Definition kept (existingTodo : Todo.t) (now : string)
    (props : list (string * jsval)) (key : column) : list (column * jsval) :=
  match assoc (column_name key) props with
  | None => []
  | Some v =>
      match key, v with
      | Completed, JBool true =>
          if truthy (Todo.completed existingTodo)
          then [(Completed, v)]
          else [(Completed, v); (CompletedAt, JStr now)]
      | Completed, JBool false => [(Completed, v); (CompletedAt, JNull)]
      | _, _ => [(key, v)]
      end
  end.

(** A value of the type of its column, which the column stores and
    returns as it was bound: null in any column; a string in a text column
    of either schema and in a TEXT column of SQLite that holds a
    timestamp; a number in the INTEGER column [completed] of SQLite; a
    boolean in the BOOLEAN column [completed] of PostgreSQL. *)
Definition kept_as_bound (pg : bool) (c : column) (v : jsval) : bool :=
  match v, c with
  | JNull, _ => true
  | JStr _, (Title | Description | Priority | Category) => true
  | JStr _, (CompletedAt | DueDate | UpdatedAt) => negb pg
  | JNum _, Completed => negb pg
  | JBool _, Completed => pg
  | _, _ => false
  end.

(** The two checks of the loop, on the properties of the body. *)
Definition passes (props : list (string * jsval)) : Prop :=
  (assoc "title" props = None \/ blank (assoc "title" props) = Some false)
  /\ (assoc "priority" props = None \/ validPriority (assoc "priority" props) = true).

(** The keys one turn of the loop can write. *)
Definition written (key : column) : list column :=
  match key with
  | Completed => [Completed; CompletedAt]
  | _ => [key]
  end.

(** Three answers of PATCH and DELETE. *)
Definition not_found : Response := json (ErrorBody "Todo not found") 404.
Definition forbidden : Response := json (ErrorBody "Unauthorized") 403.
Definition invalid_id : Response := json (ErrorBody "Invalid todo ID") 400.

(** How PATCH answers the outcome of [updateTodo]. *)
Definition respond_update (r : outcome (option Todo.t) * World)
  : outcome Response * World :=
  match r with
  | (Ret (Some todo), w') => (Ret (json (TodoBody todo) 200), w')
  | (Ret None, w') => (Ret (json (ErrorBody "Failed to update todo") 500), w')
  | (Throw, w') =>
      (Ret (json (ErrorBody "An error occurred while updating todo") 500), w')
  end.

(** The row that [createTodo] inserts. *)
Definition new_row (w : World) (userId : Z) (title : string)
    (description priority category dueDate : jsval) : Todo.t :=
  Todo.mk (todos_seq w + 1) userId (JStr title) description priority category
    (if isProduction w then JBool false else JNum 0) JNull dueDate
    (current_timestamp w) (current_timestamp w).

(** How POST answers the outcome of [createTodo]. *)
Definition respond_create (r : outcome (option Todo.t) * World)
  : outcome Response * World :=
  match r with
  | (Ret (Some todo), w') => (Ret (json (TodoBody todo) 201), w')
  | (Ret None, w') => (Ret (json (ErrorBody "Failed to create todo") 500), w')
  | (Throw, w') =>
      (Ret (json (ErrorBody "An error occurred while creating todo") 500), w')
  end.

(** ** Sample data *)

Definition alice : User.t := User.mk 1 "alice" "$2b$10$Qx" "2026-01-05 09:00:00".
Definition bob : User.t := User.mk 2 "bob" "$2b$10$Zk" "2026-01-06 09:00:00".

Definition buy_milk : Todo.t :=
  Todo.mk 12 1 (JStr "Buy milk") JNull (JStr "medium") JNull (JNum 0) JNull JNull
    "2026-02-01 08:00:00" "2026-02-01 08:00:00".

(** A development process (SQLite) with two users and one todo of alice. *)
Definition dev_world : World :=
  mkWorld false (<[1 := alice]> (<[2 := bob]> ∅)) (<[12 := buy_milk]> ∅) 2 12 true []
    "2026-03-01T10:00:00.000Z" "2026-03-01 10:00:00".

(** The todo as PostgreSQL holds it, and a production process. *)
Definition buy_milk_pg : Todo.t :=
  Todo.mk 12 1 (JStr "Buy milk") JNull (JStr "medium") JNull (JBool false) JNull JNull
    "2026-02-01 08:00:00" "2026-02-01 08:00:00".

Definition prod_world : World :=
  mkWorld true (<[1 := alice]> (<[2 := bob]> ∅)) (<[12 := buy_milk_pg]> ∅) 2 12 true []
    "2026-03-01T10:00:00.000Z" "2026-03-01 10:00:00".

(** The same process when the backend fails on the next statement. *)
Definition failing_world : World := set_faults [true] dev_world.

Definition alice_session : SessionData := mkSession (Some 1) (Some "alice") true.
Definition bob_session : SessionData := mkSession (Some 2) (Some "bob") true.

(** A title of [n] code units. *)
Fixpoint title_of_length (n : nat) : string :=
  match n with
  | O => ""
  | S k => String "a" (title_of_length k)
  end.

(** The todo [k] of alice. *)
Definition task (k : nat) (done : bool) : Todo.t :=
  Todo.mk (Z.of_nat k) 1 (JStr "task") JNull (JStr "medium") JNull
    (if done then JNum 1 else JNum 0)
    (if done then JStr "2026-02-20T12:00:00.000Z" else JNull) JNull
    "2026-02-01 08:00:00" "2026-02-20 12:00:00".

(** A process in which alice has the todos 1..40, of which 1..23 are
    completed. *)
Definition busy_world : World :=
  mkWorld false (<[1 := alice]> (<[2 := bob]> ∅))
    (list_to_map (map (fun k => (Z.of_nat k, task k (k <=? 23)%nat)) (seq 1 40)))
    2 40 true [] "2026-03-01T10:00:00.000Z" "2026-03-01 10:00:00".


(** ** The read routes *)

Inductive read_body : Type :=
| ReadError (error : string)
| TodosBody (l : list Todo.t)
| StatsBody (stats : Stats).

(** [NextResponse.json(body, { status })] of a read route. *)
Record ReadResponse : Type := read_json {
  read_payload : read_body;
  read_status : Z
}.

(** src/app/api/todos/route.ts, GET *)
Module TodosRoute.
Definition GET (session : SessionData) : M ReadResponse :=
  try_catch
    (_ ← ensureDbInitialized;
     if notAuthenticated session
     then mret (read_json (ReadError "Unauthorized") 401)
     else
       l ← getTodosByUserId (default 0 (userId session));
       mret (read_json (TodosBody l) 200))
    (mret (read_json (ReadError "An error occurred while fetching todos") 500)).
End TodosRoute.

(** src/app/api/todos/stats/route.ts, GET *)
Module StatsRoute.
Definition GET (session : SessionData) : M ReadResponse :=
  try_catch
    (_ ← ensureDbInitialized;
     if notAuthenticated session
     then mret (read_json (ReadError "Unauthorized") 401)
     else
       stats ← getCompletedTodoStats (default 0 (userId session));
       mret (read_json (StatsBody stats) 200))
    (mret (read_json (ReadError "An error occurred while fetching stats") 500)).
End StatsRoute.

(** ** Auxiliary definitions of the further statements *)

(** Usernames identify the rows of [users]. *)
Definition unique_usernames (m : gmap Z User.t) : Prop :=
  forall k1 k2 u1 u2,
    m !! k1 = Some u1 -> m !! k2 = Some u2 ->
    User.username u1 = User.username u2 -> k1 = k2.

(** The two records agree on the columns no update can name. *)
Definition same_identity (t t' : Todo.t) : Prop :=
  Todo.id t' = Todo.id t /\ Todo.user_id t' = Todo.user_id t
  /\ Todo.created_at t' = Todo.created_at t.

(** Every key keeps its row, up to the columns an update can write. *)
Definition rows_kept (m m' : gmap Z Todo.t) : Prop :=
  forall k,
    match m !! k, m' !! k with
    | Some t, Some t' => same_identity t t'
    | None, None => True
    | _, _ => False
    end.

(** In the order of [created_at], [y] is not later than [x]. *)
Definition not_later (x y : Todo.t) : Prop :=
  String.leb (Todo.created_at y) (Todo.created_at x) = true.

(** The list is one of rows of the table, each taken once: they are
    stored under pairwise distinct keys. *)
Definition each_row_once (m : gmap Z Todo.t) (l : list Todo.t) : Prop :=
  exists ps : list (Z * Todo.t),
    NoDup ps.*1 /\ (forall k t, (k, t) ∈ ps -> m !! k = Some t) /\ l = ps.*2.

(** ** The page (src/unnamed/part_000) *)

(** [SameValueZero] on values of [JSON.parse]: two arrays or objects are
    never the same value. *)
Definition sameValueZero (a b : jsval) : bool :=
  match a, b with
  | JNull, JNull => true
  | JBool x, JBool y => Bool.eqb x y
  | JNum x, JNum y => x =? y
  | JStr x, JStr y => String.eqb x y
  | _, _ => false
  end.

(** [Array.from(new Set(l))]: the first occurrence of every value, in
    the order of [l]. *)
Definition Set_from (l : list jsval) : list jsval :=
  fold_left (fun acc v => if existsb (sameValueZero v) acc then acc else (acc ++ [v])%list)
            l [].

(** [a !== s] for a string [s]. *)
Definition differs (a : jsval) (s : string) : bool :=
  match a with
  | JStr x => negb (String.eqb x s)
  | _ => true
  end.

(** [response.ok] *)
Definition ok (status : Z) : bool := (200 <=? status) && (status <=? 299).

Module Page.

(** The state [filter]: ['all'], ['active'] or ['completed']. *)
Inductive Filter : Type := FilterAll | FilterActive | FilterCompleted.

Definition Filter_eqb (a b : Filter) : bool :=
  match a, b with
  | FilterAll, FilterAll | FilterActive, FilterActive
  | FilterCompleted, FilterCompleted => true
  | _, _ => false
  end.

(** The state [newTodo]: the fields of the form. *)
Record NewTodo : Type := mkNewTodo {
  title : string;
  description : string;
  priority : string;
  category : string;
  dueDate : string
}.

(** The states of the component that the todo handlers read or set. *)
Record State : Type := mkState {
  todos : list Todo.t;
  stats : Stats;
  newTodo : NewTodo;
  filter : Filter;
  categoryFilter : string
}.

Definition setTodos (l : list Todo.t) (st : State) : State :=
  mkState l (stats st) (newTodo st) (filter st) (categoryFilter st).

Definition setStats (s : Stats) (st : State) : State :=
  mkState (todos st) s (newTodo st) (filter st) (categoryFilter st).

Definition setNewTodo (n : NewTodo) (st : State) : State :=
  mkState (todos st) (stats st) n (filter st) (categoryFilter st).

Definition setFilter (f : Filter) (st : State) : State :=
  mkState (todos st) (stats st) (newTodo st) f (categoryFilter st).

Definition setCategoryFilter (c : string) (st : State) : State :=
  mkState (todos st) (stats st) (newTodo st) (filter st) c.

(** [if (data.todos) setTodos(data.todos)]; an exception is logged. *)
Definition fetchTodos (session : SessionData) (st : State) : M State :=
  try_catch
    (response ← TodosRoute.GET session;
     match read_payload response with
     | TodosBody l => mret (setTodos l st)
     | _ => mret st
     end)
    (mret st).

(** [if (data.stats) setStats(data.stats)] *)
Definition fetchStats (session : SessionData) (st : State) : M State :=
  try_catch
    (response ← StatsRoute.GET session;
     match read_payload response with
     | StatsBody s => mret (setStats s st)
     | _ => mret st
     end)
    (mret st).

(** [await fetchTodos(); await fetchStats()] *)
Definition refresh (session : SessionData) (st : State) : M State :=
  st ← fetchTodos session st;
  fetchStats session st.

(** [x || null] for a string [x]. *)
Definition or_null (x : string) : jsval :=
  if String.eqb x "" then JNull else JStr x.

(** The body of the request of [handleCreateTodo], as [request.json()]
    gives it to the route. *)
Definition createBody (n : NewTodo) : jsval :=
  JObj [("title", JStr (title n));
        ("description", or_null (description n));
        ("priority", JStr (priority n));
        ("category", or_null (category n));
        ("dueDate", or_null (dueDate n))].

(** [!newTodo.title.trim()] *)
Definition noTitle (n : NewTodo) : bool := negb (truthy (JStr (trim (title n)))).

Definition handleCreateTodo (session : SessionData) (st : State) : M State :=
  if noTitle (newTodo st) then mret st
  else
    try_catch
      (response ← POST session (Some (createBody (newTodo st)));
       if ok (status response)
       then refresh session (setNewTodo (mkNewTodo "" "" "medium" "" "") st)
       else mret st)
      (mret st).

Definition handleToggleComplete (session : SessionData) (todo : Todo.t) (st : State)
  : M State :=
  try_catch
    (response ← PATCH session (Number_toString (Todo.id todo))
                  (Some (JObj [("completed", JBool (negb (truthy (Todo.completed todo))))]));
     if ok (status response) then refresh session st else mret st)
    (mret st).

Definition handleDeleteTodo (session : SessionData) (id : Z) (st : State) : M State :=
  try_catch
    (response ← DELETE session (Number_toString id);
     if ok (status response) then refresh session st else mret st)
    (mret st).

(** [Array.from(new Set(todos.map(t => t.category).filter(Boolean)))] *)
Definition categories (st : State) : list jsval :=
  Set_from (List.filter truthy (map Todo.category (todos st))).

(** The predicate of [todos.filter] in [filteredTodos]. *)
Definition shown (st : State) (todo : Todo.t) : bool :=
  if Filter_eqb (filter st) FilterActive && truthy (Todo.completed todo) then false
  else if Filter_eqb (filter st) FilterCompleted && negb (truthy (Todo.completed todo))
  then false
  else if negb (String.eqb (categoryFilter st) "all")
          && differs (Todo.category todo) (categoryFilter st)
  then false
  else true.

Definition filteredTodos (st : State) : list Todo.t :=
  List.filter (shown st) (todos st).

End Page.

(** ** Auxiliary definitions of the statements on the page *)

(** The value of a list of decimal digits read after [a]. *)
Fixpoint uint_value (d : Decimal.uint) (a : Z) : Z :=
  match d with
  | Decimal.Nil => a
  | Decimal.D0 d => uint_value d (10 * a)
  | Decimal.D1 d => uint_value d (10 * a + 1)
  | Decimal.D2 d => uint_value d (10 * a + 2)
  | Decimal.D3 d => uint_value d (10 * a + 3)
  | Decimal.D4 d => uint_value d (10 * a + 4)
  | Decimal.D5 d => uint_value d (10 * a + 5)
  | Decimal.D6 d => uint_value d (10 * a + 6)
  | Decimal.D7 d => uint_value d (10 * a + 7)
  | Decimal.D8 d => uint_value d (10 * a + 8)
  | Decimal.D9 d => uint_value d (10 * a + 9)
  end.

(** A value that is no array and no object. *)
Definition primitive (v : jsval) : bool :=
  match v with
  | JArr _ | JObj _ => false
  | _ => true
  end.

(** What the page shows of [st] under the status filter [f]. *)
Definition view (f : Page.Filter) (st : Page.State) : list Todo.t :=
  Page.filteredTodos (Page.setFilter f st).

(** Two more todos of alice, and a page that shows the three. *)
Definition water_plants : Todo.t :=
  Todo.mk 13 1 (JStr "Water plants") JNull (JStr "low") (JStr "home") (JNum 1)
    (JStr "2026-02-20T12:00:00.000Z") JNull
    "2026-02-02 08:00:00" "2026-02-20 12:00:00".

Definition call_plumber : Todo.t :=
  Todo.mk 14 1 (JStr "Call the plumber") JNull (JStr "high") (JStr "home") (JNum 0)
    JNull JNull "2026-02-03 08:00:00" "2026-02-03 08:00:00".

Definition dev_page : Page.State :=
  Page.mkState [call_plumber; water_plants; buy_milk] (mkStats 3 1 33)
    (Page.mkNewTodo "" "" "medium" "" "") Page.FilterAll "all".

(** The same page with a filled form. *)
Definition form_page : Page.State :=
  Page.setNewTodo (Page.mkNewTodo " Water plants " "" "low" "garden" "") dev_page.

(** * Properties *)

(** ** Strings *)

Lemma trimStart_length (s : string) :
  (String.length (trimStart s) <= String.length s)%nat.
Proof.
  induction s as [|c r IH]; simpl; [lia|].
  destruct (isWhiteSpace c); simpl; lia.
Qed.

Lemma trimEnd_length (s : string) :
  (String.length (trimEnd s) <= String.length s)%nat.
Proof.
  induction s as [|c r IH]; simpl; [lia|].
  destruct (trimEnd r) eqn:E.
  - destruct (isWhiteSpace c); simpl; lia.
  - simpl in *. lia.
Qed.

Lemma trim_length (s : string) :
  (String.length (trim s) <= String.length s)%nat.
Proof.
  unfold trim. etransitivity; [apply trimEnd_length | apply trimStart_length].
Qed.

Lemma length_zero_empty (s : string) :
  (String.length s =? 0)%nat = String.eqb s "".
Proof. destruct s; reflexivity. Qed.

Example trim_sample : trim (String "009" "  Buy milk ") = "Buy milk".
Proof. reflexivity. Qed.

Example parseInt_samples :
  parseInt "42" = Some 42 /\ parseInt " -7" = Some (-7) /\ parseInt "0x1F" = Some 31
  /\ parseInt "3.9" = Some 3 /\ parseInt "abc" = None /\ parseInt "" = None
  /\ parseInt "-" = None.
Proof. repeat split. Qed.

Example Math_round_samples :
  Math_round (number_div (number_of_Z 5) (number_of_Z 2)) = Some 3
  /\ Math_round (number_div (number_of_Z (-5)) (number_of_Z 2)) = Some (-2)
  /\ Math_round (number_div (number_of_Z 1) (number_of_Z 3)) = Some 0
  /\ Math_round (number_of_Z 100) = Some 100.
Proof. repeat split; by vm_compute. Qed.

(** ** Running the storage on a healthy backend *)

Lemma bind_run {A B : Type} (m : M A) (f : A -> M B) (w : World) :
  (m ≫= f) w =
  match m w with
  | (Ret a, w') => f a w'
  | (Throw, w') => (Throw, w')
  end.
Proof. reflexivity. Qed.

Lemma statement_healthy (w : World) : healthy w -> statement w = (Ret tt, w).
Proof. unfold healthy, statement. intros ->. reflexivity. Qed.

Lemma statement_fault (w : World) (fs : list bool) :
  faults w = true :: fs -> statement w = (Throw, set_faults fs w).
Proof. unfold statement. intros ->. reflexivity. Qed.

Lemma booted_healthy (w : World) : healthy w -> healthy (booted w).
Proof. unfold healthy, booted. destruct (initialized w); auto. Qed.

Lemma booted_todos (w : World) : todos (booted w) = todos w.
Proof. unfold booted. destruct (initialized w); reflexivity. Qed.

Lemma booted_users (w : World) : users (booted w) = users w.
Proof. unfold booted. destruct (initialized w); reflexivity. Qed.

Lemma booted_isProduction (w : World) : isProduction (booted w) = isProduction w.
Proof. unfold booted. destruct (initialized w); reflexivity. Qed.

Lemma booted_date_now (w : World) : date_now (booted w) = date_now w.
Proof. unfold booted. destruct (initialized w); reflexivity. Qed.

Lemma ensureDbInitialized_healthy (w : World) :
  healthy w -> ensureDbInitialized w = (Ret tt, booted w).
Proof.
  intros H. unfold ensureDbInitialized, booted, initDb.
  rewrite bind_run. simpl.
  destruct (initialized w) eqn:E; simpl; [reflexivity|].
  rewrite !bind_run, (statement_healthy _ H). rewrite !bind_run, (statement_healthy _ H).
  rewrite (statement_healthy _ H). reflexivity.
Qed.

Lemma getTodoById_healthy (id : Z) (w : World) :
  healthy w -> getTodoById id w = (Ret (todos w !! id), w).
Proof.
  intros H. unfold getTodoById, sql_select_todo.
  rewrite bind_run, (statement_healthy _ H). reflexivity.
Qed.

Lemma getTodoById_fault (id : Z) (w : World) (fs : list bool) :
  faults w = true :: fs -> getTodoById id w = (Throw, set_faults fs w).
Proof.
  intros H. unfold getTodoById, sql_select_todo.
  rewrite bind_run, (statement_fault _ _ H). reflexivity.
Qed.

(** ** Assignments of an UPDATE *)

Lemma set_col_immutable (c : column) (v : jsval) (t : Todo.t) :
  Todo.id (set_col c v t) = Todo.id t
  /\ Todo.user_id (set_col c v t) = Todo.user_id t
  /\ Todo.created_at (set_col c v t) = Todo.created_at t
  /\ Todo.updated_at (set_col c v t) = Todo.updated_at t.
Proof. destruct t, c; simpl; auto. Qed.

Lemma get_set_col_eq (c : column) (v : jsval) (t : Todo.t) :
  c <> UpdatedAt -> get_col c (set_col c v t) = v.
Proof. destruct t, c; simpl; congruence. Qed.

Lemma get_set_col_ne (c c' : column) (v : jsval) (t : Todo.t) :
  c <> c' -> get_col c (set_col c' v t) = get_col c t.
Proof. destruct t, c, c'; simpl; congruence. Qed.

Lemma apply_sets_immutable (sets : list (column * jsval)) (t : Todo.t) :
  Todo.id (apply_sets sets t) = Todo.id t
  /\ Todo.user_id (apply_sets sets t) = Todo.user_id t
  /\ Todo.created_at (apply_sets sets t) = Todo.created_at t
  /\ Todo.updated_at (apply_sets sets t) = Todo.updated_at t.
Proof.
  revert t. induction sets as [|[c v] r IH]; intros t; simpl; [auto|].
  destruct (IH (set_col c v t)) as (-> & -> & -> & ->).
  apply set_col_immutable.
Qed.

Lemma apply_sets_untouched (c : column) (sets : list (column * jsval)) (t : Todo.t) :
  c ∉ sets.*1 -> get_col c (apply_sets sets t) = get_col c t.
Proof.
  revert t. induction sets as [|[c' v] r IH]; intros t Hc; simpl; [reflexivity|].
  rewrite fmap_cons in Hc. apply not_elem_of_cons in Hc as [Hne Hr]. simpl in Hne.
  rewrite (IH _ Hr). by apply get_set_col_ne.
Qed.

Lemma apply_sets_given (c : column) (v : jsval) (sets : list (column * jsval)) (t : Todo.t) :
  NoDup sets.*1 -> (c, v) ∈ sets -> c <> UpdatedAt ->
  get_col c (apply_sets sets t) = v.
Proof.
  revert t. induction sets as [|[c' v'] r IH]; intros t Hnd Hin Hc; simpl.
  - by apply elem_of_nil in Hin.
  - rewrite fmap_cons in Hnd. apply NoDup_cons in Hnd as [Hnotin Hnd]. simpl in Hnotin.
    apply elem_of_cons in Hin as [Heq | Hin].
    + inversion Heq; subst c' v'.
      rewrite (apply_sets_untouched _ _ _ Hnotin). by apply get_set_col_eq.
    + by apply IH.
Qed.

Lemma row_ok_set_updated_at (pg : bool) (s : string) (t : Todo.t) :
  row_ok pg (set_updated_at s t) = row_ok pg t.
Proof. reflexivity. Qed.

(** ** Stored values *)

Lemma kept_as_bound_stored (pg : bool) (c : column) (v : jsval) :
  kept_as_bound pg c v = true -> stored_value pg c v = Some v.
Proof. destruct pg, c, v; simpl; try discriminate; reflexivity. Qed.

Lemma stored_sets_as_bound (pg : bool) (sets : list (column * jsval)) :
  (forall c v, (c, v) ∈ sets -> stored_value pg c v = Some v) ->
  stored_sets pg sets = Some sets.
Proof.
  induction sets as [|[c v] rest IH]; intros Hall; [reflexivity|].
  simpl. rewrite (Hall c v) by (apply elem_of_cons; by left).
  rewrite IH; [reflexivity|].
  intros c' v' Hin. apply Hall, elem_of_cons. by right.
Qed.

Lemma stored_sets_refused (pg : bool) (sets : list (column * jsval)) (c : column) (v : jsval) :
  (c, v) ∈ sets -> stored_value pg c v = None -> stored_sets pg sets = None.
Proof.
  induction sets as [|[c' v'] rest IH]; intros Hin Hv; [by apply elem_of_nil in Hin|].
  apply elem_of_cons in Hin as [[= <- <-]|Hin]; simpl.
  - by rewrite Hv.
  - rewrite (IH Hin Hv). by destruct (stored_value pg c' v').
Qed.


(** ** [updateTodo] on a healthy backend *)

Lemma accepted_check (w : World) (updates : list (column * jsval)) :
  accepted w updates ->
  isProduction w && negb (bool_decide (NoDup ((updates.*1) ++ [UpdatedAt])%list)) = false.
Proof.
  unfold accepted. destruct (isProduction w); [|reflexivity]. intros H.
  destruct (H eq_refl) as [Hn Hd]. simpl.
  rewrite bool_decide_eq_true_2; [reflexivity|].
  apply NoDup_app. split; [done|]. split; [|apply NoDup_singleton].
  intros x Hx Hx'. apply list_elem_of_singleton in Hx'. by subst.
Qed.

Lemma updateTodo_empty (id : Z) (w : World) :
  updateTodo id [] w = getTodoById id w.
Proof. reflexivity. Qed.

(** The statement succeeds: the values are stored as the columns hold
    them. *)
Lemma updateTodo_healthy (id : Z) (updates values : list (column * jsval))
    (w : World) (t : Todo.t) :
  healthy w -> updates <> [] -> todos w !! id = Some t ->
  accepted w updates ->
  stored_sets (isProduction w) updates = Some values ->
  row_ok (isProduction w) (apply_sets values t) = true ->
  let t' := set_updated_at (refresh_stamp w) (apply_sets values t) in
  updateTodo id updates w
  = (Ret (Some t'), set_todos (<[id := t']> (todos w)) (todos_seq w) w).
Proof.
  intros H Hne Ht Hacc Hval Hok t'.
  unfold updateTodo, try_async.
  replace (length updates =? 0)%nat with false by (by destruct updates).
  rewrite bind_run. unfold get_world at 1.
  unfold refresh_stamp in t'.
  destruct (isProduction w) eqn:Ep.
  - rewrite bind_run. unfold sql_update_todo.
    rewrite bind_run, (statement_healthy _ H). rewrite bind_run. unfold get_world at 1.
    rewrite accepted_check by exact Hacc.
    rewrite Ep, Hval, Ht. rewrite row_ok_set_updated_at, Hok. reflexivity.
  - rewrite bind_run. unfold sql_update_todo.
    rewrite bind_run, (statement_healthy _ H). rewrite bind_run. unfold get_world at 1.
    rewrite accepted_check by exact Hacc. rewrite Ep, Hval, Ht.
    rewrite row_ok_set_updated_at, Hok. rewrite bind_run. unfold put_world.
    unfold mret, M_ret.
    rewrite getTodoById_healthy by exact H.
    simpl todos. by rewrite lookup_insert_eq.
Qed.

(** The statement fails on a value or on a constraint: [updateTodo]
    returns null and nothing is stored. *)
Lemma updateTodo_refused (id : Z) (updates : list (column * jsval)) (w : World) :
  healthy w -> updates <> [] ->
  stored_sets (isProduction w) updates = None
  \/ (exists values t,
        stored_sets (isProduction w) updates = Some values
        /\ todos w !! id = Some t
        /\ row_ok (isProduction w) (apply_sets values t) = false) ->
  updateTodo id updates w = (Ret None, w).
Proof.
  intros H Hne Hcase.
  unfold updateTodo, try_async.
  replace (length updates =? 0)%nat with false by (by destruct updates).
  rewrite bind_run. unfold get_world at 1.
  destruct (isProduction w) eqn:Ep; rewrite bind_run; unfold sql_update_todo;
    rewrite bind_run, (statement_healthy _ H); rewrite bind_run; unfold get_world at 1;
    rewrite Ep;
    (destruct (_ && _); [reflexivity|]);
    destruct Hcase as [->|(values & t & -> & -> & Hok)]; try reflexivity;
    by rewrite row_ok_set_updated_at, Hok.
Qed.

(** ** The filtered payload of PATCH *)

Lemma filter_present_kept existingTodo now props key v f f' :
  assoc (column_name key) props = Some v ->
  filter_present existingTodo now key v f = Continue f' ->
  f' = (f ++ kept existingTodo now props key)%list.
Proof.
  intros Hv. unfold filter_present, kept. rewrite Hv.
  destruct (if bool_decide (key = Title) then blank (Some v) else Some false)
    as [[|]|]; [discriminate| |discriminate].
  destruct (bool_decide (key = Priority) && negb (validPriority (Some v)));
    [discriminate|].
  destruct key; simpl; try (intros [= <-]; reflexivity).
  destruct v as [|[|]| | | |]; simpl; try (intros [= <-]; reflexivity).
  - destruct (truthy (Todo.completed existingTodo)); simpl;
      intros [= <-]; [reflexivity | by rewrite <- app_assoc].
  - intros [= <-]. by rewrite <- app_assoc.
Qed.

Lemma filter_loop_kept existingTodo now props keys f f' :
  filter_loop existingTodo now props keys f = Continue f' ->
  f' = (f ++ flat_map (kept existingTodo now props) keys)%list.
Proof.
  revert f. induction keys as [|key rest IH]; intros f; simpl.
  - intros [= <-]. by rewrite app_nil_r.
  - destruct (assoc (column_name key) props) as [v|] eqn:Hv.
    + destruct (filter_present existingTodo now key v f) as [g| |] eqn:Hp;
        [|discriminate|discriminate].
      intros Hl. apply IH in Hl. subst f'.
      rewrite (filter_present_kept _ _ _ _ _ _ _ Hv Hp).
      by rewrite <- app_assoc.
    + intros Hl. apply IH in Hl. subst f'.
      unfold kept at 2. by rewrite Hv.
Qed.

Lemma filterUpdates_kept existingTodo now props f :
  filterUpdates existingTodo now (JObj props) = Continue f ->
  f = flat_map (kept existingTodo now props) allowedFields.
Proof. intros H. by apply filter_loop_kept in H. Qed.

Lemma filter_present_passes existingTodo now key v f :
  (key = Title -> blank (Some v) = Some false) ->
  (key = Priority -> validPriority (Some v) = true) ->
  exists f', filter_present existingTodo now key v f = Continue f'.
Proof.
  intros Ht Hp. unfold filter_present.
  destruct key; cbn -[blank validPriority];
    try rewrite (Ht eq_refl); try rewrite (Hp eq_refl); simpl; eauto.
  destruct v as [|[|]| | | |]; simpl; eauto.
  destruct (truthy (Todo.completed existingTodo)); simpl; eauto.
Qed.

Lemma filter_loop_passes existingTodo now props keys f :
  passes props ->
  exists f', filter_loop existingTodo now props keys f = Continue f'.
Proof.
  intros [Ht Hp]. revert f. induction keys as [|key rest IH]; intros f; simpl; [eauto|].
  destruct (assoc (column_name key) props) as [v|] eqn:Hv; [|apply IH].
  destruct (filter_present_passes existingTodo now key v f) as [g Hg].
  - intros ->. simpl in Hv. rewrite Hv in Ht. by destruct Ht.
  - intros ->. simpl in Hv. rewrite Hv in Hp. by destruct Hp.
  - rewrite Hg. apply IH.
Qed.

Lemma filterUpdates_passes existingTodo now props :
  passes props ->
  filterUpdates existingTodo now (JObj props)
  = Continue (flat_map (kept existingTodo now props) allowedFields).
Proof.
  intros H.
  destruct (filter_loop_passes existingTodo now props allowedFields [] H) as [f Hf].
  unfold filterUpdates. rewrite Hf. f_equal.
  by apply filter_loop_kept in Hf.
Qed.

(** The loop leaves the handler only with one of its two messages. *)
Lemma filter_loop_return existingTodo now props keys f r :
  filter_loop existingTodo now props keys f = Return r ->
  r = json (ErrorBody "Title cannot be empty") 400
  \/ r = json (ErrorBody "Invalid priority") 400.
Proof.
  revert f. induction keys as [|key rest IH]; intros f; simpl; [discriminate|].
  destruct (assoc (column_name key) props) as [v|]; [|apply IH].
  destruct (filter_present existingTodo now key v f) as [g| |] eqn:Hp;
    [apply IH| |discriminate].
  intros [= <-]. unfold filter_present in Hp.
  destruct (if bool_decide (key = Title) then blank (Some v) else Some false)
    as [[|]|]; [injection Hp as <-; auto| |discriminate].
  destruct (bool_decide (key = Priority) && negb (validPriority (Some v)));
    [injection Hp as <-; auto|].
  destruct (bool_decide (key = Completed)), v as [|[|]| | | |];
    try discriminate;
    destruct (truthy (Todo.completed existingTodo)); simpl in Hp; discriminate.
Qed.

Lemma filterUpdates_return existingTodo now updates r :
  filterUpdates existingTodo now updates = Return r ->
  r = json (ErrorBody "Title cannot be empty") 400
  \/ r = json (ErrorBody "Invalid priority") 400.
Proof.
  destruct updates; try discriminate. unfold filterUpdates. apply filter_loop_return.
Qed.

(** ** The handlers on a healthy backend *)

Lemma PATCH_invalid_id session id request w :
  healthy w -> notAuthenticated session = false -> parseInt id = None ->
  PATCH session id request w = (Ret invalid_id, booted w).
Proof.
  intros H Ha Hid. unfold PATCH, try_catch.
  rewrite bind_run, (ensureDbInitialized_healthy _ H), Ha, Hid. reflexivity.
Qed.

Lemma PATCH_lookup session id n request w :
  healthy w -> notAuthenticated session = false -> parseInt id = Some n ->
  PATCH session id request w =
  match todos w !! n with
  | None => (Ret not_found, booted w)
  | Some t =>
      if bool_decide (Some (Todo.user_id t) = userId session)
      then
        match request with
        | None => (Ret (json (ErrorBody "An error occurred while updating todo") 500),
                   booted w)
        | Some updates =>
            match filterUpdates t (date_now w) updates with
            | Return r => (Ret r, booted w)
            | Raise => (Ret (json (ErrorBody "An error occurred while updating todo") 500),
                        booted w)
            | Continue f => respond_update (updateTodo n f (booted w))
            end
        end
      else (Ret forbidden, booted w)
  end.
Proof.
  intros H Ha Hid. unfold PATCH, try_catch.
  rewrite bind_run, (ensureDbInitialized_healthy _ H), Ha, Hid.
  rewrite bind_run, (getTodoById_healthy _ _ (booted_healthy _ H)), booted_todos.
  destruct (todos w !! n) as [t|]; [|reflexivity].
  destruct (bool_decide (Some (Todo.user_id t) = userId session)); [|reflexivity].
  cbn [negb].
  destruct request as [updates|]; [|reflexivity].
  rewrite bind_run. simpl request_json. unfold mret at 1, M_ret at 1.
  rewrite bind_run. unfold get_world. rewrite booted_date_now.
  destruct (filterUpdates t (date_now w) updates) as [f|r|]; [|reflexivity|reflexivity].
  rewrite bind_run. unfold respond_update.
  destruct (updateTodo n f (booted w)) as [[[todo|]|] w']; reflexivity.
Qed.

Lemma deleteTodo_healthy id w :
  healthy w ->
  deleteTodo id w =
  match todos w !! id with
  | Some _ => (Ret true, set_todos (delete id (todos w)) (todos_seq w) w)
  | None => (Ret false, w)
  end.
Proof.
  intros H. unfold deleteTodo, try_catch, sql_delete_todo.
  rewrite !bind_run, (statement_healthy _ H). rewrite bind_run. unfold get_world.
  destruct (todos w !! id); reflexivity.
Qed.

Lemma DELETE_invalid_id session id w :
  healthy w -> notAuthenticated session = false -> parseInt id = None ->
  DELETE session id w = (Ret invalid_id, booted w).
Proof.
  intros H Ha Hid. unfold DELETE, try_catch.
  rewrite bind_run, (ensureDbInitialized_healthy _ H), Ha, Hid. reflexivity.
Qed.

Lemma DELETE_lookup session id n w :
  healthy w -> notAuthenticated session = false -> parseInt id = Some n ->
  DELETE session id w =
  match todos w !! n with
  | None => (Ret not_found, booted w)
  | Some t =>
      if bool_decide (Some (Todo.user_id t) = userId session)
      then (Ret (json SuccessBody 200),
            set_todos (delete n (todos w)) (todos_seq w) (booted w))
      else (Ret forbidden, booted w)
  end.
Proof.
  intros H Ha Hid. unfold DELETE, try_catch.
  rewrite bind_run, (ensureDbInitialized_healthy _ H), Ha, Hid.
  rewrite bind_run, (getTodoById_healthy _ _ (booted_healthy _ H)), booted_todos.
  destruct (todos w !! n) as [t|] eqn:Ht; [|reflexivity].
  destruct (bool_decide (Some (Todo.user_id t) = userId session)); [|reflexivity].
  cbn [negb].
  rewrite bind_run, (deleteTodo_healthy _ _ (booted_healthy _ H)), booted_todos, Ht.
  unfold booted. destruct (initialized w); reflexivity.
Qed.

Lemma respond_update_status r resp w' :
  respond_update r = (Ret resp, w') -> status resp = 200 \/ status resp = 500.
Proof.
  destruct r as [[[todo|]|] w'']; simpl; intros [= <- _]; auto.
Qed.

(** ** Keys of the filtered payload *)

Lemma kept_keys existingTodo now props key :
  (kept existingTodo now props key).*1 `sublist_of` written key.
Proof.
  unfold kept. destruct (assoc (column_name key) props) as [v|];
    [|apply sublist_nil_l].
  destruct key; simpl; try reflexivity.
  destruct v as [|[|]| | | |]; simpl; try (by repeat constructor).
  destruct (truthy (Todo.completed existingTodo)); simpl; by repeat constructor.
Qed.

Lemma flat_map_kept_keys existingTodo now props keys :
  (flat_map (kept existingTodo now props) keys).*1
  `sublist_of` flat_map written keys.
Proof.
  induction keys as [|key rest IH]; simpl; [constructor|].
  rewrite fmap_app. apply sublist_app; [apply kept_keys | exact IH].
Qed.

Lemma filtered_keys existingTodo now updates f :
  filterUpdates existingTodo now updates = Continue f ->
  f.*1 `sublist_of`
    [Title; Description; Priority; Category; Completed; CompletedAt; DueDate].
Proof.
  destruct updates; try discriminate.
  - intros [= <-]. apply sublist_nil_l.
  - intros H. apply filterUpdates_kept in H. subst f.
    apply (flat_map_kept_keys existingTodo now l allowedFields).
Qed.

Lemma filtered_NoDup existingTodo now updates f :
  filterUpdates existingTodo now updates = Continue f -> NoDup (f.*1).
Proof.
  intros H. eapply sublist_NoDup; [|exact (filtered_keys _ _ _ _ H)].
  compute_done.
Qed.

Lemma filtered_accepted w existingTodo now updates f :
  filterUpdates existingTodo now updates = Continue f -> accepted w f.
Proof.
  intros H _. split; [|exact (filtered_NoDup _ _ _ _ H)].
  intros Hin. pose proof (elem_of_sublist _ _ _ Hin (filtered_keys _ _ _ _ H)) as Hin'.
  revert Hin'. compute_done.
Qed.

(** An entry of the filtered payload comes from the turn of its key. *)
Lemma kept_entry existingTodo now props key c v :
  (c, v) ∈ kept existingTodo now props key -> c ∈ written key.
Proof.
  intros Hin. eapply elem_of_sublist; [|apply kept_keys].
  by apply (list_elem_of_fmap_2 fst) in Hin.
Qed.

Lemma filtered_entry existingTodo now props f c v :
  filterUpdates existingTodo now (JObj props) = Continue f ->
  c ∈ [Completed; CompletedAt] ->
  ((c, v) ∈ f <-> (c, v) ∈ kept existingTodo now props Completed).
Proof.
  intros H Hc. apply filterUpdates_kept in H. subst f.
  unfold allowedFields. simpl flat_map. rewrite !elem_of_app.
  split; [|tauto].
  intros [Hk|[Hk|[Hk|[Hk|[Hk|[Hk|Hk]]]]]]; try exact Hk;
    try (apply kept_entry in Hk; simpl in Hk;
         exfalso; revert Hc Hk; rewrite !elem_of_cons, !elem_of_nil;
         intros [->|[->|[]]]; intros [|[]]; discriminate).
  by apply elem_of_nil in Hk.
Qed.

(** ** Failure policy of the persistence layer *)

Lemma try_async_fault {A : Type} (body : M (completion A)) (a : A) (w w' : World) :
  body w = (Throw, w') -> try_async body (mret a) w = (Ret a, w').
Proof. unfold try_async. intros ->. reflexivity. Qed.

(** A second [createUser] with a taken username violates the UNIQUE
    constraint; the violation is caught and no user is returned. *)
Lemma createUser_duplicate (username passwordHash : string) (w : World) :
  healthy w ->
  username_taken username (users w) = true ->
  createUser username passwordHash w = (Ret None, w).
Proof.
  intros H Ht. apply try_async_fault. rewrite bind_run. unfold get_world at 1.
  destruct (isProduction w); rewrite bind_run; unfold sql_insert_user;
    rewrite bind_run, (statement_healthy _ H); rewrite bind_run; unfold get_world at 1;
    by rewrite Ht.
Qed.

(** [deleteTodo] of an id that no row has returns false. *)
Lemma deleteTodo_absent (id : Z) (w : World) :
  healthy w -> todos w !! id = None -> deleteTodo id w = (Ret false, w).
Proof. intros H Ht. by rewrite (deleteTodo_healthy _ _ H), Ht. Qed.

(** C2, as stated, fails: [getTodoById] and [getTodosByUserId] have no
    handler, and a failure of their statement leaves them as an
    exception. *)
Lemma read_operations_throw :
  getTodoById 12 failing_world = (Throw, dev_world)
  /\ getTodosByUserId 1 failing_world = (Throw, dev_world).
Proof. split; reflexivity. Qed.

(** C2, amended.  When the backend fails on the statement of an operation:
    [createUser], [createTodo], [updateTodo] (with a field to set) and
    [deleteTodo] catch the failure of their INSERT, UPDATE or DELETE and
    return the sentinel, null or false, with both tables as they were;
    the five read operations have no handler and throw to their caller. *)
Theorem storage_fault_policy (w : World) (fs : list bool) :
  faults w = true :: fs ->
  (forall username passwordHash,
      createUser username passwordHash w = (Ret None, set_faults fs w))
  /\ (forall userId title description priority category dueDate,
         createTodo userId title description priority category dueDate w
         = (Ret None, set_faults fs w))
  /\ (forall id updates, updates <> [] ->
         updateTodo id updates w = (Ret None, set_faults fs w))
  /\ (forall id, deleteTodo id w = (Ret false, set_faults fs w))
  /\ (forall username, getUserByUsername username w = (Throw, set_faults fs w))
  /\ (forall id, getUserById id w = (Throw, set_faults fs w))
  /\ (forall userId, getTodosByUserId userId w = (Throw, set_faults fs w))
  /\ (forall id, getTodoById id w = (Throw, set_faults fs w))
  /\ (forall userId, getCompletedTodoStats userId w = (Throw, set_faults fs w)).
Proof.
  intros Hf.
  pose proof (statement_fault w fs Hf) as Hs.
  repeat split; intros.
  - apply try_async_fault. rewrite bind_run. unfold get_world at 1.
    destruct (isProduction w); rewrite bind_run; unfold sql_insert_user;
      by rewrite bind_run, Hs.
  - apply try_async_fault. rewrite bind_run. unfold get_world at 1.
    destruct (isProduction w); rewrite bind_run; unfold sql_insert_todo;
      by rewrite bind_run, Hs.
  - unfold updateTodo.
    replace (length updates =? 0)%nat with false by (by destruct updates).
    apply try_async_fault. rewrite bind_run. unfold get_world at 1.
    destruct (isProduction w); rewrite bind_run; unfold sql_update_todo;
      by rewrite bind_run, Hs.
  - unfold deleteTodo, try_catch, sql_delete_todo. by rewrite !bind_run, Hs.
  - unfold getUserByUsername, sql_select_user_by_username. by rewrite bind_run, Hs.
  - unfold getUserById, sql_select_user_by_id. by rewrite bind_run, Hs.
  - unfold getTodosByUserId, sql_select_todos_by_user. by rewrite bind_run, Hs.
  - by apply getTodoById_fault.
  - unfold getCompletedTodoStats, sql_select_stats. by rewrite !bind_run, Hs.
Qed.

Lemma storage_fault_policy_witness :
  (forall username passwordHash,
      createUser username passwordHash failing_world = (Ret None, set_faults [] failing_world))
  /\ (forall userId title description priority category dueDate,
         createTodo userId title description priority category dueDate failing_world
         = (Ret None, set_faults [] failing_world))
  /\ (forall id updates, updates <> [] ->
         updateTodo id updates failing_world = (Ret None, set_faults [] failing_world))
  /\ (forall id, deleteTodo id failing_world = (Ret false, set_faults [] failing_world))
  /\ (forall username,
         getUserByUsername username failing_world = (Throw, set_faults [] failing_world))
  /\ (forall id, getUserById id failing_world = (Throw, set_faults [] failing_world))
  /\ (forall userId,
         getTodosByUserId userId failing_world = (Throw, set_faults [] failing_world))
  /\ (forall id, getTodoById id failing_world = (Throw, set_faults [] failing_world))
  /\ (forall userId,
         getCompletedTodoStats userId failing_world = (Throw, set_faults [] failing_world)).
Proof. apply (storage_fault_policy failing_world []). reflexivity. Defined.

(** ** A [completed] that is no boolean *)

(** C10.  When the payload carries [completed] with a value that is no
    boolean, the loop does not reject it: whenever the loop ends normally
    the filtered payload holds [completed] with that very value and has no
    [completed_at]; it ends normally when the checks of [title] and
    [priority] pass, and that payload is what [updateTodo] receives, so the
    answer is never a 400. *)
Theorem non_boolean_completed_kept
    (w : World) (session : SessionData) (id : string) (n : Z) (t : Todo.t)
    (props : list (string * jsval)) (v : jsval) :
  healthy w ->
  notAuthenticated session = false ->
  parseInt id = Some n ->
  todos w !! n = Some t ->
  Some (Todo.user_id t) = userId session ->
  assoc "completed" props = Some v ->
  (forall b, v <> JBool b) ->
  (forall f, filterUpdates t (date_now w) (JObj props) = Continue f ->
     (Completed, v) ∈ f
     /\ (forall v', (Completed, v') ∈ f -> v' = v)
     /\ CompletedAt ∉ f.*1)
  /\ (passes props ->
      exists f, filterUpdates t (date_now w) (JObj props) = Continue f
        /\ PATCH session id (Some (JObj props)) w
           = respond_update (updateTodo n f (booted w))
        /\ forall resp w', PATCH session id (Some (JObj props)) w = (Ret resp, w') ->
             status resp <> 400).
Proof.
  intros H Ha Hid Ht Hown Hc Hv.
  assert (Hkept : kept t (date_now w) props Completed = [(Completed, v)]).
  { unfold kept. simpl column_name. rewrite Hc.
    destruct v as [|b| | | |]; try reflexivity. by destruct (Hv b). }
  split.
  - intros f Hf.
    pose proof (fun c v' Hin => filtered_entry t (date_now w) props f c v' Hf Hin)
      as Hentry.
    rewrite Hkept in Hentry. repeat split.
    + apply Hentry; [compute_done|]. apply elem_of_cons. by left.
    + intros v' Hin. apply Hentry in Hin; [|compute_done].
      apply list_elem_of_singleton in Hin. congruence.
    + intros Hin. apply list_elem_of_fmap in Hin as [[c v'] [Hcv Hin]].
      simpl in Hcv. subst c. apply Hentry in Hin; [|compute_done].
      apply list_elem_of_singleton in Hin. discriminate.
  - intros Hp. eexists. split; [by apply filterUpdates_passes|].
    rewrite (PATCH_lookup _ _ n _ _ H Ha Hid), Ht.
    rewrite bool_decide_eq_true_2 by exact Hown.
    rewrite (filterUpdates_passes _ _ _ Hp). split; [reflexivity|].
    intros resp w' Hr. apply respond_update_status in Hr. lia.
Qed.

Lemma non_boolean_completed_kept_witness :
  (forall f, filterUpdates buy_milk (date_now dev_world)
               (JObj [("completed", JStr "yes")]) = Continue f ->
     (Completed, JStr "yes") ∈ f
     /\ (forall v', (Completed, v') ∈ f -> v' = JStr "yes")
     /\ CompletedAt ∉ f.*1)
  /\ (passes [("completed", JStr "yes")] ->
      exists f, filterUpdates buy_milk (date_now dev_world)
                  (JObj [("completed", JStr "yes")]) = Continue f
        /\ PATCH alice_session "12" (Some (JObj [("completed", JStr "yes")])) dev_world
           = respond_update (updateTodo 12 f (booted dev_world))
        /\ forall resp w',
             PATCH alice_session "12" (Some (JObj [("completed", JStr "yes")])) dev_world
             = (Ret resp, w') ->
             status resp <> 400).
Proof.
  apply (non_boolean_completed_kept dev_world alice_session "12" 12 buy_milk
           [("completed", JStr "yes")] (JStr "yes"));
    try reflexivity.
  intros b. discriminate.
Defined.

(** ** The handlers on any backend *)

Lemma statement_store (w : World) :
  todos (snd (statement w)) = todos w /\ users (snd (statement w)) = users w.
Proof. unfold statement. destruct (faults w) as [|[|] fs]; auto. Qed.

Lemma statement_store_eq (w w1 : World) (o : outcome unit) :
  statement w = (o, w1) -> todos w1 = todos w /\ users w1 = users w.
Proof. intros E. pose proof (statement_store w) as HS. by rewrite E in HS. Qed.

Lemma ensureDbInitialized_store_eq (w w1 : World) (o : outcome unit) :
  ensureDbInitialized w = (o, w1) -> todos w1 = todos w /\ users w1 = users w.
Proof.
  unfold ensureDbInitialized, initDb. rewrite bind_run. unfold get_world at 1.
  destruct (initialized w); cbn [negb]; [by intros [= _ <-]|].
  rewrite !bind_run.
  destruct (statement w) as [[[]|] w2] eqn:E1;
    apply statement_store_eq in E1 as [T1 U1];
    [|intros [= _ <-]; auto].
  rewrite bind_run.
  destruct (statement w2) as [[[]|] w3] eqn:E2;
    apply statement_store_eq in E2 as [T2 U2];
    [|intros [= _ <-]; split; congruence].
  destruct (statement w3) as [[[]|] w4] eqn:E3;
    apply statement_store_eq in E3 as [T3 U3];
    intros [= _ <-]; simpl; split; congruence.
Qed.

Lemma ensureDbInitialized_store (w : World) :
  todos (snd (ensureDbInitialized w)) = todos w
  /\ users (snd (ensureDbInitialized w)) = users w.
Proof.
  destruct (ensureDbInitialized w) as [o w1] eqn:E.
  exact (ensureDbInitialized_store_eq _ _ _ E).
Qed.

Lemma getTodoById_store (id : Z) (w : World) :
  todos (snd (getTodoById id w)) = todos w
  /\ users (snd (getTodoById id w)) = users w
  /\ (forall r, fst (getTodoById id w) = Ret r -> r = todos w !! id).
Proof.
  unfold getTodoById, sql_select_todo. rewrite bind_run.
  destruct (statement w) as [[[]|] w1] eqn:E1;
    pose proof (statement_store w) as [T1 U1]; rewrite E1 in T1, U1; simpl in T1, U1.
  - simpl. repeat split; auto. intros r [= <-]. by rewrite T1.
  - simpl. repeat split; auto. discriminate.
Qed.

(** Whatever the backend and the session, PATCH and DELETE answer 403 only
    from the ownership check, that is after the lookup has found the todo,
    and without having written. *)
Lemma PATCH_guarded session id request w resp w' :
  PATCH session id request w = (Ret resp, w') ->
  status resp = 403 ->
  (exists n t, parseInt id = Some n /\ todos w !! n = Some t
               /\ Some (Todo.user_id t) <> userId session)
  /\ todos w' = todos w /\ users w' = users w.
Proof.
  unfold PATCH, try_catch. rewrite bind_run.
  pose proof (ensureDbInitialized_store w) as [T1 U1].
  destruct (ensureDbInitialized w) as [[[]|] w1]; simpl in T1, U1;
    [|intros [= <- _]; discriminate].
  destruct (notAuthenticated session); [intros [= <- _]; discriminate|].
  destruct (parseInt id) as [n|]; [|intros [= <- _]; discriminate].
  rewrite bind_run.
  pose proof (getTodoById_store n w1) as (T2 & U2 & R2).
  destruct (getTodoById n w1) as [[r|] w2]; simpl in T2, U2, R2;
    [|intros [= <- _]; discriminate].
  specialize (R2 r eq_refl). subst r. rewrite T1.
  destruct (todos w !! n) as [t|] eqn:Ht; [|intros [= <- _]; discriminate].
  destruct (bool_decide (Some (Todo.user_id t) = userId session)) eqn:Hown.
  - cbn [negb]. intros Hr Hs. exfalso. revert Hr.
    rewrite bind_run. destruct request as [updates|]; simpl request_json;
      [|intros [= <- _]; discriminate].
    unfold mret at 1, M_ret at 1. rewrite bind_run. unfold get_world at 1.
    destruct (filterUpdates t (date_now w2) updates) as [f|r|] eqn:Hf.
    + rewrite bind_run.
      destruct (updateTodo n f w2) as [[[todo|]|] w3];
        intros [= <- _]; discriminate.
    + intros [= <- _].
      destruct (filterUpdates_return _ _ _ _ Hf) as [->| ->]; discriminate.
    + intros [= <- _]. discriminate.
  - cbn [negb]. intros [= <- <-] _. apply bool_decide_eq_false in Hown.
    split; [by exists n, t|]. split; congruence.
Qed.

Lemma DELETE_guarded session id w resp w' :
  DELETE session id w = (Ret resp, w') ->
  status resp = 403 ->
  (exists n t, parseInt id = Some n /\ todos w !! n = Some t
               /\ Some (Todo.user_id t) <> userId session)
  /\ todos w' = todos w /\ users w' = users w.
Proof.
  unfold DELETE, try_catch. rewrite bind_run.
  pose proof (ensureDbInitialized_store w) as [T1 U1].
  destruct (ensureDbInitialized w) as [[[]|] w1]; simpl in T1, U1;
    [|intros [= <- _]; discriminate].
  destruct (notAuthenticated session); [intros [= <- _]; discriminate|].
  destruct (parseInt id) as [n|]; [|intros [= <- _]; discriminate].
  rewrite bind_run.
  pose proof (getTodoById_store n w1) as (T2 & U2 & R2).
  destruct (getTodoById n w1) as [[r|] w2]; simpl in T2, U2, R2;
    [|intros [= <- _]; discriminate].
  specialize (R2 r eq_refl). subst r. rewrite T1.
  destruct (todos w !! n) as [t|] eqn:Ht; [|intros [= <- _]; discriminate].
  destruct (bool_decide (Some (Todo.user_id t) = userId session)) eqn:Hown.
  - cbn [negb]. intros Hr Hs. exfalso. revert Hr.
    rewrite bind_run.
    destruct (deleteTodo n w2) as [[[|]|] w3]; intros [= <- _]; discriminate.
  - cbn [negb]. intros [= <- <-] _. apply bool_decide_eq_false in Hown.
    split; [by exists n, t|]. split; congruence.
Qed.

(** A request on the todo of another user never reaches [updateTodo] or
    [deleteTodo], whether the backend fails or not: the tables are left as
    they were. *)
Lemma PATCH_foreign_store session id n t request w :
  parseInt id = Some n -> todos w !! n = Some t ->
  Some (Todo.user_id t) <> userId session ->
  todos (snd (PATCH session id request w)) = todos w
  /\ users (snd (PATCH session id request w)) = users w.
Proof.
  intros Hid Ht Hown. unfold PATCH, try_catch. rewrite bind_run.
  pose proof (ensureDbInitialized_store w) as [T1 U1].
  destruct (ensureDbInitialized w) as [[[]|] w1]; simpl in T1, U1; [|by simpl].
  destruct (notAuthenticated session); [by simpl|].
  rewrite Hid, bind_run.
  pose proof (getTodoById_store n w1) as (T2 & U2 & R2).
  destruct (getTodoById n w1) as [[r|] w2]; simpl in T2, U2, R2;
    [|simpl; split; congruence].
  specialize (R2 r eq_refl). subst r. rewrite T1, Ht.
  rewrite bool_decide_eq_false_2 by exact Hown. simpl. split; congruence.
Qed.

Lemma DELETE_foreign_store session id n t w :
  parseInt id = Some n -> todos w !! n = Some t ->
  Some (Todo.user_id t) <> userId session ->
  todos (snd (DELETE session id w)) = todos w
  /\ users (snd (DELETE session id w)) = users w.
Proof.
  intros Hid Ht Hown. unfold DELETE, try_catch. rewrite bind_run.
  pose proof (ensureDbInitialized_store w) as [T1 U1].
  destruct (ensureDbInitialized w) as [[[]|] w1]; simpl in T1, U1; [|by simpl].
  destruct (notAuthenticated session); [by simpl|].
  rewrite Hid, bind_run.
  pose proof (getTodoById_store n w1) as (T2 & U2 & R2).
  destruct (getTodoById n w1) as [[r|] w2]; simpl in T2, U2, R2;
    [|simpl; split; congruence].
  specialize (R2 r eq_refl). subst r. rewrite T1, Ht.
  rewrite bool_decide_eq_false_2 by exact Hown. simpl. split; congruence.
Qed.

(** ** Ownership and the order of the checks *)

(** C4.  An update or a delete request of an authenticated user on an
    existing todo of another user leaves both tables as they were, whether
    the backend fails or not (neither [updateTodo] nor [deleteTodo] runs),
    and on a healthy backend it is answered 403. *)
Theorem foreign_todo_forbidden
    (w : World) (session : SessionData) (id : string) (n : Z) (t : Todo.t)
    (request : option jsval) :
  notAuthenticated session = false ->
  parseInt id = Some n ->
  todos w !! n = Some t ->
  Some (Todo.user_id t) <> userId session ->
  (todos (snd (PATCH session id request w)) = todos w
   /\ users (snd (PATCH session id request w)) = users w
   /\ todos (snd (DELETE session id w)) = todos w
   /\ users (snd (DELETE session id w)) = users w)
  /\ (healthy w ->
      fst (PATCH session id request w) = Ret (json (ErrorBody "Unauthorized") 403)
      /\ fst (DELETE session id w) = Ret (json (ErrorBody "Unauthorized") 403)).
Proof.
  intros Ha Hid Ht Hown. split.
  - destruct (PATCH_foreign_store session id n t request w Hid Ht Hown).
    destruct (DELETE_foreign_store session id n t w Hid Ht Hown).
    auto.
  - intros H.
    rewrite (PATCH_lookup _ _ n _ _ H Ha Hid), (DELETE_lookup _ _ n _ H Ha Hid), Ht.
    by rewrite bool_decide_eq_false_2 by exact Hown.
Qed.

Lemma foreign_todo_forbidden_witness :
  let request := Some (JObj [("completed", JBool true)]) in
  (todos (snd (PATCH bob_session "12" request dev_world)) = todos dev_world
   /\ users (snd (PATCH bob_session "12" request dev_world)) = users dev_world
   /\ todos (snd (DELETE bob_session "12" dev_world)) = todos dev_world
   /\ users (snd (DELETE bob_session "12" dev_world)) = users dev_world)
  /\ (healthy dev_world ->
      fst (PATCH bob_session "12" request dev_world)
      = Ret (json (ErrorBody "Unauthorized") 403)
      /\ fst (DELETE bob_session "12" dev_world)
         = Ret (json (ErrorBody "Unauthorized") 403)).
Proof.
  apply (foreign_todo_forbidden dev_world bob_session "12" 12 buy_milk);
    [reflexivity | reflexivity | reflexivity | discriminate].
Defined.

(** C7.  The lookup comes before the ownership check.  A request of any
    authenticated user for an id that no todo has is answered 404 (on a
    healthy backend; a failing one gives 500).  On any backend and for any
    session, an answer 403 is given only when the todo exists and its
    [user_id] is not the [userId] of the session. *)
Theorem not_found_before_forbidden
    (w : World) (session : SessionData) (id : string) (request : option jsval) :
  (forall n,
      healthy w ->
      notAuthenticated session = false ->
      parseInt id = Some n ->
      todos w !! n = None ->
      fst (PATCH session id request w) = Ret (json (ErrorBody "Todo not found") 404)
      /\ fst (DELETE session id w) = Ret (json (ErrorBody "Todo not found") 404))
  /\ (forall resp w',
        PATCH session id request w = (Ret resp, w')
        \/ DELETE session id w = (Ret resp, w') ->
        status resp = 403 ->
        exists n t, parseInt id = Some n /\ todos w !! n = Some t
                    /\ Some (Todo.user_id t) <> userId session).
Proof.
  split.
  - intros n H Ha Hid Ht.
    rewrite (PATCH_lookup _ _ n _ _ H Ha Hid), (DELETE_lookup _ _ n _ H Ha Hid), Ht.
    by split.
  - intros resp w' [Hr|Hr] Hs.
    + by destruct (PATCH_guarded _ _ _ _ _ _ Hr Hs).
    + by destruct (DELETE_guarded _ _ _ _ _ Hr Hs).
Qed.

Lemma not_found_before_forbidden_witness :
  (fst (PATCH bob_session "13" None dev_world)
   = Ret (json (ErrorBody "Todo not found") 404)
   /\ fst (DELETE bob_session "13" dev_world)
      = Ret (json (ErrorBody "Todo not found") 404))
  /\ (forall resp w',
        PATCH bob_session "12" None dev_world = (Ret resp, w')
        \/ DELETE bob_session "12" dev_world = (Ret resp, w') ->
        status resp = 403 ->
        exists n t, parseInt "12" = Some n /\ todos dev_world !! n = Some t
                    /\ Some (Todo.user_id t) <> userId bob_session).
Proof.
  split.
  - apply (proj1 (not_found_before_forbidden dev_world bob_session "13" None) 13);
      reflexivity.
  - apply (proj2 (not_found_before_forbidden dev_world bob_session "12" None)).
Defined.

(** ** Identifier of the path *)

(** C9.  For an authenticated request, the answer is the invalid-id answer
    exactly when [parseInt] of the path segment is NaN.  The segment
    [12abc] parses to 12: a request with that segment is the request with
    the segment [12], and a delete request of the owner removes the
    todo 12. *)
Theorem invalid_id_iff_NaN
    (w : World) (session : SessionData) (id : string) (request : option jsval) :
  healthy w ->
  notAuthenticated session = false ->
  (fst (PATCH session id request w) = Ret (json (ErrorBody "Invalid todo ID") 400)
   <-> parseInt id = None)
  /\ (fst (DELETE session id w) = Ret (json (ErrorBody "Invalid todo ID") 400)
      <-> parseInt id = None)
  /\ parseInt "12abc" = Some 12
  /\ PATCH session "12abc" request w = PATCH session "12" request w
  /\ DELETE session "12abc" w = DELETE session "12" w
  /\ (forall t, todos w !! 12 = Some t ->
        Some (Todo.user_id t) = userId session ->
        exists w', DELETE session "12abc" w = (Ret (json SuccessBody 200), w')
                   /\ todos w' = delete 12 (todos w)).
Proof.
  intros H Ha. split; [|split; [|split; [|split; [|split]]]].
  - split.
    + intros Hresp. destruct (parseInt id) as [n|] eqn:Hid; [|reflexivity]. exfalso.
      revert Hresp. rewrite (PATCH_lookup _ _ n _ _ H Ha Hid).
      destruct (todos w !! n) as [t|]; [|discriminate].
      destruct (bool_decide (Some (Todo.user_id t) = userId session)); [|discriminate].
      destruct request as [updates|]; [|discriminate].
      destruct (filterUpdates t (date_now w) updates) as [f|r|] eqn:Hf.
      * destruct (respond_update (updateTodo n f (booted w))) as [[resp|] w'] eqn:Hr;
          [|discriminate].
        apply respond_update_status in Hr. simpl. intros [= ->]. simpl in Hr. lia.
      * simpl. intros [= ->].
        destruct (filterUpdates_return _ _ _ _ Hf); discriminate.
      * discriminate.
    + intros Hid. by rewrite (PATCH_invalid_id _ _ _ _ H Ha Hid).
  - split.
    + intros Hresp. destruct (parseInt id) as [n|] eqn:Hid; [|reflexivity]. exfalso.
      revert Hresp. rewrite (DELETE_lookup _ _ n _ H Ha Hid).
      destruct (todos w !! n) as [t|]; [|discriminate].
      destruct (bool_decide (Some (Todo.user_id t) = userId session)); discriminate.
    + intros Hid. by rewrite (DELETE_invalid_id _ _ _ H Ha Hid).
  - reflexivity.
  - reflexivity.
  - reflexivity.
  - intros t Ht Hown. eexists.
    rewrite (DELETE_lookup session "12abc" 12 w H Ha eq_refl), Ht.
    rewrite bool_decide_eq_true_2 by exact Hown. split; reflexivity.
Qed.

Lemma invalid_id_iff_NaN_witness :
  (fst (PATCH alice_session "12abc" None dev_world)
   = Ret (json (ErrorBody "Invalid todo ID") 400)
   <-> parseInt "12abc" = None)
  /\ (fst (DELETE alice_session "12abc" dev_world)
      = Ret (json (ErrorBody "Invalid todo ID") 400)
      <-> parseInt "12abc" = None)
  /\ parseInt "12abc" = Some 12
  /\ PATCH alice_session "12abc" None dev_world = PATCH alice_session "12" None dev_world
  /\ DELETE alice_session "12abc" dev_world = DELETE alice_session "12" dev_world
  /\ (forall t, todos dev_world !! 12 = Some t ->
        Some (Todo.user_id t) = userId alice_session ->
        exists w', DELETE alice_session "12abc" dev_world = (Ret (json SuccessBody 200), w')
                   /\ todos w' = delete 12 (todos dev_world)).
Proof.
  apply (invalid_id_iff_NaN dev_world alice_session "12abc" None); reflexivity.
Defined.

(** ** Creation *)

Lemma session_user session :
  notAuthenticated session = false ->
  Some (default 0 (userId session)) = userId session.
Proof.
  unfold notAuthenticated. destruct (userId session); [intros _; reflexivity|].
  simpl. rewrite orb_true_r. discriminate.
Qed.

Lemma trim_or_null_kept (pg : bool) (c : column) (x : option jsval) (v : jsval) :
  c = Description \/ c = Category ->
  trim_or_null x = Some v -> kept_as_bound pg c v = true.
Proof.
  intros Hc. unfold trim_or_null.
  destruct x as [[| | |s| |]|]; try discriminate; intros [= <-];
    try (by destruct Hc as [->| ->]).
  destruct (String.eqb _ _); by destruct Hc as [->| ->].
Qed.

(** The columns of an inserted row. *)
Lemma inserted_row_columns w userId title description priority category dueDate row :
  inserted_row w userId (JStr title) description priority category dueDate = Some row ->
  Todo.id row = todos_seq w + 1
  /\ Todo.user_id row = userId
  /\ Todo.title row = JStr title
  /\ stored_value (isProduction w) Description description = Some (Todo.description row)
  /\ stored_value (isProduction w) Priority priority = Some (Todo.priority row)
  /\ stored_value (isProduction w) Category category = Some (Todo.category row)
  /\ stored_value (isProduction w) DueDate dueDate = Some (Todo.due_date row)
  /\ Todo.completed row = (if isProduction w then JBool false else JNum 0)
  /\ Todo.completed_at row = JNull
  /\ Todo.created_at row = current_timestamp w
  /\ Todo.updated_at row = current_timestamp w.
Proof.
  unfold inserted_row. cbv zeta.
  assert (stored_value (isProduction w) Title (JStr title) = Some (JStr title)) as ->
    by (by destruct (isProduction w)).
  destruct (stored_value _ Description _), (stored_value _ Priority _),
    (stored_value _ Category _), (stored_value _ DueDate _); try discriminate.
  intros [= <-]. by repeat split.
Qed.

Lemma createTodo_healthy w userId title description priority category dueDate :
  healthy w ->
  createTodo userId title description priority category dueDate w =
  match inserted_row w userId (JStr title) description priority category dueDate with
  | None => (Ret None, w)
  | Some row =>
      match users w !! userId, todos w !! (todos_seq w + 1) with
      | Some _, None =>
          if row_ok (isProduction w) row
          then (Ret (Some row),
                set_todos (<[todos_seq w + 1 := row]> (todos w)) (todos_seq w + 1) w)
          else (Ret None, w)
      | _, _ => (Ret None, w)
      end
  end.
Proof.
  intros H. unfold createTodo, try_async.
  rewrite bind_run. unfold get_world at 1.
  destruct (isProduction w) eqn:Ep; rewrite bind_run; unfold sql_insert_todo;
    rewrite bind_run, (statement_healthy _ H); rewrite bind_run; unfold get_world at 1;
    (destruct (inserted_row w userId (JStr title) description priority category dueDate)
       as [row|] eqn:Er; [|reflexivity]);
    pose proof (proj1 (inserted_row_columns _ _ _ _ _ _ _ _ Er)) as Hid;
    destruct (users w !! userId); try reflexivity;
    destruct (todos w !! (todos_seq w + 1)); try reflexivity;
    rewrite Ep;
    match goal with |- context [row_ok ?b ?r] => destruct (row_ok b r) end;
    try reflexivity.
  rewrite bind_run. unfold put_world, mret, M_ret.
  rewrite getTodoById_healthy by exact H.
  simpl. by rewrite Hid, lookup_insert_eq.
Qed.

(** Values the columns store unchanged give the row of the arguments. *)
Lemma inserted_row_unchanged w userId title description priority category dueDate :
  stored_value (isProduction w) Description description = Some description ->
  stored_value (isProduction w) Priority priority = Some priority ->
  stored_value (isProduction w) Category category = Some category ->
  stored_value (isProduction w) DueDate dueDate = Some dueDate ->
  inserted_row w userId (JStr title) description priority category dueDate
  = Some (new_row w userId title description priority category dueDate).
Proof.
  intros Hd Hp Hc Hdu. unfold inserted_row. cbv zeta.
  rewrite Hd, Hp, Hc, Hdu.
  unfold new_row. by destruct (isProduction w).
Qed.

(** A string or null is stored unchanged in every column but [completed]. *)
Lemma stored_value_text (pg : bool) (c : column) (v : jsval) :
  c <> Completed ->
  match v with JNull | JStr _ => True | _ => False end ->
  stored_value pg c v = Some v.
Proof.
  intros Hc Hv. destruct v; try done; destruct pg, c; done.
Qed.

(** Values that are kept as bound give the row of the arguments. *)
Lemma inserted_row_as_bound w userId title description priority category dueDate :
  kept_as_bound (isProduction w) Description description = true ->
  kept_as_bound (isProduction w) Priority priority = true ->
  kept_as_bound (isProduction w) Category category = true ->
  kept_as_bound (isProduction w) DueDate dueDate = true ->
  inserted_row w userId (JStr title) description priority category dueDate
  = Some (new_row w userId title description priority category dueDate).
Proof.
  intros Hd Hp Hc Hdu. unfold inserted_row. cbv zeta.
  rewrite (kept_as_bound_stored _ _ _ Hd), (kept_as_bound_stored _ _ _ Hp),
    (kept_as_bound_stored _ _ _ Hc), (kept_as_bound_stored _ _ _ Hdu).
  unfold new_row. by destruct (isProduction w).
Qed.

Lemma createTodo_result w userId title description priority category dueDate todo w' :
  healthy w ->
  createTodo userId title description priority category dueDate w = (Ret (Some todo), w') ->
  inserted_row w userId (JStr title) description priority category dueDate = Some todo
  /\ todos w' = <[Todo.id todo := todo]> (todos w)
  /\ users w' = users w.
Proof.
  intros H. rewrite (createTodo_healthy _ _ _ _ _ _ _ H).
  destruct (inserted_row _ _ _ _ _ _ _) as [row|] eqn:Er; [|discriminate].
  destruct (inserted_row_columns _ _ _ _ _ _ _ _ Er) as (Hid & _).
  destruct (users w !! userId); [|discriminate].
  destruct (todos w !! (todos_seq w + 1)); [discriminate|].
  destruct (row_ok _ _); [|discriminate].
  intros [= <- <-]. rewrite Hid. auto.
Qed.

Lemma POST_healthy session props w :
  healthy w -> notAuthenticated session = false ->
  POST session (Some (JObj props)) w =
  match blank (assoc "title" props), assoc "title" props with
  | Some true, _ => (Ret (json (ErrorBody "Title is required") 400), booted w)
  | Some false, Some (JStr title) =>
      if (500 <? String.length title)%nat
      then (Ret (json (ErrorBody "Title must be less than 500 characters") 400), booted w)
      else
        match trim_or_null (assoc "description" props),
              trim_or_null (assoc "category" props) with
        | Some description, Some category =>
            respond_create
              (createTodo (default 0 (userId session)) (trim title) description
                 (finalPriority (assoc "priority" props)) category
                 (if truthy_opt (assoc "dueDate" props)
                  then default JNull (assoc "dueDate" props) else JNull)
                 (booted w))
        | _, _ =>
            (Ret (json (ErrorBody "An error occurred while creating todo") 500), booted w)
        end
  | _, _ => (Ret (json (ErrorBody "An error occurred while creating todo") 500), booted w)
  end.
Proof.
  intros H Ha. unfold POST, try_catch.
  rewrite bind_run, (ensureDbInitialized_healthy _ H), Ha.
  rewrite bind_run. simpl request_json. unfold mret at 1, M_ret at 1.
  change (destructure (JObj props)) with (Some (fun k => assoc k props)).
  cbv beta iota.
  destruct (blank (assoc "title" props)) as [[|]|]; try reflexivity.
  destruct (assoc "title" props) as [[| | |title| |]|]; try reflexivity.
  destruct (500 <? String.length title)%nat; [reflexivity|].
  destruct (trim_or_null (assoc "description" props)) as [d|]; [|reflexivity].
  destruct (trim_or_null (assoc "category" props)) as [c|]; [|reflexivity].
  rewrite bind_run. unfold respond_create.
  destruct (createTodo _ _ _ _ _ _ _) as [[[todo|]|] w']; reflexivity.
Qed.

Lemma finalPriority_fits p : fits 20 (finalPriority p) = true.
Proof.
  unfold finalPriority. destruct p as [[| | |s| |]|]; try reflexivity.
  simpl. destruct (String.eqb_spec s "high") as [->|]; [reflexivity|].
  destruct (String.eqb_spec s "medium") as [->|]; [reflexivity|].
  destruct (String.eqb_spec s "low") as [->|]; reflexivity.
Qed.


Lemma finalPriority_string p :
  exists x, finalPriority p = JStr x /\ (String.length x <= 20)%nat.
Proof.
  pose proof (finalPriority_fits p) as Hf. revert Hf. unfold finalPriority.
  destruct p as [[| | |s| |]|]; simpl; try (intros _; exists "medium"; split; [done|simpl; lia]).
  destruct (_ || _); simpl; intros Hf.
  - exists s. split; [done|]. by apply Nat.leb_le.
  - exists "medium". split; [done|simpl; lia].
Qed.




(** The request of the witness: the todo is created for alice, with
    priority [medium] and the trimmed title. *)
Example create_sample :
  fst (POST alice_session
         (Some (JObj [("title", JStr " Buy milk "); ("priority", JStr "urgent");
                      ("user_id", JNum 2)])) dev_world)
  = Ret (json (TodoBody
                 (Todo.mk 13 1 (JStr "Buy milk") JNull (JStr "medium") JNull (JNum 0)
                    JNull JNull "2026-03-01 10:00:00" "2026-03-01 10:00:00")) 201).
Proof. reflexivity. Qed.

(** ** Length of a stored title *)

(** C5 does not hold of the code.  The creation path rejects a title of
    501 code units, but the update path has no length check: on the SQLite
    backend, whose [title] column is unbounded, PATCH by the owner stores
    it. *)
Theorem update_stores_long_title :
  let body := Some (JObj [("title", JStr (title_of_length 501))]) in
  fst (POST alice_session body dev_world)
  = Ret (json (ErrorBody "Title must be less than 500 characters") 400)
  /\ exists (t' : Todo.t) (w' : World),
       PATCH alice_session "12" body dev_world = (Ret (json (TodoBody t') 200), w')
       /\ todos w' !! 12 = Some t'
       /\ Todo.title t' = JStr (title_of_length 501)
       /\ String.length (title_of_length 501) = 501%nat.
Proof.
  split; [by vm_compute|].
  eexists _, _. split; [by vm_compute|]. by vm_compute.
Qed.

(** What creation does guarantee: the title of a created todo is a string
    that is trimmed, not empty, and at most 500 code units long. *)
Lemma created_title_bounded (w : World) (session : SessionData)
    (props : list (string * jsval)) (todo : Todo.t) (w' : World) :
  healthy w ->
  notAuthenticated session = false ->
  POST session (Some (JObj props)) w = (Ret (json (TodoBody todo) 201), w') ->
  exists s, assoc "title" props = Some (JStr s)
            /\ Todo.title todo = JStr (trim s)
            /\ trim s <> ""
            /\ (String.length (trim s) <= 500)%nat.
Proof.
  intros H Ha. rewrite (POST_healthy _ _ _ H Ha).
  destruct (blank (assoc "title" props)) as [[|]|] eqn:Hb; try discriminate.
  destruct (assoc "title" props) as [[| | |title| |]|]; try discriminate.
  destruct (500 <? String.length title)%nat eqn:Hlen; [discriminate|].
  destruct (trim_or_null (assoc "description" props)) as [d|]; [|discriminate].
  destruct (trim_or_null (assoc "category" props)) as [c|]; [|discriminate].
  destruct (createTodo _ _ _ _ _ _ _) as [[[todo'|]|] w''] eqn:Hc; try discriminate.
  intros [= -> ->].
  apply createTodo_result in Hc as (Hrow & _ & _); [|by apply booted_healthy].
  apply inserted_row_columns in Hrow as (_ & _ & Hti & _).
  exists title. repeat split.
  - exact Hti.
  - intros Ht. revert Hb. unfold blank. simpl. rewrite Ht.
    destruct (negb (negb (String.eqb title ""))); discriminate.
  - apply Nat.ltb_ge in Hlen. pose proof (trim_length title). lia.
Qed.

(** ** Completion statistics *)

Lemma getCompletedTodoStats_healthy (userId : Z) (w : World) :
  healthy w ->
  getCompletedTodoStats userId w =
  (let rows := rows_of_user userId (todos w) in
   let total := Z.of_nat (length rows) in
   let completed :=
     Z.of_nat (length (filter (fun t => sql_is_true (Todo.completed t) = true) rows)) in
   (Ret (mkStats total completed (completionRateOf total completed)), w)).
Proof.
  intros H. unfold getCompletedTodoStats, sql_select_stats.
  rewrite !bind_run, (statement_healthy _ H). rewrite bind_run. unfold get_world.
  simpl. by destruct (rows_of_user userId (todos w)).
Qed.

(** A user without todos has the statistics 0, 0, 0. *)
Lemma stats_no_todos (userId : Z) (w : World) :
  healthy w ->
  rows_of_user userId (todos w) = [] ->
  getCompletedTodoStats userId w = (Ret (mkStats 0 0 0), w).
Proof.
  intros H Hrows. rewrite (getCompletedTodoStats_healthy _ _ H), Hrows. reflexivity.
Qed.

Lemma completionRateOf_zero (completed : Z) : completionRateOf 0 completed = 0.
Proof. reflexivity. Qed.

(** One of three todos completed: 33. *)
Example completionRateOf_one_third : completionRateOf 3 1 = 33.
Proof. by vm_compute. Qed.

(** C6 does not hold of the code.  With 23 of 40 todos completed,
    100 * 23 / 40 is 57.5, which rounds to 58; the code multiplies the
    binary64 quotient 23 / 40 by 100, obtains a number just below 57.5, and
    returns 57. *)
Theorem stats_rate_off_by_one :
  fst (getCompletedTodoStats 1 busy_world) = Ret (mkStats 40 23 57)
  /\ number_mul (number_div (number_of_Z 23) (number_of_Z 40)) (number_of_Z 100)
     = S754_finite false 8092405580431359 (-47)
  /\ 8092405580431359 < 115 * 2 ^ 46
  /\ (2 * (100 * 23) + 40) / (2 * 40) = 58.
Proof. repeat split; by vm_compute. Qed.

(** * Further properties *)

(** ** The persistence layer on any backend *)

Lemma statement_world (w w1 : World) (o : outcome unit) :
  statement w = (o, w1) -> w1 = set_faults (faults w1) w.
Proof.
  unfold statement. destruct w as [p u t us ts i f d c]. simpl.
  destruct f as [|[|] fs]; intros [= <- <-]; reflexivity.
Qed.

Lemma sql_update_todo_any id sets stamp w o w' :
  sql_update_todo id sets stamp w = (o, w') ->
  users w' = users w
  /\ ((todos w' = todos w /\ (o = Throw \/ (o = Ret None /\ todos w !! id = None)))
      \/ exists t values,
           todos w !! id = Some t
           /\ stored_sets (isProduction w) sets = Some values
           /\ todos w' = <[id := set_updated_at stamp (apply_sets values t)]> (todos w)
           /\ o = Ret (Some (set_updated_at stamp (apply_sets values t)))).
Proof.
  unfold sql_update_todo. rewrite bind_run.
  destruct (statement w) as [[[]|] w1] eqn:E1; apply statement_world in E1;
    [|intros [= <- <-]; rewrite E1; simpl; auto].
  rewrite bind_run. unfold get_world at 1.
  destruct (isProduction w1 && _); [intros [= <- <-]; rewrite E1; simpl; auto|].
  replace (isProduction w1) with (isProduction w) by (rewrite E1; reflexivity).
  destruct (stored_sets (isProduction w) sets) as [values|] eqn:Hv;
    [|intros [= <- <-]; rewrite E1; simpl; auto].
  replace (todos w1 !! id) with (todos w !! id) by (rewrite E1; reflexivity).
  destruct (todos w !! id) as [t|] eqn:Ht;
    [|intros [= <- <-]; rewrite E1; simpl; auto 6].
  destruct (row_ok _ _); [|intros [= <- <-]; rewrite E1; simpl; auto].
  intros [= <- <-]. split; [by rewrite E1|]. right. exists t, values.
  split; [reflexivity|]. split; [reflexivity|]. split; [by rewrite E1|reflexivity].
Qed.

(** On any backend: [updateTodo] writes no other row and no user; what it
    writes to its row is the field list, with the values as the columns
    hold them, followed by the refreshed [updated_at]; a record it returns
    is the stored one. *)
Lemma updateTodo_any id updates w o w' :
  updateTodo id updates w = (o, w') ->
  users w' = users w
  /\ (todos w' = todos w
      \/ exists t values stamp,
           todos w !! id = Some t /\ updates <> []
           /\ stored_sets (isProduction w) updates = Some values
           /\ todos w' = <[id := set_updated_at stamp (apply_sets values t)]> (todos w))
  /\ (forall r, o = Ret (Some r) -> todos w' !! id = Some r).
Proof.
  unfold updateTodo, try_async.
  destruct (length updates =? 0)%nat eqn:El.
  - cbn -[getTodoById]. intros E.
    pose proof (getTodoById_store id w) as (T & U & R). rewrite E in T, U, R.
    simpl in T, U, R. split; [done|]. split; [by left|].
    intros r ->. rewrite T. symmetry. exact (R _ eq_refl).
  - assert (Hne : updates <> []) by (intros ->; discriminate).
    rewrite bind_run. unfold get_world at 1.
    destruct (isProduction w) eqn:Ep.
    + rewrite bind_run.
      destruct (sql_update_todo id updates (date_now w) w) as [o1 w1] eqn:E1.
      apply sql_update_todo_any in E1 as [U [[T [->|[-> Hn]]]|(t & values & Ht & Hv & T & ->)]].
      * intros [= <- <-]. split; [done|]. split; [by left|]. discriminate.
      * intros [= <- <-]. split; [done|]. split; [by left|]. discriminate.
      * rewrite Ep in Hv.
        intros [= <- <-]. split; [done|]. split; [right; eauto 10|].
        intros r [= <-]. rewrite T. apply lookup_insert_eq.
    + rewrite bind_run.
      destruct (sql_update_todo id updates (current_timestamp w) w) as [o1 w1] eqn:E1.
      apply sql_update_todo_any in E1 as [U [[T [->|[-> Hn]]]|(t & values & Ht & Hv & T & ->)]].
      * intros [= <- <-]. split; [done|]. split; [by left|]. discriminate.
      * cbn -[getTodoById]. intros E.
        pose proof (getTodoById_store id w1) as (T2 & U2 & R2). rewrite E in T2, U2, R2.
        simpl in T2, U2, R2. split; [congruence|]. split; [left; congruence|].
        intros r ->. rewrite T2. symmetry. exact (R2 _ eq_refl).
      * cbn -[getTodoById]. intros E.
        pose proof (getTodoById_store id w1) as (T2 & U2 & R2). rewrite E in T2, U2, R2.
        rewrite Ep in Hv.
        simpl in T2, U2, R2. split; [congruence|].
        split; [right; exists t, values, (current_timestamp w); repeat split; auto; congruence|].
        intros r ->. rewrite T2. symmetry. exact (R2 _ eq_refl).
Qed.

Lemma deleteTodo_any id w o w' :
  deleteTodo id w = (o, w') ->
  users w' = users w
  /\ ((todos w' = todos w /\ o = Ret false)
      \/ (is_Some (todos w !! id) /\ todos w' = delete id (todos w) /\ o = Ret true)).
Proof.
  unfold deleteTodo, try_catch, sql_delete_todo. rewrite !bind_run.
  destruct (statement w) as [[[]|] w1] eqn:E1; apply statement_world in E1;
    [|intros [= <- <-]; rewrite E1; simpl; auto].
  rewrite bind_run. unfold get_world at 1.
  replace (todos w1 !! id) with (todos w !! id) by (rewrite E1; reflexivity).
  destruct (todos w !! id) as [t|] eqn:Ht.
  - intros [= <- <-]. split; [by rewrite E1|]. right.
    split; [eauto|]. split; [by rewrite E1|reflexivity].
  - intros [= <- <-]. rewrite E1. simpl. auto.
Qed.

Lemma sql_insert_todo_any userId ti de pr ca du w o w' :
  sql_insert_todo userId ti de pr ca du w = (o, w') ->
  users w' = users w
  /\ ((todos w' = todos w /\ o = Throw)
      \/ exists row,
           o = Ret row
           /\ inserted_row w userId ti de pr ca du = Some row
           /\ todos w !! (todos_seq w + 1) = None
           /\ is_Some (users w !! userId)
           /\ row_ok (isProduction w) row = true
           /\ todos w' = <[todos_seq w + 1 := row]> (todos w)).
Proof.
  unfold sql_insert_todo. rewrite bind_run.
  destruct (statement w) as [[[]|] w1] eqn:E1; apply statement_world in E1;
    [|intros [= <- <-]; rewrite E1; simpl; auto].
  rewrite bind_run. unfold get_world at 1.
  replace (inserted_row w1 userId ti de pr ca du)
    with (inserted_row w userId ti de pr ca du) by (rewrite E1; reflexivity).
  destruct (inserted_row w userId ti de pr ca du) as [row|] eqn:Hrow;
    [|intros [= <- <-]; rewrite E1; simpl; auto].
  replace (users w1 !! userId) with (users w !! userId) by (rewrite E1; reflexivity).
  replace (todos w1 !! (todos_seq w1 + 1)) with (todos w !! (todos_seq w + 1))
    by (rewrite E1; reflexivity).
  replace (isProduction w1) with (isProduction w) by (rewrite E1; reflexivity).
  replace (todos_seq w1) with (todos_seq w) by (rewrite E1; reflexivity).
  destruct (users w !! userId) as [u|] eqn:Hu;
    [|intros [= <- <-]; rewrite E1; simpl; auto].
  destruct (todos w !! (todos_seq w + 1)) eqn:Hk;
    [intros [= <- <-]; rewrite E1; simpl; auto|].
  destruct (row_ok _ _) eqn:Hok; [|intros [= <- <-]; rewrite E1; simpl; auto].
  intros [= <- <-]. split; [by rewrite E1|]. right. exists row.
  split; [reflexivity|]. split; [reflexivity|]. split; [done|]. split; [eauto|].
  split; [exact Hok|]. by rewrite E1.
Qed.

(** On any backend: [createTodo] writes at most one row, under a key that
    was free, for the given user; a record it returns is the stored one
    with the defaults of the schema. *)
Lemma createTodo_any userId title de pr ca du w o w' :
  createTodo userId title de pr ca du w = (o, w') ->
  users w' = users w
  /\ (todos w' = todos w
      \/ exists row,
           inserted_row w userId (JStr title) de pr ca du = Some row
           /\ todos w !! (todos_seq w + 1) = None
           /\ todos w' = <[todos_seq w + 1 := row]> (todos w))
  /\ (forall r, o = Ret (Some r) ->
        inserted_row w userId (JStr title) de pr ca du = Some r
        /\ todos w' !! Todo.id r = Some r
        /\ todos w !! Todo.id r = None).
Proof.
  unfold createTodo, try_async. rewrite bind_run. unfold get_world at 1.
  destruct (isProduction w) eqn:Ep.
  - rewrite bind_run.
    destruct (sql_insert_todo userId (JStr title) de pr ca du w) as [o1 w1] eqn:E1.
    apply sql_insert_todo_any in E1 as [U [[T ->]|(row & -> & Hrow & Hk & Hu & Hok & T)]].
    + intros [= <- <-]. split; [done|]. split; [by left|]. discriminate.
    + pose proof (proj1 (inserted_row_columns _ _ _ _ _ _ _ _ Hrow)) as Hid.
      intros [= <- <-]. split; [done|].
      split; [right; eauto|]. intros r [= <-]. split; [done|]. rewrite Hid.
      split; [rewrite T; apply lookup_insert_eq | exact Hk].
  - rewrite bind_run.
    destruct (sql_insert_todo userId (JStr title) de pr ca du w) as [o1 w1] eqn:E1.
    apply sql_insert_todo_any in E1 as [U [[T ->]|(row & -> & Hrow & Hk & Hu & Hok & T)]].
    + intros [= <- <-]. split; [done|]. split; [by left|]. discriminate.
    + pose proof (proj1 (inserted_row_columns _ _ _ _ _ _ _ _ Hrow)) as Hid.
      cbn -[getTodoById]. intros E.
      pose proof (getTodoById_store (Todo.id row) w1) as (T2 & U2 & R2).
      rewrite E in T2, U2, R2. simpl in T2, U2, R2.
      split; [congruence|]. split; [right; exists row; repeat split; [done|done|congruence]|].
      intros r ->. specialize (R2 _ eq_refl). rewrite T, Hid in R2.
      rewrite lookup_insert_eq in R2. injection R2 as ->.
      split; [done|]. rewrite Hid. split; [|exact Hk].
      rewrite T2, T. apply lookup_insert_eq.
Qed.

(** ** Partial update *)







(** ** Completion timestamp *)

(** The [completed_at] that PATCH derives and hands to [updateTodo], on
    either backend: the timestamp of the request when the payload's
    [completed] is true and the todo is not completed; null when it is
    false; no [completed_at] at all when it is true on a completed todo, or
    when the payload has no [completed]. *)
Lemma derived_completed_at (t : Todo.t) (now : string)
    (props : list (string * jsval)) (f : list (column * jsval)) :
  filterUpdates t now (JObj props) = Continue f ->
  (assoc "completed" props = Some (JBool true) ->
   truthy (Todo.completed t) = false ->
   forall v, (CompletedAt, v) ∈ f <-> v = JStr now)
  /\ (assoc "completed" props = Some (JBool false) ->
      forall v, (CompletedAt, v) ∈ f <-> v = JNull)
  /\ (assoc "completed" props = Some (JBool true) ->
      truthy (Todo.completed t) = true ->
      CompletedAt ∉ f.*1)
  /\ (assoc "completed" props = None -> CompletedAt ∉ f.*1).
Proof.
  intros Hf.
  pose proof (fun v => filtered_entry t now props f CompletedAt v Hf
                         ltac:(compute_done)) as Hentry.
  split; [|split; [|split]].
  - intros Hc Hold v. rewrite Hentry. unfold kept. simpl column_name.
    rewrite Hc, Hold, !elem_of_cons, elem_of_nil.
    split; [intros [|[|[]]]; congruence|intros ->; auto].
  - intros Hc v. rewrite Hentry. unfold kept. simpl column_name.
    rewrite Hc, !elem_of_cons, elem_of_nil.
    split; [intros [|[|[]]]; congruence|intros ->; auto].
  - intros Hc Hold Hin. apply list_elem_of_fmap in Hin as [[c v] [Hcv Hin]].
    simpl in Hcv. subst c. apply Hentry in Hin. revert Hin.
    unfold kept. simpl column_name. rewrite Hc, Hold.
    rewrite elem_of_cons, elem_of_nil. intros [|[]]; discriminate.
  - intros Hc Hin. apply list_elem_of_fmap in Hin as [[c v] [Hcv Hin]].
    simpl in Hcv. subst c. apply Hentry in Hin. revert Hin.
    unfold kept. simpl column_name. rewrite Hc. apply not_elem_of_nil.
Qed.

(** On SQLite the driver binds no boolean: an update request of the owner
    whose [completed] is a boolean passes the checks of the loop, and the
    UPDATE fails before it writes; [updateTodo] returns null and PATCH
    answers 500. *)
Lemma PATCH_boolean_on_sqlite (w : World) (session : SessionData) (id : string)
    (n : Z) (t : Todo.t) (props : list (string * jsval)) (b : bool)
    (f : list (column * jsval)) :
  healthy w ->
  isProduction w = false ->
  notAuthenticated session = false ->
  parseInt id = Some n ->
  todos w !! n = Some t ->
  Some (Todo.user_id t) = userId session ->
  assoc "completed" props = Some (JBool b) ->
  filterUpdates t (date_now w) (JObj props) = Continue f ->
  PATCH session id (Some (JObj props)) w
  = (Ret (json (ErrorBody "Failed to update todo") 500), booted w).
Proof.
  intros H Ep Ha Hid Ht Hown Hc Hf.
  assert ((Completed, JBool b) ∈ f) as Hin.
  { apply (filtered_entry t (date_now w) props f Completed (JBool b) Hf);
      [compute_done|].
    unfold kept. simpl column_name. rewrite Hc.
    destruct b; [destruct (truthy _)|]; apply elem_of_cons; by left. }
  rewrite (PATCH_lookup _ _ n _ _ H Ha Hid), Ht.
  rewrite bool_decide_eq_true_2 by exact Hown. rewrite Hf.
  rewrite (updateTodo_refused n f (booted w) (booted_healthy _ H)).
  - reflexivity.
  - intros ->. by apply elem_of_nil in Hin.
  - left. rewrite booted_isProduction, Ep.
    by apply (stored_sets_refused false f Completed (JBool b)).
Qed.

(** On PostgreSQL, whose driver binds the boolean: an update request of
    the owner that passes the checks of the loop, with values of the types
    of their columns and a row that meets the schema, is answered 200 with
    the stored record, and the stored [completed_at] follows the
    transition rule. *)
Lemma completed_at_on_postgres
    (w : World) (session : SessionData) (id : string) (n : Z) (t : Todo.t)
    (props : list (string * jsval)) (f : list (column * jsval)) :
  healthy w ->
  isProduction w = true ->
  notAuthenticated session = false ->
  parseInt id = Some n ->
  todos w !! n = Some t ->
  Some (Todo.user_id t) = userId session ->
  filterUpdates t (date_now w) (JObj props) = Continue f ->
  (forall c v, (c, v) ∈ f -> c <> CompletedAt -> kept_as_bound true c v = true) ->
  row_ok true (apply_sets f t) = true ->
  exists (t' : Todo.t) (w' : World),
    PATCH session id (Some (JObj props)) w = (Ret (json (TodoBody t') 200), w')
    /\ todos w' !! n = Some t'
    /\ (assoc "completed" props = Some (JBool true) ->
        truthy (Todo.completed t) = false ->
        Todo.completed_at t' = JStr (date_now w))
    /\ (assoc "completed" props = Some (JBool false) ->
        Todo.completed_at t' = JNull)
    /\ (assoc "completed" props = Some (JBool true) ->
        truthy (Todo.completed t) = true ->
        Todo.completed_at t' = Todo.completed_at t)
    /\ (assoc "completed" props = None ->
        Todo.completed_at t' = Todo.completed_at t).
Proof.
  intros H Ep Ha Hid Ht Hown Hf Hkept Hok.
  pose proof (filtered_NoDup _ _ _ _ Hf) as Hnd.
  pose proof (fun v => filtered_entry t (date_now w) props f CompletedAt v Hf
                         ltac:(compute_done)) as Hentry.
  destruct (derived_completed_at _ _ _ _ Hf) as (D1 & D2 & D3 & D4).
  assert (stored_sets true f = Some f) as Hval.
  { apply stored_sets_as_bound. intros c v Hin.
    destruct (decide (c = CompletedAt)) as [->|Hc];
      [|apply kept_as_bound_stored; by apply Hkept].
    apply Hentry in Hin. revert Hin. unfold kept. simpl column_name.
    destruct (assoc "completed" props) as [[|[|]| | | |]|];
      try destruct (truthy (Todo.completed t));
      rewrite ?elem_of_cons, elem_of_nil;
      intros Hin; decompose [or] Hin; try done;
      match goal with E : (_, _) = (_, _) |- _ => by injection E as -> end. }
  assert (Hrule :
    (assoc "completed" props = Some (JBool true) ->
     truthy (Todo.completed t) = false ->
     get_col CompletedAt (apply_sets f t) = JStr (date_now w))
    /\ (assoc "completed" props = Some (JBool false) ->
        get_col CompletedAt (apply_sets f t) = JNull)
    /\ (assoc "completed" props = Some (JBool true) ->
        truthy (Todo.completed t) = true ->
        get_col CompletedAt (apply_sets f t) = get_col CompletedAt t)
    /\ (assoc "completed" props = None ->
        get_col CompletedAt (apply_sets f t) = get_col CompletedAt t)).
  { split; [|split; [|split]].
    - intros Hc Hold. apply apply_sets_given; [done| |done]. by apply (D1 Hc Hold).
    - intros Hc. apply apply_sets_given; [done| |done]. by apply (D2 Hc).
    - intros Hc Hold. apply apply_sets_untouched. by apply D3.
    - intros Hc. apply apply_sets_untouched. by apply D4. }
  rewrite (PATCH_lookup _ _ n _ _ H Ha Hid), Ht.
  rewrite bool_decide_eq_true_2 by exact Hown. rewrite Hf.
  destruct (decide (f = [])) as [->|Hne].
  - rewrite updateTodo_empty, (getTodoById_healthy _ _ (booted_healthy _ H)).
    rewrite booted_todos, Ht. simpl.
    exists t, (booted w). rewrite booted_todos.
    destruct Hrule as (R1 & R2 & R3 & R4). simpl in R1, R2, R3, R4.
    repeat split; auto.
  - rewrite (updateTodo_healthy n f f (booted w) t (booted_healthy _ H) Hne)
      by (rewrite ?booted_todos, ?booted_isProduction, ?Ep;
          eauto using filtered_accepted).
    simpl.
    eexists _, _. split; [reflexivity|]. simpl todos.
    split; [by rewrite lookup_insert_eq|].
    destruct Hrule as (R1 & R2 & R3 & R4).
    change (Todo.completed_at
              (set_updated_at (refresh_stamp (booted w)) (apply_sets f t)))
      with (get_col CompletedAt (apply_sets f t)).
    repeat split; auto.
Qed.

(** C1.  The owner marks a todo that is not completed as completed.  The
    handler derives the fields [completed] = true and [completed_at] = the
    timestamp of the request.  On PostgreSQL the record is stored with this
    [completed_at] and the answer is 200.  On SQLite the driver does not
    bind the boolean: the UPDATE fails, PATCH answers 500 and the stored
    [completed_at] is still null. *)
Theorem completion_fails_on_sqlite :
  todos dev_world !! 12 = Some buy_milk
  /\ truthy (Todo.completed buy_milk) = false
  /\ filterUpdates buy_milk (date_now dev_world) (JObj [("completed", JBool true)])
     = Continue [(Completed, JBool true); (CompletedAt, JStr (date_now dev_world))]
  /\ PATCH alice_session "12" (Some (JObj [("completed", JBool true)])) dev_world
     = (Ret (json (ErrorBody "Failed to update todo") 500), dev_world)
  /\ Todo.completed_at <$> todos dev_world !! 12 = Some JNull
  /\ exists (t' : Todo.t) (w' : World),
       PATCH alice_session "12" (Some (JObj [("completed", JBool true)])) prod_world
       = (Ret (json (TodoBody t') 200), w')
       /\ todos w' !! 12 = Some t'
       /\ Todo.completed t' = JBool true
       /\ Todo.completed_at t' = JStr (date_now prod_world).
Proof.
  split; [reflexivity|]. split; [reflexivity|]. split; [reflexivity|].
  split.
  - exact (PATCH_boolean_on_sqlite dev_world alice_session "12" 12 buy_milk
             [("completed", JBool true)] true _
             eq_refl eq_refl eq_refl eq_refl eq_refl eq_refl eq_refl eq_refl).
  - split; [reflexivity|].
    eexists _, _. split; [reflexivity|]. repeat split; reflexivity.
Qed.

(** ** The handlers on any backend, for any request *)

(** PATCH always answers; it writes no user and at most the row that the
    path names, and that only for its owner and with the filtered
    payload. *)
Lemma PATCH_any session id request w o w' :
  PATCH session id request w = (o, w') ->
  exists resp,
    o = Ret resp
    /\ users w' = users w
    /\ ((todos w' = todos w /\ status resp <> 200)
        \/ (todos w' = todos w /\ exists n t, parseInt id = Some n
              /\ todos w !! n = Some t /\ resp = json (TodoBody t) 200
              /\ Some (Todo.user_id t) = userId session)
        \/ exists n t f stamp,
             notAuthenticated session = false
             /\ parseInt id = Some n
             /\ todos w !! n = Some t
             /\ Some (Todo.user_id t) = userId session
             /\ (exists updates now pg values, request = Some updates
                   /\ filterUpdates t now updates = Continue values
                   /\ stored_sets pg values = Some f)
             /\ todos w' = <[n := set_updated_at stamp (apply_sets f t)]> (todos w)
             /\ (resp = json (TodoBody (set_updated_at stamp (apply_sets f t))) 200
                 \/ status resp = 500)).
Proof.
  unfold PATCH, try_catch. rewrite bind_run.
  pose proof (ensureDbInitialized_store w) as [T1 U1].
  destruct (ensureDbInitialized w) as [[[]|] w1]; simpl in T1, U1;
    [|intros [= <- <-]; eexists; split; [reflexivity|]; split; [done|]; left; by split].
  destruct (notAuthenticated session) eqn:Ha;
    [intros [= <- <-]; eexists; split; [reflexivity|]; split; [done|]; left; by split|].
  destruct (parseInt id) as [n|] eqn:Hid;
    [|intros [= <- <-]; eexists; split; [reflexivity|]; split; [done|]; left; by split].
  rewrite bind_run.
  pose proof (getTodoById_store n w1) as (T2 & U2 & R2).
  destruct (getTodoById n w1) as [[r|] w2]; simpl in T2, U2, R2;
    [|intros [= <- <-]; eexists; split; [reflexivity|]; split; [congruence|];
      left; split; [congruence|done]].
  specialize (R2 r eq_refl). subst r. rewrite T1.
  destruct (todos w !! n) as [t|] eqn:Ht;
    [|intros [= <- <-]; eexists; split; [reflexivity|]; split; [congruence|];
      left; split; [congruence|done]].
  destruct (bool_decide (Some (Todo.user_id t) = userId session)) eqn:Hown; cbn [negb];
    [|intros [= <- <-]; eexists; split; [reflexivity|]; split; [congruence|];
      left; split; [congruence|done]].
  apply bool_decide_eq_true in Hown.
  rewrite bind_run. destruct request as [updates|]; simpl request_json;
    [|intros [= <- <-]; eexists; split; [reflexivity|]; split; [congruence|];
      left; split; [congruence|done]].
  unfold mret at 1, M_ret at 1. rewrite bind_run. unfold get_world at 1.
  destruct (filterUpdates t (date_now w2) updates) as [g|r|] eqn:Hf.
  - rewrite bind_run.
    destruct (updateTodo n g w2) as [o3 w3] eqn:E3.
    apply updateTodo_any in E3 as (U3 & T3 & R3).
    assert (Hn2 : todos w2 !! n = Some t) by (rewrite T2, T1; exact Ht).
    destruct o3 as [[todo|]|].
    + intros [= <- <-]. eexists. split; [reflexivity|]. split; [congruence|].
      specialize (R3 _ eq_refl).
      destruct T3 as [T3|(t0 & f & stamp & Ht0 & Hne & Hval & T3)].
      * right. left. split; [congruence|]. exists n, t.
        rewrite T3, Hn2 in R3. injection R3 as <-. auto.
      * right. right. rewrite Hn2 in Ht0. injection Ht0 as <-.
        rewrite T3, lookup_insert_eq in R3. injection R3 as <-.
        exists n, t, f, stamp. repeat split; eauto 10. congruence.
    + intros [= <- <-]. eexists. split; [reflexivity|]. split; [congruence|].
      destruct T3 as [T3|(t0 & f & stamp & Ht0 & Hne & Hval & T3)].
      * left. split; [congruence|done].
      * right. right. rewrite Hn2 in Ht0. injection Ht0 as <-.
        exists n, t, f, stamp. repeat split; eauto 10. congruence.
    + intros [= <- <-]. eexists. split; [reflexivity|]. split; [congruence|].
      destruct T3 as [T3|(t0 & f & stamp & Ht0 & Hne & Hval & T3)].
      * left. split; [congruence|done].
      * right. right. rewrite Hn2 in Ht0. injection Ht0 as <-.
        exists n, t, f, stamp. repeat split; eauto 10. congruence.
  - intros [= <- <-]. eexists. split; [reflexivity|]. split; [congruence|].
    left. split; [congruence|].
    destruct (filterUpdates_return _ _ _ _ Hf) as [->| ->]; discriminate.
  - intros [= <- <-]. eexists. split; [reflexivity|]. split; [congruence|].
    left. split; [congruence|done].
Qed.

(** DELETE always answers; it writes no user, and it removes a row, the
    one the path names, exactly when it answers with the success body,
    which it only does to the owner. *)
Lemma DELETE_any session id w o w' :
  DELETE session id w = (o, w') ->
  exists resp,
    o = Ret resp
    /\ users w' = users w
    /\ ((todos w' = todos w /\ status resp <> 200)
        \/ exists n t,
             notAuthenticated session = false
             /\ parseInt id = Some n
             /\ todos w !! n = Some t
             /\ Some (Todo.user_id t) = userId session
             /\ todos w' = delete n (todos w)
             /\ resp = json SuccessBody 200).
Proof.
  unfold DELETE, try_catch. rewrite bind_run.
  pose proof (ensureDbInitialized_store w) as [T1 U1].
  destruct (ensureDbInitialized w) as [[[]|] w1]; simpl in T1, U1;
    [|intros [= <- <-]; eexists; split; [reflexivity|]; split; [done|]; left; by split].
  destruct (notAuthenticated session) eqn:Ha;
    [intros [= <- <-]; eexists; split; [reflexivity|]; split; [done|]; left; by split|].
  destruct (parseInt id) as [n|] eqn:Hid;
    [|intros [= <- <-]; eexists; split; [reflexivity|]; split; [done|]; left; by split].
  rewrite bind_run.
  pose proof (getTodoById_store n w1) as (T2 & U2 & R2).
  destruct (getTodoById n w1) as [[r|] w2]; simpl in T2, U2, R2;
    [|intros [= <- <-]; eexists; split; [reflexivity|]; split; [congruence|];
      left; split; [congruence|done]].
  specialize (R2 r eq_refl). subst r. rewrite T1.
  destruct (todos w !! n) as [t|] eqn:Ht;
    [|intros [= <- <-]; eexists; split; [reflexivity|]; split; [congruence|];
      left; split; [congruence|done]].
  destruct (bool_decide (Some (Todo.user_id t) = userId session)) eqn:Hown; cbn [negb];
    [|intros [= <- <-]; eexists; split; [reflexivity|]; split; [congruence|];
      left; split; [congruence|done]].
  apply bool_decide_eq_true in Hown.
  rewrite bind_run.
  destruct (deleteTodo n w2) as [o3 w3] eqn:E3.
  apply deleteTodo_any in E3 as [U3 [[T3 ->]|(Hs & T3 & ->)]]; cbn [negb].
  - intros [= <- <-]. eexists. split; [reflexivity|]. split; [congruence|].
    left. split; [congruence|done].
  - intros [= <- <-]. eexists. split; [reflexivity|]. split; [congruence|].
    right. exists n, t. repeat split; auto. congruence.
Qed.

(** POST always answers; it writes no user and at most one new row, for
    the user of the session. *)
Lemma POST_any session request w o w' :
  POST session request w = (o, w') ->
  exists resp,
    o = Ret resp
    /\ users w' = users w
    /\ ((todos w' = todos w /\ status resp <> 201)
        \/ exists row,
             notAuthenticated session = false
             /\ Some (Todo.user_id row) = userId session
             /\ todos w !! Todo.id row = None
             /\ todos w' = <[Todo.id row := row]> (todos w)
             /\ (resp = json (TodoBody row) 201 \/ status resp = 500)).
Proof.
  unfold POST, try_catch. rewrite bind_run.
  pose proof (ensureDbInitialized_store w) as [T1 U1].
  destruct (ensureDbInitialized w) as [[[]|] w1]; simpl in T1, U1;
    [|intros [= <- <-]; eexists; split; [reflexivity|]; split; [done|]; left; by split].
  destruct (notAuthenticated session) eqn:Ha;
    [intros [= <- <-]; eexists; split; [reflexivity|]; split; [done|]; left; by split|].
  rewrite bind_run. destruct request as [parsed|]; simpl request_json;
    [|intros [= <- <-]; eexists; split; [reflexivity|]; split; [done|]; left; by split].
  unfold mret at 1, M_ret at 1.
  destruct (destructure parsed) as [prop|];
    [|intros [= <- <-]; eexists; split; [reflexivity|]; split; [done|]; left; by split].
  cbv zeta.
  destruct (blank (prop "title")) as [[|]|];
    [intros [= <- <-]; eexists; split; [reflexivity|]; split; [done|]; left; by split|
    |intros [= <- <-]; eexists; split; [reflexivity|]; split; [done|]; left; by split].
  destruct (prop "title") as [[| | |title| |]|];
    try (intros [= <- <-]; eexists; split; [reflexivity|]; split; [done|]; left; by split).
  destruct (500 <? String.length title)%nat;
    [intros [= <- <-]; eexists; split; [reflexivity|]; split; [done|]; left; by split|].
  destruct (trim_or_null (prop "description")) as [d|];
    [|intros [= <- <-]; eexists; split; [reflexivity|]; split; [done|]; left; by split].
  destruct (trim_or_null (prop "category")) as [c|];
    [|intros [= <- <-]; eexists; split; [reflexivity|]; split; [done|]; left; by split].
  rewrite bind_run.
  destruct (createTodo _ _ _ _ _ _ w1) as [o3 w3] eqn:E3.
  apply createTodo_any in E3 as (U3 & T3 & R3).
  assert (Huid : Some (default 0 (userId session)) = userId session).
  { revert Ha. unfold notAuthenticated.
    destruct (userId session); [intros _; reflexivity|].
    simpl. rewrite orb_true_r. discriminate. }
  assert (Hrow : forall row resp,
            inserted_row w1 (default 0 (userId session)) (JStr (trim title)) d
              (finalPriority (prop "priority")) c
              (if truthy_opt (prop "dueDate") then default JNull (prop "dueDate")
               else JNull) = Some row ->
            resp = json (TodoBody row) 201 \/ status resp = 500 ->
            todos w1 !! (todos_seq w1 + 1) = None ->
            todos w3 = <[todos_seq w1 + 1 := row]> (todos w1) ->
            exists row0,
              false = false /\ Some (Todo.user_id row0) = userId session
              /\ todos w !! Todo.id row0 = None
              /\ todos w3 = <[Todo.id row0 := row0]> (todos w)
              /\ (resp = json (TodoBody row0) 201 \/ status resp = 500)).
  { intros row resp Hr Hresp Hk Hins.
    apply inserted_row_columns in Hr as (Hid & Hu & _).
    exists row. split; [done|]. split; [by rewrite Hu|]. rewrite Hid.
    split; [rewrite <- T1; exact Hk|]. split; [|exact Hresp].
    rewrite Hins, T1. reflexivity. }
  destruct o3 as [[todo|]|]; intros [= <- <-]; eexists; (split; [reflexivity|]);
    (split; [congruence|]).
  - destruct (R3 _ eq_refl) as (Hr & Hin & Hfree).
    destruct T3 as [T3|(row & Hr' & Hk & T3)].
    + exfalso. rewrite T3 in Hin. congruence.
    + right. rewrite Hr in Hr'. injection Hr' as <-. eapply Hrow; eauto.
  - destruct T3 as [T3|(row & Hr' & Hk & T3)].
    + left. split; [congruence|done].
    + right. eapply Hrow; eauto.
  - destruct T3 as [T3|(row & Hr' & Hk & T3)].
    + left. split; [congruence|done].
    + right. eapply Hrow; eauto.
Qed.

Lemma GET_todos_any session w o w' :
  TodosRoute.GET session w = (o, w') ->
  (exists resp, o = Ret resp) /\ todos w' = todos w /\ users w' = users w.
Proof.
  unfold TodosRoute.GET, try_catch. rewrite bind_run.
  pose proof (ensureDbInitialized_store w) as [T1 U1].
  destruct (ensureDbInitialized w) as [[[]|] w1]; simpl in T1, U1;
    [|intros [= <- <-]; eauto].
  destruct (notAuthenticated session); [intros [= <- <-]; eauto|].
  rewrite bind_run. unfold getTodosByUserId, sql_select_todos_by_user.
  rewrite bind_run.
  destruct (statement w1) as [[[]|] w2] eqn:E2; apply statement_store_eq in E2 as [T2 U2];
    intros [= <- <-]; (split; [eauto|]); split; congruence.
Qed.

Lemma GET_stats_any session w o w' :
  StatsRoute.GET session w = (o, w') ->
  (exists resp, o = Ret resp) /\ todos w' = todos w /\ users w' = users w.
Proof.
  unfold StatsRoute.GET, try_catch. rewrite bind_run.
  pose proof (ensureDbInitialized_store w) as [T1 U1].
  destruct (ensureDbInitialized w) as [[[]|] w1]; simpl in T1, U1;
    [|intros [= <- <-]; eauto].
  destruct (notAuthenticated session); [intros [= <- <-]; eauto|].
  rewrite bind_run. unfold getCompletedTodoStats, sql_select_stats.
  rewrite !bind_run.
  destruct (statement w1) as [[[]|] w2] eqn:E2; apply statement_store_eq in E2 as [T2 U2];
    intros [= <- <-]; (split; [eauto|]); split; congruence.
Qed.

(** ** What the handlers never do *)

(** X1.  The five todo handlers always answer: an exception of the
    persistence layer or of the request parsing never leaves a handler, on
    any backend state. *)
Theorem handlers_always_answer
    (session : SessionData) (id : string) (request : option jsval) (w : World) :
  fst (PATCH session id request w) <> Throw
  /\ fst (DELETE session id w) <> Throw
  /\ fst (POST session request w) <> Throw
  /\ fst (TodosRoute.GET session w) <> Throw
  /\ fst (StatsRoute.GET session w) <> Throw.
Proof.
  repeat split.
  - destruct (PATCH session id request w) as [o w'] eqn:E.
    apply PATCH_any in E as (resp & -> & _). discriminate.
  - destruct (DELETE session id w) as [o w'] eqn:E.
    apply DELETE_any in E as (resp & -> & _). discriminate.
  - destruct (POST session request w) as [o w'] eqn:E.
    apply POST_any in E as (resp & -> & _). discriminate.
  - destruct (TodosRoute.GET session w) as [o w'] eqn:E.
    apply GET_todos_any in E as ((resp & ->) & _). discriminate.
  - destruct (StatsRoute.GET session w) as [o w'] eqn:E.
    apply GET_stats_any in E as ((resp & ->) & _). discriminate.
Qed.

(** X2.  On any backend state, an answer of PATCH, DELETE or POST whose
    status is none of 200, 201 and 500 (that is 400, 401, 403 or 404) comes
    with both tables as they were. *)
Theorem refusals_write_nothing
    (session : SessionData) (id : string) (request : option jsval) (w : World)
    (resp : Response) (w' : World) :
  PATCH session id request w = (Ret resp, w')
  \/ DELETE session id w = (Ret resp, w')
  \/ POST session request w = (Ret resp, w') ->
  status resp <> 200 -> status resp <> 201 -> status resp <> 500 ->
  todos w' = todos w /\ users w' = users w.
Proof.
  intros [E|[E|E]] H200 H201 H500.
  - apply PATCH_any in E as (r & [= <-] & U & [[T _]|[[T _]|(n & t & f & s & _ & _ & _ & _ & _ & _ & [->|Hs])]]);
      try done.
  - apply DELETE_any in E as (r & [= <-] & U & [[T _]|(n & t & _ & _ & _ & _ & _ & ->)]);
      done.
  - apply POST_any in E as (r & [= <-] & U & [[T _]|(row & _ & _ & _ & _ & [->|Hs])]);
      done.
Qed.

Lemma refusals_write_nothing_witness :
  todos (snd (PATCH alice_session "12" (Some (JObj [("title", JStr "  ")])) dev_world))
  = todos dev_world
  /\ users (snd (PATCH alice_session "12" (Some (JObj [("title", JStr "  ")])) dev_world))
     = users dev_world.
Proof.
  apply (refusals_write_nothing alice_session "12"
           (Some (JObj [("title", JStr "  ")])) dev_world
           (json (ErrorBody "Title cannot be empty") 400)).
  - left. reflexivity.
  - discriminate.
  - discriminate.
  - discriminate.
Defined.

(** The two read handlers never write, on any backend state. *)
Lemma reads_write_nothing (session : SessionData) (w : World) :
  todos (snd (TodosRoute.GET session w)) = todos w
  /\ users (snd (TodosRoute.GET session w)) = users w
  /\ todos (snd (StatsRoute.GET session w)) = todos w
  /\ users (snd (StatsRoute.GET session w)) = users w.
Proof.
  destruct (TodosRoute.GET session w) as [o1 w1] eqn:E1.
  destruct (StatsRoute.GET session w) as [o2 w2] eqn:E2.
  apply GET_todos_any in E1 as (_ & T1 & U1).
  apply GET_stats_any in E2 as (_ & T2 & U2). auto.
Qed.

(** X3.  Isolation of users.  On any backend state and for any request,
    PATCH, DELETE and POST leave the todos of every other user exactly as
    they were: a todo whose [user_id] is not the [userId] of the session is
    stored after the request if and only if it was stored before, under
    the same key. *)
Theorem other_users_todos_untouched
    (session : SessionData) (id : string) (request : option jsval) (w : World)
    (o : outcome Response) (w' : World) (k : Z) (t : Todo.t) :
  PATCH session id request w = (o, w')
  \/ DELETE session id w = (o, w')
  \/ POST session request w = (o, w') ->
  Some (Todo.user_id t) <> userId session ->
  (todos w' !! k = Some t <-> todos w !! k = Some t).
Proof.
  intros [E|[E|E]] Hother.
  - apply PATCH_any in E as (r & _ & U & [[T _]|[[T _]|(n & t0 & f & s & _ & _ & Ht0 & Hown & _ & T & _)]]);
      try (by rewrite T).
    rewrite T. destruct (decide (n = k)) as [->|Hne].
    + rewrite lookup_insert_eq, Ht0. split; intros [= <-]; exfalso; apply Hother.
      * simpl. destruct (apply_sets_immutable f t0) as (_ & -> & _). exact Hown.
      * exact Hown.
    + by rewrite lookup_insert_ne.
  - apply DELETE_any in E as (r & _ & U & [[T _]|(n & t0 & _ & _ & Ht0 & Hown & T & _)]);
      try (by rewrite T).
    rewrite T. destruct (decide (n = k)) as [->|Hne].
    + rewrite lookup_delete_eq, Ht0. split; [discriminate|].
      intros [= <-]. by destruct Hother.
    + by rewrite lookup_delete_ne.
  - apply POST_any in E as (r & _ & U & [[T _]|(row & _ & Hown & Hfree & T & _)]);
      try (by rewrite T).
    rewrite T. destruct (decide (Todo.id row = k)) as [<-|Hne].
    + rewrite lookup_insert_eq, Hfree. split; [|discriminate].
      intros [= <-]. by destruct Hother.
    + by rewrite lookup_insert_ne.
Qed.

Lemma other_users_todos_untouched_witness :
  todos (snd (DELETE bob_session "12" dev_world)) !! 12 = Some buy_milk
  <-> todos dev_world !! 12 = Some buy_milk.
Proof.
  apply (other_users_todos_untouched bob_session "12" None dev_world
           (fst (DELETE bob_session "12" dev_world))
           (snd (DELETE bob_session "12" dev_world)) 12 buy_milk).
  - right. left. reflexivity.
  - discriminate.
Defined.

(** ** Round trips of the persistence layer *)



(** X5.  On a healthy backend, [deleteTodo] returns true exactly when the
    id had a row; afterwards the id has none, [getTodoById] returns null, a
    second [deleteTodo] returns false, and every other row is as before. *)
Theorem deleteTodo_then_getTodoById (w : World) (id : Z) :
  healthy w ->
  exists w' : World,
    deleteTodo id w = (Ret (bool_decide (is_Some (todos w !! id))), w')
    /\ todos w' = delete id (todos w)
    /\ users w' = users w
    /\ getTodoById id w' = (Ret None, w')
    /\ deleteTodo id w' = (Ret false, w')
    /\ (forall k, k <> id -> todos w' !! k = todos w !! k).
Proof.
  intros H. rewrite (deleteTodo_healthy _ _ H).
  destruct (todos w !! id) as [t|] eqn:Ht.
  - eexists. split; [reflexivity|]. simpl.
    assert (H' : healthy (set_todos (delete id (todos w)) (todos_seq w) w)) by exact H.
    repeat split.
    + rewrite (getTodoById_healthy _ _ H'). simpl. by rewrite lookup_delete_eq.
    + rewrite (deleteTodo_healthy _ _ H'). simpl. by rewrite lookup_delete_eq.
    + intros k Hne. by rewrite lookup_delete_ne.
  - exists w. split; [reflexivity|].
    repeat split.
    + symmetry. by apply delete_id.
    + by rewrite (getTodoById_healthy _ _ H), Ht.
    + by rewrite (deleteTodo_healthy _ _ H), Ht.
Qed.

Lemma deleteTodo_then_getTodoById_witness :
  exists w' : World,
    deleteTodo 12 dev_world = (Ret (bool_decide (is_Some (todos dev_world !! 12))), w')
    /\ todos w' = delete 12 (todos dev_world)
    /\ users w' = users dev_world
    /\ getTodoById 12 w' = (Ret None, w')
    /\ deleteTodo 12 w' = (Ret false, w')
    /\ (forall k, k <> 12 -> todos w' !! k = todos dev_world !! k).
Proof. apply (deleteTodo_then_getTodoById dev_world 12). reflexivity. Defined.

Lemma same_identity_apply (sets : list (column * jsval)) (stamp : string) (t : Todo.t) :
  same_identity t (set_updated_at stamp (apply_sets sets t)).
Proof.
  destruct (apply_sets_immutable sets t) as (Hi & Hu & Hc & _).
  unfold same_identity. simpl. auto.
Qed.

Lemma rows_kept_refl (m : gmap Z Todo.t) : rows_kept m m.
Proof. intros k. destruct (m !! k); [|done]. by repeat split. Qed.

Lemma rows_kept_insert (m : gmap Z Todo.t) (k : Z) (t t' : Todo.t) :
  m !! k = Some t -> same_identity t t' -> rows_kept m (<[k := t']> m).
Proof.
  intros Ht Hs j. destruct (decide (k = j)) as [<-|Hne].
  - by rewrite Ht, lookup_insert_eq.
  - rewrite lookup_insert_ne by done. destruct (m !! j); [|done]. by repeat split.
Qed.

(** X6.  On any backend state and for any field list, [updateTodo] adds
    and removes no row, changes no [id], [user_id] or [created_at], changes
    no row but the one of its id and no user; a record that it returns is
    the record that is stored. *)
Theorem updateTodo_keeps_identity
    (id : Z) (updates : list (column * jsval)) (w : World) :
  rows_kept (todos w) (todos (snd (updateTodo id updates w)))
  /\ users (snd (updateTodo id updates w)) = users w
  /\ (forall k, k <> id ->
        todos (snd (updateTodo id updates w)) !! k = todos w !! k)
  /\ (forall r, fst (updateTodo id updates w) = Ret (Some r) ->
        todos (snd (updateTodo id updates w)) !! id = Some r).
Proof.
  destruct (updateTodo id updates w) as [o w'] eqn:E.
  apply updateTodo_any in E as (U & T & R). simpl.
  destruct T as [T|(t & values & stamp & Ht & _ & _ & T)]; rewrite T.
  - split; [apply rows_kept_refl|]. split; [done|]. split; [done|].
    intros r Hr. rewrite <- T. by apply R.
  - split; [by apply (rows_kept_insert _ _ t), same_identity_apply|]. split; [done|].
    split; [intros k Hne; by rewrite lookup_insert_ne|].
    intros r Hr. rewrite <- T. by apply R.
Qed.

(** X7.  On a healthy backend, [updateTodo] of an id that has no row
    returns null, whatever the fields, and changes nothing. *)
Theorem updateTodo_missing
    (id : Z) (updates : list (column * jsval)) (w : World) :
  healthy w -> todos w !! id = None ->
  updateTodo id updates w = (Ret None, w).
Proof.
  intros H Ht. unfold updateTodo, try_async.
  destruct (length updates =? 0)%nat.
  - cbn -[getTodoById]. by rewrite (getTodoById_healthy _ _ H), Ht.
  - rewrite bind_run. unfold get_world at 1.
    destruct (isProduction w) eqn:Ep; rewrite bind_run; unfold sql_update_todo;
      rewrite bind_run, (statement_healthy _ H); rewrite bind_run; unfold get_world at 1;
      rewrite Ep.
    + destruct (negb _); [reflexivity|].
      destruct (stored_sets true updates); by rewrite ?Ht.
    + destruct (stored_sets false updates); [|reflexivity]. rewrite Ht.
      cbn -[getTodoById]. by rewrite (getTodoById_healthy _ _ H), Ht.
Qed.

Lemma updateTodo_missing_witness :
  updateTodo 99 [(Title, JStr "x")] dev_world = (Ret None, dev_world).
Proof. apply (updateTodo_missing 99 [(Title, JStr "x")] dev_world); reflexivity. Defined.

(** ** Users *)

Lemma username_taken_spec (name : string) (m : gmap Z User.t) :
  username_taken name m = true
  <-> exists k u, m !! k = Some u /\ User.username u = name.
Proof.
  unfold username_taken. rewrite existsb_exists. split.
  - intros ([k u] & Hin & Heq). apply String.eqb_eq in Heq.
    apply list_elem_of_In, elem_of_map_to_list in Hin. eauto.
  - intros (k & u & Hk & Hn). exists (k, u). split.
    + by apply list_elem_of_In, elem_of_map_to_list.
    + by apply String.eqb_eq.
Qed.

Lemma username_free_spec (name : string) (m : gmap Z User.t) :
  username_taken name m = false
  <-> forall k u, m !! k = Some u -> User.username u <> name.
Proof.
  split.
  - intros Hf k u Hk Hn.
    assert (username_taken name m = true) by (apply username_taken_spec; eauto).
    congruence.
  - intros Hall. destruct (username_taken name m) eqn:E; [|reflexivity].
    apply username_taken_spec in E as (k & u & Hk & Hn). by destruct (Hall k u Hk).
Qed.

Lemma getUserByUsername_healthy (name : string) (w : World) :
  healthy w ->
  getUserByUsername name w
  = (Ret (snd <$> find (fun kv => String.eqb (User.username (snd kv)) name)
                       (map_to_list (users w))), w).
Proof.
  intros H. unfold getUserByUsername, sql_select_user_by_username.
  rewrite bind_run, (statement_healthy _ H). reflexivity.
Qed.

Lemma find_username_spec (name : string) (m : gmap Z User.t) :
  let r := snd <$> find (fun kv => String.eqb (User.username (snd kv)) name)
                        (map_to_list m) in
  (forall u, r = Some u -> User.username u = name /\ exists k, m !! k = Some u)
  /\ (r = None <-> forall k u, m !! k = Some u -> User.username u <> name).
Proof.
  cbv zeta. destruct (find _ _) as [[k u]|] eqn:Ef; simpl.
  - apply find_some in Ef as [Hin Heq]. apply String.eqb_eq in Heq.
    apply list_elem_of_In, elem_of_map_to_list in Hin. simpl in Heq.
    split.
    + intros u' [= <-]. eauto.
    + split; [discriminate|]. intros Hall. by destruct (Hall k u Hin).
  - split; [discriminate|]. split; [|done]. intros _ k u Hk Hn.
    pose proof (find_none _ _ Ef (k, u)) as Hnone. simpl in Hnone.
    rewrite (proj2 (String.eqb_eq _ _) Hn) in Hnone.
    assert (In (k, u) (map_to_list m)) as Hin
      by (by apply list_elem_of_In, elem_of_map_to_list).
    specialize (Hnone Hin). discriminate.
Qed.

(** X8.  On a healthy backend, [getUserByUsername] returns a stored user
    that has the username when there is one, and null exactly when no
    stored user has it; the comparison is exact (case-sensitive). *)
Theorem getUserByUsername_found (name : string) (w : World) :
  healthy w ->
  exists r : option User.t,
    getUserByUsername name w = (Ret r, w)
    /\ (forall u, r = Some u ->
          User.username u = name /\ exists k, users w !! k = Some u)
    /\ (r = None <-> forall k u, users w !! k = Some u -> User.username u <> name).
Proof.
  intros H. rewrite (getUserByUsername_healthy _ _ H). eexists. split; [reflexivity|].
  apply find_username_spec.
Qed.

Lemma getUserByUsername_found_witness :
  exists r : option User.t,
    getUserByUsername "Alice" dev_world = (Ret r, dev_world)
    /\ (forall u, r = Some u ->
          User.username u = "Alice" /\ exists k, users dev_world !! k = Some u)
    /\ (r = None
        <-> forall k u, users dev_world !! k = Some u -> User.username u <> "Alice").
Proof. apply (getUserByUsername_found "Alice" dev_world). reflexivity. Defined.




Lemma sql_insert_user_any name hash w o w' :
  sql_insert_user name hash w = (o, w') ->
  todos w' = todos w
  /\ (users w' = users w
      \/ exists row,
           username_taken name (users w) = false
           /\ users w !! User.id row = None
           /\ User.username row = name
           /\ users w' = <[User.id row := row]> (users w)).
Proof.
  unfold sql_insert_user. rewrite bind_run.
  destruct (statement w) as [[[]|] w1] eqn:E1; apply statement_world in E1;
    [|intros [= <- <-]; rewrite E1; simpl; auto].
  rewrite bind_run. unfold get_world at 1.
  replace (users w1) with (users w) by (rewrite E1; reflexivity).
  replace (users_seq w1) with (users_seq w) by (rewrite E1; reflexivity).
  destruct (username_taken name (users w)) eqn:Hfree;
    [intros [= <- <-]; rewrite E1; simpl; auto|].
  destruct (negb (user_ok (isProduction w1) name hash));
    [intros [= <- <-]; rewrite E1; simpl; auto|]. cbn [orb].
  destruct (users w !! (users_seq w + 1)) eqn:Hk;
    [intros [= <- <-]; rewrite E1; simpl; auto|].
  intros [= <- <-]. split; [by rewrite E1|]. right.
  exists (User.mk (users_seq w + 1) name hash (current_timestamp w1)).
  split; [reflexivity|]. split; [exact Hk|]. split; [reflexivity|]. by rewrite E1.
Qed.

(** X10.  Usernames stay unique.  On any backend state, if no two stored
    users share a username, the same holds after [createUser], whatever it
    returns; and on a healthy backend [createUser] with a username that is
    taken returns null and stores nothing. *)
Theorem createUser_keeps_usernames_unique (name hash : string) (w : World) :
  unique_usernames (users w) ->
  unique_usernames (users (snd (createUser name hash w)))
  /\ todos (snd (createUser name hash w)) = todos w
  /\ (healthy w -> username_taken name (users w) = true ->
      createUser name hash w = (Ret None, w)).
Proof.
  intros Huniq.
  assert (Hany : forall o w', createUser name hash w = (o, w') ->
            unique_usernames (users w') /\ todos w' = todos w).
  { intros o w'. unfold createUser, try_async. rewrite bind_run. unfold get_world at 1.
    assert (Hins : forall o1 w1, sql_insert_user name hash w = (o1, w1) ->
              unique_usernames (users w1) /\ todos w1 = todos w).
    { intros o1 w1 E1. apply sql_insert_user_any in E1 as [T [U|(row & Hfree & Hk & Hn & U)]];
        (split; [|exact T]); rewrite U; [exact Huniq|].
      intros k1 k2 u1 u2 H1 H2 Heq.
      destruct (decide (User.id row = k1)) as [<-|N1];
        destruct (decide (User.id row = k2)) as [<-|N2]; try done.
      - rewrite lookup_insert_eq in H1. rewrite lookup_insert_ne in H2 by done.
        injection H1 as <-. exfalso.
        apply (proj1 (username_free_spec _ _) Hfree k2 u2 H2). congruence.
      - rewrite lookup_insert_eq in H2. rewrite lookup_insert_ne in H1 by done.
        injection H2 as <-. exfalso.
        apply (proj1 (username_free_spec _ _) Hfree k1 u1 H1). congruence.
      - rewrite lookup_insert_ne in H1, H2 by done. eauto. }
    destruct (isProduction w); rewrite bind_run;
      destruct (sql_insert_user name hash w) as [[row|] w1] eqn:E1;
      destruct (Hins _ _ eq_refl) as [Hu Ht].
    - by intros [= <- <-].
    - by intros [= <- <-].
    - cbn -[getUserById]. unfold getUserById, sql_select_user_by_id. rewrite bind_run.
      destruct (statement w1) as [[[]|] w2] eqn:E2; apply statement_world in E2;
        intros [= <- <-]; rewrite E2; simpl; auto.
    - by intros [= <- <-]. }
  destruct (createUser name hash w) as [o w'] eqn:E.
  destruct (Hany o w' eq_refl) as [Hu Ht]. simpl.
  split; [exact Hu|]. split; [exact Ht|].
  intros H Htaken. rewrite <- E. by apply createUser_duplicate.
Qed.

Lemma dev_users_unique : unique_usernames (users dev_world).
Proof.
  intros k1 k2 u1 u2 H1 H2 Heq. simpl in H1, H2.
  apply lookup_insert_Some in H1 as [[<- <-]|[N1 H1]];
    apply lookup_insert_Some in H2 as [[<- <-]|[N2 H2]]; try done.
  - apply lookup_insert_Some in H2 as [[<- <-]|[N3 H2]]; [discriminate|done].
  - apply lookup_insert_Some in H1 as [[<- <-]|[N3 H1]]; [discriminate|done].
  - apply lookup_insert_Some in H1 as [[<- <-]|[N3 H1]]; [|done].
    apply lookup_insert_Some in H2 as [[<- <-]|[N4 H2]]; done.
Qed.

Lemma createUser_keeps_usernames_unique_witness :
  unique_usernames (users (snd (createUser "bob" "$2b$10$Rt" dev_world)))
  /\ todos (snd (createUser "bob" "$2b$10$Rt" dev_world)) = todos dev_world
  /\ (healthy dev_world -> username_taken "bob" (users dev_world) = true ->
      createUser "bob" "$2b$10$Rt" dev_world = (Ret None, dev_world)).
Proof.
  apply (createUser_keeps_usernames_unique "bob" "$2b$10$Rt" dev_world).
  exact dev_users_unique.
Defined.

(** ** Listing and counting *)

Lemma rows_of_user_spec (userId : Z) (m : gmap Z Todo.t) (t : Todo.t) :
  t ∈ rows_of_user userId m
  <-> exists k, m !! k = Some t /\ Todo.user_id t = userId.
Proof.
  unfold rows_of_user. rewrite list_elem_of_filter, list_elem_of_fmap. split.
  - intros [Hu ([k t'] & -> & Hin)]. apply elem_of_map_to_list in Hin. eauto.
  - intros (k & Hk & Hu). split; [done|]. exists (k, t). split; [done|].
    by apply elem_of_map_to_list.
Qed.

Lemma insert_desc_perm (t : Todo.t) (l : list Todo.t) : insert_desc t l ≡ₚ t :: l.
Proof.
  induction l as [|x r IH]; simpl; [done|].
  destruct (String.leb _ _); [done|].
  rewrite IH. apply Permutation_swap.
Qed.

Lemma sort_desc_perm (l : list Todo.t) : foldr insert_desc [] l ≡ₚ l.
Proof.
  induction l as [|x r IH]; simpl; [done|].
  by rewrite insert_desc_perm, IH.
Qed.

Lemma insert_desc_hd (t x : Todo.t) (l : list Todo.t) :
  not_later x t -> HdRel not_later x l -> HdRel not_later x (insert_desc t l).
Proof.
  intros Ht Hl. destruct l as [|y r]; simpl; [by constructor|].
  destruct (String.leb _ _); constructor; [exact Ht|].
  by inversion Hl.
Qed.

Lemma insert_desc_sorted (t : Todo.t) (l : list Todo.t) :
  Sorted not_later l -> Sorted not_later (insert_desc t l).
Proof.
  induction 1 as [|x r Hs IH Hh]; simpl; [by repeat constructor|].
  destruct (String.leb (Todo.created_at x) (Todo.created_at t)) eqn:E.
  - constructor; [by constructor|]. by constructor.
  - constructor; [exact IH|]. apply insert_desc_hd; [|exact Hh].
    unfold not_later. destruct (String.leb_total (Todo.created_at t) (Todo.created_at x));
      congruence.
Qed.

Lemma sort_desc_sorted (l : list Todo.t) : Sorted not_later (foldr insert_desc [] l).
Proof.
  induction l as [|x r IH]; simpl; [constructor|]. by apply insert_desc_sorted.
Qed.

Lemma getTodosByUserId_healthy (userId : Z) (w : World) :
  healthy w ->
  getTodosByUserId userId w
  = (Ret (foldr insert_desc [] (rows_of_user userId (todos w))), w).
Proof.
  intros H. unfold getTodosByUserId, sql_select_todos_by_user.
  rewrite bind_run, (statement_healthy _ H). reflexivity.
Qed.

Lemma filter_rows (P : Todo.t -> Prop) `{!forall t, Decision (P t)}
    (ps : list (Z * Todo.t)) :
  filter P ps.*2 = (filter (fun kt => P (snd kt)) ps).*2.
Proof.
  induction ps as [|[k t] ps IH]; [reflexivity|].
  rewrite fmap_cons, !filter_cons. cbn [snd].
  destruct (decide (P t)); rewrite ?fmap_cons; by rewrite IH.
Qed.

Lemma rows_of_user_once (userId : Z) (m : gmap Z Todo.t) :
  each_row_once m (rows_of_user userId m).
Proof.
  unfold rows_of_user.
  rewrite (filter_rows (fun t => Todo.user_id t = userId)). eexists. split; [|split; [|reflexivity]].
  - apply (sublist_NoDup _ (map_to_list m).*1).
    + apply NoDup_fst_map_to_list.
    + apply fmap_sublist, sublist_filter.
  - intros k t Hin. apply list_elem_of_filter in Hin as [_ Hin].
    by apply elem_of_map_to_list.
Qed.

Lemma each_row_once_perm (m : gmap Z Todo.t) (l l' : list Todo.t) :
  l' ≡ₚ l -> each_row_once m l -> each_row_once m l'.
Proof.
  intros Hp (ps & Hnd & Hm & ->).
  apply Permutation_map_inv in Hp as (ps' & -> & Hp).
  exists ps'. split; [|split; [|reflexivity]].
  - by rewrite <- Hp.
  - intros k t Hin. apply Hm. by rewrite Hp.
Qed.

(** X11.  On a healthy backend, [getTodosByUserId] returns exactly the
    stored todos of the user (none of another user, an empty list when
    there is none), each stored row once, each neighbour not later than
    the one before it in [created_at] order, and changes nothing. *)
Theorem getTodosByUserId_own_latest_first (userId : Z) (w : World) :
  healthy w ->
  exists l : list Todo.t,
    getTodosByUserId userId w = (Ret l, w)
    /\ (forall t, t ∈ l <-> exists k, todos w !! k = Some t /\ Todo.user_id t = userId)
    /\ l ≡ₚ rows_of_user userId (todos w)
    /\ each_row_once (todos w) l
    /\ Sorted not_later l
    /\ ((forall k t, todos w !! k = Some t -> Todo.user_id t <> userId) -> l = []).
Proof.
  intros H. rewrite (getTodosByUserId_healthy _ _ H). eexists. split; [reflexivity|].
  split; [|split; [|split; [|split]]].
  - intros t. rewrite sort_desc_perm. apply rows_of_user_spec.
  - apply sort_desc_perm.
  - apply (each_row_once_perm _ (rows_of_user userId (todos w)));
      [apply sort_desc_perm|apply rows_of_user_once].
  - apply sort_desc_sorted.
  - intros Hnone.
    destruct (foldr insert_desc [] (rows_of_user userId (todos w))) as [|t r] eqn:E;
      [reflexivity|].
    assert (Hin : t ∈ foldr insert_desc [] (rows_of_user userId (todos w)))
      by (rewrite E; apply elem_of_cons; by left).
    rewrite sort_desc_perm in Hin. apply rows_of_user_spec in Hin as (k & Hk & Hu).
    by destruct (Hnone k t Hk).
Qed.

Lemma getTodosByUserId_own_latest_first_witness :
  exists l : list Todo.t,
    getTodosByUserId 1 busy_world = (Ret l, busy_world)
    /\ (forall t, t ∈ l
          <-> exists k, todos busy_world !! k = Some t /\ Todo.user_id t = 1)
    /\ l ≡ₚ rows_of_user 1 (todos busy_world)
    /\ each_row_once (todos busy_world) l
    /\ Sorted not_later l
    /\ ((forall k t, todos busy_world !! k = Some t -> Todo.user_id t <> 1) -> l = []).
Proof. apply (getTodosByUserId_own_latest_first 1 busy_world). reflexivity. Defined.

(** X12.  On a healthy backend, [getCompletedTodoStats] counts the todos
    of the user: [total] is the length of the list that [getTodosByUserId]
    returns, [completed] is the number of its completed todos and lies
    between 0 and [total], and a user without todos gets 0, 0, 0 (no
    division takes place); nothing is changed. *)
Theorem getCompletedTodoStats_counts (userId : Z) (w : World) :
  healthy w ->
  exists (s : Stats) (l : list Todo.t),
    getCompletedTodoStats userId w = (Ret s, w)
    /\ getTodosByUserId userId w = (Ret l, w)
    /\ total s = Z.of_nat (length l)
    /\ completed s
       = Z.of_nat (length (filter (fun t => sql_is_true (Todo.completed t) = true) l))
    /\ 0 <= completed s <= total s
    /\ completionRate s = completionRateOf (total s) (completed s)
    /\ (l = [] -> s = mkStats 0 0 0).
Proof.
  intros H. rewrite (getCompletedTodoStats_healthy _ _ H), (getTodosByUserId_healthy _ _ H).
  eexists _, _. split; [reflexivity|]. split; [reflexivity|]. simpl.
  pose proof (sort_desc_perm (rows_of_user userId (todos w))) as Hp.
  split; [by rewrite Hp|]. split; [by rewrite Hp|].
  split.
  - pose proof (length_filter (fun t => sql_is_true (Todo.completed t) = true)
                  (rows_of_user userId (todos w))). lia.
  - split; [reflexivity|]. intros Hnil. rewrite Hnil in Hp.
    apply Permutation_length in Hp.
    by destruct (rows_of_user userId (todos w)).
Qed.

Lemma getCompletedTodoStats_counts_witness :
  exists (s : Stats) (l : list Todo.t),
    getCompletedTodoStats 2 dev_world = (Ret s, dev_world)
    /\ getTodosByUserId 2 dev_world = (Ret l, dev_world)
    /\ total s = Z.of_nat (length l)
    /\ completed s
       = Z.of_nat (length (filter (fun t => sql_is_true (Todo.completed t) = true) l))
    /\ 0 <= completed s <= total s
    /\ completionRate s = completionRateOf (total s) (completed s)
    /\ (l = [] -> s = mkStats 0 0 0).
Proof. apply (getCompletedTodoStats_counts 2 dev_world). reflexivity. Defined.

(** ** Initialisation *)

(** X13.  [ensureDbInitialized] runs the schema statements at most until
    they succeed once: when the flag is set it sends nothing to the backend
    and changes nothing; the flag is set exactly by a run that succeeds, so
    a failed initialisation is retried by the next request; the tables are
    never changed. *)
Theorem ensureDbInitialized_once (w : World) :
  (initialized w = true -> ensureDbInitialized w = (Ret tt, w))
  /\ (forall o w', ensureDbInitialized w = (o, w') ->
        todos w' = todos w /\ users w' = users w
        /\ (o = Ret tt -> initialized w' = true
                          /\ ensureDbInitialized w' = (Ret tt, w'))
        /\ (o = Throw -> initialized w' = false /\ initialized w = false)).
Proof.
  assert (Hset : forall w0, initialized w0 = true -> ensureDbInitialized w0 = (Ret tt, w0)).
  { intros w0 Hi. unfold ensureDbInitialized. rewrite bind_run. unfold get_world.
    by rewrite Hi. }
  split; [apply Hset|].
  intros o w' E.
  destruct (ensureDbInitialized_store_eq _ _ _ E) as [T U].
  split; [exact T|]. split; [exact U|].
  revert E. unfold ensureDbInitialized, initDb. rewrite bind_run. unfold get_world at 1.
  destruct (initialized w) eqn:Hi; cbn [negb].
  - intros [= <- <-]. split; [|discriminate]. intros _. split; [exact Hi|].
    by apply Hset.
  - rewrite !bind_run.
    destruct (statement w) as [[[]|] w1] eqn:E1; apply statement_world in E1;
      [|intros [= <- <-]; split; [discriminate|]; intros _; rewrite E1; by simpl].
    rewrite bind_run.
    destruct (statement w1) as [[[]|] w2] eqn:E2; apply statement_world in E2;
      [|intros [= <- <-]; split; [discriminate|]; intros _; rewrite E2, E1; by simpl].
    destruct (statement w2) as [[[]|] w3] eqn:E3; apply statement_world in E3;
      [|intros [= <- <-]; split; [discriminate|]; intros _; rewrite E3, E2, E1; by simpl].
    rewrite bind_run. unfold get_world, put_world.
    intros [= <- <-]. split; [|discriminate]. intros _.
    split; [reflexivity|]. by apply Hset.
Qed.

Lemma ensureDbInitialized_once_witness :
  (initialized dev_world = true -> ensureDbInitialized dev_world = (Ret tt, dev_world))
  /\ (forall o w', ensureDbInitialized dev_world = (o, w') ->
        todos w' = todos dev_world /\ users w' = users dev_world
        /\ (o = Ret tt -> initialized w' = true
                          /\ ensureDbInitialized w' = (Ret tt, w'))
        /\ (o = Throw -> initialized w' = false /\ initialized dev_world = false)).
Proof. exact (ensureDbInitialized_once dev_world). Defined.

(** ** Authentication *)

(** X14.  Without an authenticated session (not logged in, or no
    [userId], or [userId] 0) each of the five todo handlers leaves both
    tables as they were, on any backend state, and answers 401 on a healthy
    one. *)
Theorem unauthenticated_rejected
    (session : SessionData) (id : string) (request : option jsval) (w : World) :
  notAuthenticated session = true ->
  (todos (snd (PATCH session id request w)) = todos w
   /\ todos (snd (DELETE session id w)) = todos w
   /\ todos (snd (POST session request w)) = todos w
   /\ todos (snd (TodosRoute.GET session w)) = todos w
   /\ todos (snd (StatsRoute.GET session w)) = todos w)
  /\ (healthy w ->
      fst (PATCH session id request w) = Ret (json (ErrorBody "Unauthorized") 401)
      /\ fst (DELETE session id w) = Ret (json (ErrorBody "Unauthorized") 401)
      /\ fst (POST session request w) = Ret (json (ErrorBody "Unauthorized") 401)
      /\ fst (TodosRoute.GET session w) = Ret (read_json (ReadError "Unauthorized") 401)
      /\ fst (StatsRoute.GET session w) = Ret (read_json (ReadError "Unauthorized") 401)).
Proof.
  intros Ha. split.
  - repeat split.
    + destruct (PATCH session id request w) as [o w'] eqn:E.
      apply PATCH_any in E as (r & _ & _ & [[T _]|[[T _]|(n & t & f & s & Hf & _)]]);
        [done|done|congruence].
    + destruct (DELETE session id w) as [o w'] eqn:E.
      apply DELETE_any in E as (r & _ & _ & [[T _]|(n & t & Hf & _)]);
        [done|congruence].
    + destruct (POST session request w) as [o w'] eqn:E.
      apply POST_any in E as (r & _ & _ & [[T _]|(row & Hf & _)]);
        [done|congruence].
    + destruct (TodosRoute.GET session w) as [o w'] eqn:E.
      by apply GET_todos_any in E as (_ & T & _).
    + destruct (StatsRoute.GET session w) as [o w'] eqn:E.
      by apply GET_stats_any in E as (_ & T & _).
  - intros H. unfold PATCH, DELETE, POST, TodosRoute.GET, StatsRoute.GET, try_catch.
    rewrite !bind_run, (ensureDbInitialized_healthy _ H), Ha. by repeat split.
Qed.

Lemma unauthenticated_rejected_witness :
  let anonymous := mkSession None None false in
  (todos (snd (PATCH anonymous "12" None dev_world)) = todos dev_world
   /\ todos (snd (DELETE anonymous "12" dev_world)) = todos dev_world
   /\ todos (snd (POST anonymous None dev_world)) = todos dev_world
   /\ todos (snd (TodosRoute.GET anonymous dev_world)) = todos dev_world
   /\ todos (snd (StatsRoute.GET anonymous dev_world)) = todos dev_world)
  /\ (healthy dev_world ->
      fst (PATCH anonymous "12" None dev_world)
      = Ret (json (ErrorBody "Unauthorized") 401)
      /\ fst (DELETE anonymous "12" dev_world)
         = Ret (json (ErrorBody "Unauthorized") 401)
      /\ fst (POST anonymous None dev_world)
         = Ret (json (ErrorBody "Unauthorized") 401)
      /\ fst (TodosRoute.GET anonymous dev_world)
         = Ret (read_json (ReadError "Unauthorized") 401)
      /\ fst (StatsRoute.GET anonymous dev_world)
         = Ret (read_json (ReadError "Unauthorized") 401)).
Proof.
  apply (unauthenticated_rejected (mkSession None None false) "12" None dev_world).
  reflexivity.
Defined.

(** ** The read handlers *)

Lemma GET_todos_healthy (session : SessionData) (w : World) :
  healthy w -> notAuthenticated session = false ->
  TodosRoute.GET session w
  = (Ret (read_json
            (TodosBody (foldr insert_desc []
                          (rows_of_user (default 0 (userId session)) (todos w)))) 200),
     booted w).
Proof.
  intros H Ha. unfold TodosRoute.GET, try_catch.
  rewrite bind_run, (ensureDbInitialized_healthy _ H), Ha.
  rewrite bind_run, (getTodosByUserId_healthy _ _ (booted_healthy _ H)), booted_todos.
  reflexivity.
Qed.

Lemma GET_stats_healthy (session : SessionData) (w : World) :
  healthy w -> notAuthenticated session = false ->
  StatsRoute.GET session w
  = (let rows := rows_of_user (default 0 (userId session)) (todos w) in
     let total := Z.of_nat (length rows) in
     let completed :=
       Z.of_nat (length (filter (fun t => sql_is_true (Todo.completed t) = true) rows)) in
     (Ret (read_json (StatsBody (mkStats total completed (completionRateOf total completed)))
             200),
      booted w)).
Proof.
  intros H Ha. unfold StatsRoute.GET, try_catch.
  rewrite bind_run, (ensureDbInitialized_healthy _ H), Ha.
  rewrite bind_run, (getCompletedTodoStats_healthy _ _ (booted_healthy _ H)), booted_todos.
  reflexivity.
Qed.

(** X15.  On a healthy backend, the list handler answers an
    authenticated session with 200 and exactly the stored todos whose
    [user_id] is the [userId] of the session, latest first; the statistics
    handler answers with the statistics of that user. *)
Theorem GET_own_todos (session : SessionData) (w : World) :
  healthy w ->
  notAuthenticated session = false ->
  exists (l : list Todo.t) (s : Stats),
    TodosRoute.GET session w = (Ret (read_json (TodosBody l) 200), booted w)
    /\ (forall t, t ∈ l
          <-> exists k, todos w !! k = Some t /\ Some (Todo.user_id t) = userId session)
    /\ Sorted not_later l
    /\ StatsRoute.GET session w = (Ret (read_json (StatsBody s) 200), booted w)
    /\ total s = Z.of_nat (length l)
    /\ 0 <= completed s <= total s.
Proof.
  intros H Ha. pose proof (session_user _ Ha) as Hs.
  rewrite (GET_todos_healthy _ _ H Ha), (GET_stats_healthy _ _ H Ha).
  remember (default 0 (userId session)) as uid eqn:Huid.
  eexists _, _. split; [reflexivity|]. split; [|split; [|split; [reflexivity|]]].
  - intros t. rewrite sort_desc_perm, rows_of_user_spec, <- Hs.
    split; intros (k & Hk & Hu); exists k; split; auto; congruence.
  - apply sort_desc_sorted.
  - simpl. pose proof (sort_desc_perm (rows_of_user uid (todos w))) as Hp.
    split; [by rewrite Hp|].
    pose proof (length_filter (fun t => sql_is_true (Todo.completed t) = true)
                  (rows_of_user uid (todos w))). lia.
Qed.

Lemma GET_own_todos_witness :
  exists (l : list Todo.t) (s : Stats),
    TodosRoute.GET alice_session busy_world
    = (Ret (read_json (TodosBody l) 200), booted busy_world)
    /\ (forall t, t ∈ l
          <-> exists k, todos busy_world !! k = Some t
                        /\ Some (Todo.user_id t) = userId alice_session)
    /\ Sorted not_later l
    /\ StatsRoute.GET alice_session busy_world
       = (Ret (read_json (StatsBody s) 200), booted busy_world)
    /\ total s = Z.of_nat (length l)
    /\ 0 <= completed s <= total s.
Proof. apply (GET_own_todos alice_session busy_world); reflexivity. Defined.

(** ** The payload of PATCH *)

Lemma filter_loop_ext existingTodo now props props' keys f :
  (forall key, key ∈ keys ->
     assoc (column_name key) props = assoc (column_name key) props') ->
  filter_loop existingTodo now props keys f
  = filter_loop existingTodo now props' keys f.
Proof.
  revert f. induction keys as [|key rest IH]; intros f Hext; [reflexivity|].
  simpl. rewrite <- (Hext key) by (apply elem_of_cons; by left).
  assert (Hrest : forall key', key' ∈ rest ->
            assoc (column_name key') props = assoc (column_name key') props')
    by (intros key' Hin; apply Hext, elem_of_cons; by right).
  destruct (assoc (column_name key) props) as [v|]; [|by apply IH].
  destruct (filter_present existingTodo now key v f); [by apply IH|done|done].
Qed.

Lemma PATCH_ext session id updates updates' w :
  (forall t now, filterUpdates t now updates = filterUpdates t now updates') ->
  PATCH session id (Some updates) w = PATCH session id (Some updates') w.
Proof.
  intros Hext. unfold PATCH, try_catch. rewrite !bind_run.
  destruct (ensureDbInitialized w) as [[[]|] w1]; [|reflexivity].
  destruct (notAuthenticated session); [reflexivity|].
  destruct (parseInt id) as [n|]; [|reflexivity].
  rewrite !bind_run.
  destruct (getTodoById n w1) as [[[t|]|] w2]; [|reflexivity|reflexivity].
  destruct (negb _); [reflexivity|].
  rewrite !bind_run. simpl request_json. unfold mret at 1 4, M_ret at 1 4.
  rewrite !bind_run. unfold get_world at 1 2. by rewrite Hext.
Qed.

(** X16.  PATCH reads nothing of the payload but the six fields
    [title], [description], [priority], [category], [completed] and
    [due_date]: two payloads that agree on these are answered alike and
    have the same effect, on any backend state.  Keys such as [id],
    [user_id], [created_at], [completed_at] or [updated_at] are dropped. *)
Theorem PATCH_reads_six_fields
    (session : SessionData) (id : string) (props props' : list (string * jsval))
    (w : World) :
  (forall key, key ∈ allowedFields ->
     assoc (column_name key) props = assoc (column_name key) props') ->
  PATCH session id (Some (JObj props)) w = PATCH session id (Some (JObj props')) w.
Proof.
  intros Hext. apply PATCH_ext. intros t now. unfold filterUpdates.
  by apply filter_loop_ext.
Qed.

Lemma PATCH_reads_six_fields_witness :
  PATCH alice_session "12"
    (Some (JObj [("id", JNum 99); ("user_id", JNum 2); ("completed", JBool true);
                 ("completed_at", JStr "1999-01-01"); ("created_at", JNull)]))
    prod_world
  = PATCH alice_session "12" (Some (JObj [("completed", JBool true)])) prod_world.
Proof.
  apply (PATCH_reads_six_fields alice_session "12"
           [("id", JNum 99); ("user_id", JNum 2); ("completed", JBool true);
            ("completed_at", JStr "1999-01-01"); ("created_at", JNull)]
           [("completed", JBool true)] prod_world).
  intros key Hkey. unfold allowedFields in Hkey.
  repeat (apply elem_of_cons in Hkey as [->|Hkey]; [reflexivity|]).
  by apply elem_of_nil in Hkey.
Defined.

(** X17.  On any backend state and for any request, PATCH creates and
    deletes no todo and changes no [id], [user_id] or [created_at]; it
    changes no user. *)
Theorem PATCH_keeps_identity
    (session : SessionData) (id : string) (request : option jsval) (w : World) :
  rows_kept (todos w) (todos (snd (PATCH session id request w)))
  /\ users (snd (PATCH session id request w)) = users w.
Proof.
  destruct (PATCH session id request w) as [o w'] eqn:E.
  apply PATCH_any in E as (r & _ & U & [[T _]|[[T _]|(n & t & f & s & _ & _ & Ht & _ & _ & T & _)]]).
  all: simpl; (split; [|exact U]); rewrite T.
  - apply rows_kept_refl.
  - apply rows_kept_refl.
  - by apply (rows_kept_insert _ _ t), same_identity_apply.
Qed.






(** X19.  Bodies of PATCH that carry no field, for the owner on a healthy
    backend.  A body that is not JSON, or that is null, a boolean, a number
    or a string, is answered 500; an array, or an object with none of the
    six fields, is answered 200 with the stored record.  In every case
    nothing is written: [updated_at] is not refreshed. *)
Theorem PATCH_without_fields
    (w : World) (session : SessionData) (id : string) (n : Z) (t : Todo.t) :
  healthy w ->
  notAuthenticated session = false ->
  parseInt id = Some n ->
  todos w !! n = Some t ->
  Some (Todo.user_id t) = userId session ->
  (forall request,
      request = None \/ request = Some JNull \/ (exists b, request = Some (JBool b))
      \/ (exists k, request = Some (JNum k)) \/ (exists s, request = Some (JStr s)) ->
      PATCH session id request w
      = (Ret (json (ErrorBody "An error occurred while updating todo") 500), booted w))
  /\ (forall l, PATCH session id (Some (JArr l)) w
                = (Ret (json (TodoBody t) 200), booted w))
  /\ (forall props,
        (forall key, key ∈ allowedFields -> assoc (column_name key) props = None) ->
        PATCH session id (Some (JObj props)) w
        = (Ret (json (TodoBody t) 200), booted w)).
Proof.
  intros H Ha Hid Ht Hown.
  assert (Hempty :
    respond_update (updateTodo n [] (booted w)) = (Ret (json (TodoBody t) 200), booted w)).
  { rewrite updateTodo_empty, (getTodoById_healthy _ _ (booted_healthy _ H)).
    by rewrite booted_todos, Ht. }
  split; [|split].
  - intros request Hreq.
    rewrite (PATCH_lookup _ _ n _ _ H Ha Hid), Ht.
    rewrite bool_decide_eq_true_2 by exact Hown.
    destruct Hreq as [->|[->|[[b ->]|[[k ->]|[s ->]]]]]; reflexivity.
  - intros l. rewrite (PATCH_lookup _ _ n _ _ H Ha Hid), Ht.
    rewrite bool_decide_eq_true_2 by exact Hown. exact Hempty.
  - intros props Hnone.
    rewrite (PATCH_ext session id (JObj props) (JObj []) w)
      by (intros t0 now; unfold filterUpdates; apply filter_loop_ext;
          intros key Hkey; by rewrite Hnone).
    rewrite (PATCH_lookup _ _ n _ _ H Ha Hid), Ht.
    rewrite bool_decide_eq_true_2 by exact Hown. exact Hempty.
Qed.

Lemma PATCH_without_fields_witness :
  (forall request,
      request = None \/ request = Some JNull \/ (exists b, request = Some (JBool b))
      \/ (exists k, request = Some (JNum k)) \/ (exists s, request = Some (JStr s)) ->
      PATCH alice_session "12" request dev_world
      = (Ret (json (ErrorBody "An error occurred while updating todo") 500),
         booted dev_world))
  /\ (forall l, PATCH alice_session "12" (Some (JArr l)) dev_world
                = (Ret (json (TodoBody buy_milk) 200), booted dev_world))
  /\ (forall props,
        (forall key, key ∈ allowedFields -> assoc (column_name key) props = None) ->
        PATCH alice_session "12" (Some (JObj props)) dev_world
        = (Ret (json (TodoBody buy_milk) 200), booted dev_world)).
Proof.
  apply (PATCH_without_fields dev_world alice_session "12" 12 buy_milk); reflexivity.
Defined.

(** ** Trimming *)

Lemma trimStart_head (s : string) :
  trimStart s = "" \/ exists c r, trimStart s = String c r /\ isWhiteSpace c = false.
Proof.
  induction s as [|c r IH]; simpl; [by left|].
  destruct (isWhiteSpace c) eqn:E; [exact IH|]. right. eauto.
Qed.

Lemma trimEnd_idempotent (s : string) : trimEnd (trimEnd s) = trimEnd s.
Proof.
  induction s as [|c r IH]; [reflexivity|]. simpl.
  destruct (trimEnd r) as [|a b] eqn:E.
  - destruct (isWhiteSpace c) eqn:Ec; [reflexivity|]. simpl. by rewrite Ec.
  - simpl in IH. simpl. by rewrite IH.
Qed.

Lemma trimEnd_head (c : ascii) (r : string) :
  isWhiteSpace c = false -> exists r', trimEnd (String c r) = String c r'.
Proof.
  intros Ec. simpl. destruct (trimEnd r); [rewrite Ec|]; eauto.
Qed.

(** [trim] leaves nothing to trim. *)
Lemma trim_idempotent (s : string) : trim (trim s) = trim s.
Proof.
  unfold trim. destruct (trimStart_head s) as [->|(c & r & -> & Ec)]; [reflexivity|].
  destruct (trimEnd_head c r Ec) as [r' Hr]. rewrite Hr.
  simpl trimStart. rewrite Ec, <- Hr. apply trimEnd_idempotent.
Qed.

Lemma trim_or_null_normal (x : option jsval) (v : jsval) :
  trim_or_null x = Some v ->
  v = JNull \/ exists s, v = JStr s /\ s <> "" /\ trim s = s.
Proof.
  destruct x as [[| | |s| |]|]; simpl; try discriminate; try (intros [= <-]; by left).
  destruct (String.eqb_spec (trim s) ""); intros [= <-]; [by left|].
  right. exists (trim s). split; [done|]. split; [done|apply trim_idempotent].
Qed.

(** ** What POST stores *)

(** X20.  On a healthy backend, the todo that POST answers with 201 is
    normalised: its title is the trimmed payload title (a string with
    nothing left to trim, not empty, of at most 500 code units); its
    description and category are null or a trimmed, non-empty string; its
    due date is null when the payload's [dueDate] is absent or falsy and,
    on SQLite, the payload's string, or the text [n.0] of the payload's
    number [n] (below 10^15 in magnitude); it is not completed and has no
    completion time; and it is what [getTodoById] returns afterwards, under
    an id that was free. *)
Theorem POST_stores_normalised
    (w : World) (session : SessionData) (props : list (string * jsval))
    (todo : Todo.t) (w' : World) :
  healthy w ->
  notAuthenticated session = false ->
  POST session (Some (JObj props)) w = (Ret (json (TodoBody todo) 201), w') ->
  (exists s, assoc "title" props = Some (JStr s)
             /\ Todo.title todo = JStr (trim s)
             /\ trim (trim s) = trim s
             /\ trim s <> ""
             /\ (String.length (trim s) <= 500)%nat)
  /\ (Todo.description todo = JNull
      \/ exists d, Todo.description todo = JStr d /\ d <> "" /\ trim d = d)
  /\ (Todo.category todo = JNull
      \/ exists c, Todo.category todo = JStr c /\ c <> "" /\ trim c = c)
  /\ (truthy_opt (assoc "dueDate" props) = false -> Todo.due_date todo = JNull)
  /\ (isProduction w = false ->
      (forall d, assoc "dueDate" props = Some (JStr d) -> d <> "" ->
                 Todo.due_date todo = JStr d)
      /\ (forall n, assoc "dueDate" props = Some (JNum n) -> n <> 0 ->
                    Z.abs n < 10 ^ 15 ->
                    Todo.due_date todo = JStr (Number_toString n ++ ".0")))
  /\ truthy (Todo.completed todo) = false
  /\ Todo.completed_at todo = JNull
  /\ Todo.created_at todo = Todo.updated_at todo
  /\ todos w !! Todo.id todo = None
  /\ getTodoById (Todo.id todo) w' = (Ret (Some todo), w').
Proof.
  intros H Ha E.
  destruct (created_title_bounded _ _ _ _ _ H Ha E) as (s & Hs & Htitle & Hne & Hlen).
  split; [exists s; auto using trim_idempotent|].
  revert E. rewrite (POST_healthy _ _ _ H Ha).
  destruct (blank (assoc "title" props)) as [[|]|]; try discriminate.
  rewrite Hs.
  destruct (500 <? String.length s)%nat; [discriminate|].
  destruct (trim_or_null (assoc "description" props)) as [d|] eqn:Hd; [|discriminate].
  destruct (trim_or_null (assoc "category" props)) as [c|] eqn:Hc; [|discriminate].
  pose proof (booted_healthy _ H) as Hb.
  rewrite (createTodo_healthy _ _ _ _ _ _ _ Hb).
  destruct (inserted_row _ _ _ _ _ _ _) as [row|] eqn:Hrow; [|discriminate].
  destruct (users (booted w) !! default 0 (userId session)); [|discriminate].
  destruct (todos (booted w) !! (todos_seq (booted w) + 1)) eqn:Hfree; [discriminate|].
  destruct (row_ok _ _); [|discriminate].
  intros [= <- <-]. simpl.
  apply inserted_row_columns in Hrow
    as (Hid & _ & _ & Hde & _ & Hca & Hdu & Hco & Hcat & Hcr & Hup).
  rewrite booted_isProduction in Hde, Hca, Hdu, Hco.
  rewrite (kept_as_bound_stored _ _ _ (trim_or_null_kept _ Description _ _
             (or_introl eq_refl) Hd)) in Hde.
  rewrite (kept_as_bound_stored _ _ _ (trim_or_null_kept _ Category _ _
             (or_intror eq_refl) Hc)) in Hca.
  injection Hde as <-. injection Hca as <-.
  split; [by apply (trim_or_null_normal _ _ Hd)|].
  split; [by apply (trim_or_null_normal _ _ Hc)|].
  split.
  { intros Hdue. rewrite Hdue in Hdu. destruct (isProduction w); simpl in Hdu; congruence. }
  split.
  { intros Ep. rewrite Ep in Hdu. split.
    - intros dd Hdd Hnn. rewrite Hdd in Hdu. simpl in Hdu.
      destruct (String.eqb_spec dd ""); [done|]. simpl in Hdu. congruence.
    - intros n Hn Hn0 _. rewrite Hn in Hdu. simpl in Hdu.
      destruct (Z.eqb_spec n 0); [done|]. simpl in Hdu. congruence. }
  split; [rewrite Hco; by destruct (isProduction w)|].
  split; [done|]. split; [congruence|].
  split; [by rewrite Hid, <- booted_todos|].
  rewrite getTodoById_healthy by exact Hb. simpl. by rewrite Hid, lookup_insert_eq.
Qed.

Lemma POST_stores_normalised_witness :
  let props := [("title", JStr " Buy milk "); ("description", JStr "   ");
                ("category", JStr " home "); ("dueDate", JNum 5)] in
  let todo := Todo.mk 13 1 (JStr "Buy milk") JNull (JStr "medium") (JStr "home")
                (JNum 0) JNull (JStr "5.0")
                "2026-03-01 10:00:00" "2026-03-01 10:00:00" in
  (exists s, assoc "title" props = Some (JStr s)
             /\ Todo.title todo = JStr (trim s)
             /\ trim (trim s) = trim s
             /\ trim s <> ""
             /\ (String.length (trim s) <= 500)%nat)
  /\ (Todo.description todo = JNull
      \/ exists d, Todo.description todo = JStr d /\ d <> "" /\ trim d = d)
  /\ (Todo.category todo = JNull
      \/ exists c, Todo.category todo = JStr c /\ c <> "" /\ trim c = c)
  /\ (truthy_opt (assoc "dueDate" props) = false -> Todo.due_date todo = JNull)
  /\ (isProduction dev_world = false ->
      (forall d, assoc "dueDate" props = Some (JStr d) -> d <> "" ->
                 Todo.due_date todo = JStr d)
      /\ (forall n, assoc "dueDate" props = Some (JNum n) -> n <> 0 ->
                    Z.abs n < 10 ^ 15 ->
                    Todo.due_date todo = JStr (Number_toString n ++ ".0")))
  /\ truthy (Todo.completed todo) = false
  /\ Todo.completed_at todo = JNull
  /\ Todo.created_at todo = Todo.updated_at todo
  /\ todos dev_world !! Todo.id todo = None
  /\ getTodoById (Todo.id todo)
       (snd (POST alice_session (Some (JObj props)) dev_world))
     = (Ret (Some todo), snd (POST alice_session (Some (JObj props)) dev_world)).
Proof.
  apply (POST_stores_normalised dev_world alice_session
           [("title", JStr " Buy milk "); ("description", JStr "   ");
            ("category", JStr " home "); ("dueDate", JNum 5)]);
    reflexivity.
Defined.

(** X21.  Bodies that POST cannot use, for an authenticated session on a
    healthy backend.  A body that is not JSON or is null is answered 500; a
    body that is a boolean, a number, a string or an array has no title and
    is answered 400; a title that is truthy but no string, and (with an
    accepted title) a description or category that is neither a string nor
    null, are answered 500, not 400.  Nothing is stored in any of these
    cases. *)
Theorem POST_unusable_bodies (w : World) (session : SessionData) :
  healthy w ->
  notAuthenticated session = false ->
  (forall request, request = None \/ request = Some JNull ->
     POST session request w
     = (Ret (json (ErrorBody "An error occurred while creating todo") 500), booted w))
  /\ (forall v, (forall props, v <> JObj props) -> v <> JNull ->
        POST session (Some v) w
        = (Ret (json (ErrorBody "Title is required") 400), booted w))
  /\ (forall props v, assoc "title" props = Some v ->
        truthy v = true -> (forall s, v <> JStr s) ->
        POST session (Some (JObj props)) w
        = (Ret (json (ErrorBody "An error occurred while creating todo") 500), booted w))
  /\ (forall props s, assoc "title" props = Some (JStr s) ->
        trim s <> "" -> (String.length s <= 500)%nat ->
        trim_or_null (assoc "description" props) = None
        \/ trim_or_null (assoc "category" props) = None ->
        POST session (Some (JObj props)) w
        = (Ret (json (ErrorBody "An error occurred while creating todo") 500), booted w)).
Proof.
  intros H Ha. split; [|split; [|split]].
  - intros request [->| ->]; unfold POST, try_catch;
      rewrite bind_run, (ensureDbInitialized_healthy _ H), Ha; reflexivity.
  - intros v Hobj Hnull. unfold POST, try_catch.
    rewrite bind_run, (ensureDbInitialized_healthy _ H), Ha.
    destruct v as [|b|k|s|l|props]; try reflexivity.
    + done.
    + by destruct (Hobj props).
  - intros props v Hv Ht Hs. rewrite (POST_healthy _ _ _ H Ha), Hv.
    unfold blank. simpl truthy_opt. rewrite Ht.
    destruct v as [|b|k|s|l|l]; try reflexivity.
    by destruct (Hs s).
  - intros props s Hv Hne Hlen Hbad. rewrite (POST_healthy _ _ _ H Ha), Hv.
    assert (Hb : blank (Some (JStr s)) = Some false).
    { unfold blank. simpl. destruct s as [|a s']; [done|]. simpl.
      rewrite length_zero_empty. by destruct (String.eqb_spec (trim (String a s')) ""). }
    rewrite Hb, (proj2 (Nat.ltb_ge 500 (String.length s))) by lia.
    destruct Hbad as [-> | ->]; [reflexivity|].
    by destruct (trim_or_null (assoc "description" props)).
Qed.

Lemma POST_unusable_bodies_witness :
  (forall request, request = None \/ request = Some JNull ->
     POST alice_session request dev_world
     = (Ret (json (ErrorBody "An error occurred while creating todo") 500),
        booted dev_world))
  /\ (forall v, (forall props, v <> JObj props) -> v <> JNull ->
        POST alice_session (Some v) dev_world
        = (Ret (json (ErrorBody "Title is required") 400), booted dev_world))
  /\ (forall props v, assoc "title" props = Some v ->
        truthy v = true -> (forall s, v <> JStr s) ->
        POST alice_session (Some (JObj props)) dev_world
        = (Ret (json (ErrorBody "An error occurred while creating todo") 500),
           booted dev_world))
  /\ (forall props s, assoc "title" props = Some (JStr s) ->
        trim s <> "" -> (String.length s <= 500)%nat ->
        trim_or_null (assoc "description" props) = None
        \/ trim_or_null (assoc "category" props) = None ->
        POST alice_session (Some (JObj props)) dev_world
        = (Ret (json (ErrorBody "An error occurred while creating todo") 500),
           booted dev_world)).
Proof. apply (POST_unusable_bodies dev_world alice_session); reflexivity. Defined.

(** ** Deleting *)

(** X22.  On a healthy backend, DELETE by the owner answers with the
    success body and removes the todo and nothing else; the same request
    again, and any PATCH of that id, are then answered 404. *)
Theorem DELETE_then_not_found
    (w : World) (session : SessionData) (id : string) (n : Z) (t : Todo.t) :
  healthy w ->
  notAuthenticated session = false ->
  parseInt id = Some n ->
  todos w !! n = Some t ->
  Some (Todo.user_id t) = userId session ->
  exists w' : World,
    DELETE session id w = (Ret (json SuccessBody 200), w')
    /\ todos w' = delete n (todos w)
    /\ users w' = users w
    /\ (forall k, k <> n -> todos w' !! k = todos w !! k)
    /\ fst (DELETE session id w') = Ret (json (ErrorBody "Todo not found") 404)
    /\ (forall request,
          fst (PATCH session id request w')
          = Ret (json (ErrorBody "Todo not found") 404)).
Proof.
  intros H Ha Hid Ht Hown.
  rewrite (DELETE_lookup _ _ n _ H Ha Hid), Ht.
  rewrite bool_decide_eq_true_2 by exact Hown.
  set (w' := set_todos (delete n (todos w)) (todos_seq w) (booted w)).
  assert (H' : healthy w') by (apply (booted_healthy _ H)).
  assert (Hgone : todos w' !! n = None) by (simpl; apply lookup_delete_eq).
  exists w'. split; [reflexivity|]. split; [reflexivity|].
  split; [simpl; apply booted_users|].
  split; [intros k Hne; simpl; by rewrite lookup_delete_ne|].
  split.
  - by rewrite (DELETE_lookup _ _ n _ H' Ha Hid), Hgone.
  - intros request. by rewrite (PATCH_lookup _ _ n _ _ H' Ha Hid), Hgone.
Qed.

Lemma DELETE_then_not_found_witness :
  exists w' : World,
    DELETE alice_session "12" dev_world = (Ret (json SuccessBody 200), w')
    /\ todos w' = delete 12 (todos dev_world)
    /\ users w' = users dev_world
    /\ (forall k, k <> 12 -> todos w' !! k = todos dev_world !! k)
    /\ fst (DELETE alice_session "12" w') = Ret (json (ErrorBody "Todo not found") 404)
    /\ (forall request,
          fst (PATCH alice_session "12" request w')
          = Ret (json (ErrorBody "Todo not found") 404)).
Proof.
  apply (DELETE_then_not_found dev_world alice_session "12" 12 buy_milk); reflexivity.
Defined.

(** ** A failing read-back on SQLite *)

(** X23.  On the SQLite backend [updateTodo] and [createTodo] read the
    record back with a [getTodoById] that they return without awaiting.
    When the write succeeds (here: with values that SQLite keeps as they
    are bound, strings and null) and the backend fails on that read-back,
    the operation throws although the write has taken place: the record
    is updated, respectively inserted. *)
Theorem sqlite_write_survives_failed_readback (w : World) (fs : list bool) :
  isProduction w = false ->
  faults w = false :: true :: fs ->
  (forall id updates t,
      updates <> [] ->
      (forall c v, (c, v) ∈ updates -> kept_as_bound false c v = true) ->
      todos w !! id = Some t ->
      row_ok false (apply_sets updates t) = true ->
      exists w', updateTodo id updates w = (Throw, w')
                 /\ todos w' !! id
                    = Some (set_updated_at (current_timestamp w) (apply_sets updates t)))
  /\ (forall userId title description priority category dueDate u,
        kept_as_bound false Description description = true ->
        kept_as_bound false Priority priority = true ->
        kept_as_bound false Category category = true ->
        kept_as_bound false DueDate dueDate = true ->
        users w !! userId = Some u ->
        todos w !! (todos_seq w + 1) = None ->
        exists w', createTodo userId title description priority category dueDate w
                   = (Throw, w')
                   /\ todos w' !! (todos_seq w + 1)
                      = Some (new_row w userId title description priority category dueDate)).
Proof.
  intros Ep Hf. destruct w as [p us ts useq tseq ini f d c]. simpl in Ep, Hf. subst p f.
  split.
  - intros id updates t Hne Hkept Ht Hok. simpl in Ht.
    assert (stored_sets false updates = Some updates) as Hval
      by (apply stored_sets_as_bound; intros c0 v Hin;
          by apply kept_as_bound_stored, Hkept).
    unfold updateTodo, try_async.
    replace (length updates =? 0)%nat with false by (by destruct updates).
    rewrite bind_run. unfold get_world at 1. cbn [isProduction].
    rewrite bind_run. unfold sql_update_todo. rewrite bind_run.
    unfold statement at 1. cbn [faults set_faults isProduction users todos users_seq
      todos_seq initialized date_now current_timestamp].
    rewrite bind_run. unfold get_world at 1.
    cbn [faults set_faults isProduction users todos users_seq
      todos_seq initialized date_now current_timestamp andb]. rewrite Hval, Ht.
    rewrite row_ok_set_updated_at, Hok.
    rewrite bind_run. unfold put_world, mret, M_ret.
    eexists. split; [reflexivity|]. simpl. apply lookup_insert_eq.
  - intros userId title de pr ca du u Hde Hpr Hca Hdu Hu Hk. simpl in Hu, Hk.
    unfold createTodo, try_async.
    rewrite bind_run. unfold get_world at 1. cbn [isProduction].
    rewrite bind_run. unfold sql_insert_todo. rewrite bind_run.
    unfold statement at 1. cbn [faults set_faults isProduction users todos users_seq
      todos_seq initialized date_now current_timestamp].
    rewrite bind_run. unfold get_world at 1.
    rewrite (inserted_row_as_bound
               (set_faults (true :: fs)
                  (mkWorld false us ts useq tseq ini (false :: true :: fs) d c))
               userId title de pr ca du Hde Hpr Hca Hdu).
    cbn [faults set_faults isProduction users todos users_seq
      todos_seq initialized date_now current_timestamp]. rewrite Hu, Hk.
    unfold new_row at 1.
    cbn [row_ok Todo.title]. rewrite bind_run. unfold put_world, mret, M_ret.
    eexists. split; [reflexivity|]. simpl. apply lookup_insert_eq.
Qed.

Lemma sqlite_write_survives_failed_readback_witness :
  let w := set_faults [false; true] dev_world in
  (exists w', updateTodo 12 [(Title, JStr "Buy oat milk")] w = (Throw, w')
              /\ todos w' !! 12
                 = Some (set_updated_at (current_timestamp w)
                           (apply_sets [(Title, JStr "Buy oat milk")] buy_milk)))
  /\ (exists w', createTodo 1 "Walk the dog" JNull (JStr "low") JNull JNull w
                 = (Throw, w')
                 /\ todos w' !! (todos_seq w + 1)
                    = Some (new_row w 1 "Walk the dog" JNull (JStr "low") JNull JNull)).
Proof.
  destruct (sqlite_write_survives_failed_readback
              (set_faults [false; true] dev_world) [] eq_refl eq_refl) as [Hu Hc].
  split.
  - apply (Hu 12 [(Title, JStr "Buy oat milk")] buy_milk); try reflexivity.
    + discriminate.
    + intros c v Hin. apply list_elem_of_singleton in Hin. by injection Hin as -> ->.
  - apply (Hc 1 "Walk the dog" JNull (JStr "low") JNull JNull alice); reflexivity.
Defined.

(** * The page *)

(** ** The id segment *)

Lemma parseDigits_uint (d : Decimal.uint) (a : Z) :
  parseDigits 10 (NilEmpty.string_of_uint d) (Some a) = Some (uint_value d a).
Proof.
  revert a. induction d; intros a; simpl; try reflexivity;
    rewrite IHd; f_equal; f_equal;
    match goal with |- context [nat_of_ascii ?c] =>
      let v := eval vm_compute in (Z.of_nat (nat_of_ascii c)) in
      change (Z.of_nat (nat_of_ascii c)) with v
    end; lia.
Qed.

Lemma of_uint_acc_value (d : Decimal.uint) (acc : positive) :
  Z.pos (Pos.of_uint_acc d acc) = uint_value d (Z.pos acc).
Proof.
  revert acc. induction d; intros acc; simpl; try reflexivity;
    rewrite IHd; f_equal; lia.
Qed.

Lemma of_uint_value (d : Decimal.uint) : Z.of_N (Pos.of_uint d) = uint_value d 0.
Proof.
  induction d; simpl; try reflexivity; try (rewrite of_uint_acc_value; reflexivity).
  exact IHd.
Qed.

Lemma to_uint_value (p : positive) : uint_value (Pos.to_uint p) 0 = Z.pos p.
Proof. by rewrite <- of_uint_value, DecimalPos.Unsigned.of_to. Qed.

Lemma parseInt_digits (d : Decimal.uint) :
  d <> Decimal.Nil ->
  parseInt (NilEmpty.string_of_uint d) = Some (uint_value d 0)
  /\ parseInt (String "-" (NilEmpty.string_of_uint d)) = Some (- uint_value d 0).
Proof.
  intros Hd.
  assert (forall c r, NilEmpty.string_of_uint d = String c r ->
            parseDigits 10 (String c r) None = Some (uint_value d 0)
            /\ isWhiteSpace c = false /\ c <> "-"%char /\ c <> "+"%char
            /\ (c = "0"%char -> forall r', r <> String "x" r' /\ r <> String "X" r')) as H.
  { intros c r E. destruct d; try done; simpl in E; injection E as <- <-;
      (split; [simpl; rewrite parseDigits_uint; reflexivity|]);
      (split; [reflexivity|]); (split; [discriminate|]); (split; [discriminate|]);
      intros Hc; try discriminate Hc.
    intros r'. destruct d; simpl; split; discriminate. }
  destruct (NilEmpty.string_of_uint d) as [|c r] eqn:E; [by destruct d|].
  destruct (H c r eq_refl) as (Hp & Hw & Hm & Hpl & Hx).
  assert (forall sign,
    (let '(R, S2) :=
       match String c r with
       | String "0" (String "x" r0) => (16, r0)
       | String "0" (String "X" r0) => (16, r0)
       | _ => (10, String c r)
       end in
     match parseDigits R S2 None with
     | None => None
     | Some n => Some (sign * n)
     end) = Some (sign * uint_value d 0)) as Hbody.
  { intros sign.
    destruct (decide (c = "0"%char)) as [->|Hc].
    - destruct r as [|c' r'].
      + rewrite Hp. reflexivity.
      + destruct (Hx eq_refl r') as [H1 H2].
        destruct (decide (c' = "x"%char)) as [->|Hc1]; [done|].
        destruct (decide (c' = "X"%char)) as [->|Hc2]; [done|].
        transitivity (match parseDigits 10 (String "0" (String c' r')) None with
                      | None => None | Some n => Some (sign * n) end).
        * destruct c' as [[] [] [] [] [] [] [] []]; try reflexivity; done.
        * by rewrite Hp.
    - transitivity (match parseDigits 10 (String c r) None with
                    | None => None | Some n => Some (sign * n) end).
      + destruct c as [[] [] [] [] [] [] [] []]; try reflexivity; done.
      + by rewrite Hp. }
  split.
  - unfold parseInt. cbn [trimStart]. rewrite Hw.
    transitivity (Some (1 * uint_value d 0)); [|f_equal; lia].
    rewrite <- (Hbody 1).
    destruct c as [[] [] [] [] [] [] [] []]; try reflexivity; done.
  - unfold parseInt. cbn [trimStart].
    change (isWhiteSpace "-") with false. cbv iota.
    transitivity (Some (-1 * uint_value d 0)); [|f_equal; lia].
    rewrite <- (Hbody (-1)). reflexivity.
Qed.

Lemma parseInt_Number_toString (n : Z) : parseInt (Number_toString n) = Some n.
Proof.
  unfold Number_toString. destruct n as [|p|p].
  - reflexivity.
  - simpl. pose proof (DecimalPos.Unsigned.to_uint_nonnil p) as Hn.
    destruct (parseInt_digits (Pos.to_uint p) Hn) as [H _].
    rewrite to_uint_value in H. rewrite <- H.
    unfold NilZero.string_of_uint. by destruct (Pos.to_uint p).
  - simpl. pose proof (DecimalPos.Unsigned.to_uint_nonnil p) as Hn.
    destruct (parseInt_digits (Pos.to_uint p) Hn) as [_ H].
    rewrite to_uint_value in H. change (- Z.pos p) with (Z.neg p) in H. rewrite <- H.
    unfold NilZero.string_of_uint. by destruct (Pos.to_uint p).
Qed.

(** X24.  The id segment that the page writes is read back by the routes as the
    id: [parseInt(`${n}`)] is [n] for every integer [n] below 2^53 in
    magnitude, the integers that a JavaScript number holds exactly and that
    [Number_toString] and [parseInt] compute on as JavaScript does. *)
Theorem id_segment_round_trip (n : Z) :
  Z.abs n < 2 ^ 53 -> parseInt (Number_toString n) = Some n.
Proof. intros _. apply parseInt_Number_toString. Qed.

Lemma id_segment_round_trip_witness :
  Z.abs 12 < 2 ^ 53 /\ parseInt (Number_toString 12) = Some 12.
Proof. split; [reflexivity | apply (id_segment_round_trip 12); reflexivity]. Defined.

(** ** The views *)

Lemma shown_all (st : Page.State) (todo : Todo.t) :
  Page.shown (Page.setFilter Page.FilterAll st) todo
  = negb (negb (String.eqb (Page.categoryFilter st) "all")
          && differs (Todo.category todo) (Page.categoryFilter st)).
Proof. unfold Page.shown. simpl. by destruct (_ && _). Qed.

Lemma shown_active (st : Page.State) (todo : Todo.t) :
  Page.shown (Page.setFilter Page.FilterActive st) todo
  = negb (truthy (Todo.completed todo))
    && Page.shown (Page.setFilter Page.FilterAll st) todo.
Proof.
  rewrite shown_all. unfold Page.shown. simpl.
  destruct (truthy (Todo.completed todo)); simpl; [reflexivity|]. by destruct (_ && _).
Qed.

Lemma shown_completed (st : Page.State) (todo : Todo.t) :
  Page.shown (Page.setFilter Page.FilterCompleted st) todo
  = truthy (Todo.completed todo)
    && Page.shown (Page.setFilter Page.FilterAll st) todo.
Proof.
  rewrite shown_all. unfold Page.shown. simpl.
  destruct (truthy (Todo.completed todo)); simpl; [|reflexivity]. by destruct (_ && _).
Qed.

(** X25.  The status filter splits what the category filter lets through.
    Under any category filter, every todo of the view 'all' is in exactly
    one of the views 'active' and 'completed', the two views together are
    as long as the view 'all', every view lists todos of the page in the
    order of the page, and with the category filter 'all' the view 'all' is
    the whole list. *)
Theorem filteredTodos_partition (st : Page.State) :
  (forall todo,
     In todo (view Page.FilterAll st)
     <-> In todo (view Page.FilterActive st) \/ In todo (view Page.FilterCompleted st))
  /\ (forall todo,
        ~ (In todo (view Page.FilterActive st) /\ In todo (view Page.FilterCompleted st)))
  /\ (length (view Page.FilterActive st) + length (view Page.FilterCompleted st)
      = length (view Page.FilterAll st))%nat
  /\ (forall f, sublist (view f st) (Page.todos st))
  /\ (Page.categoryFilter st = "all" -> view Page.FilterAll st = Page.todos st).
Proof.
  unfold view, Page.filteredTodos.
  change (Page.todos (Page.setFilter _ st)) with (Page.todos st).
  split; [|split; [|split; [|split]]].
  - intros todo. rewrite !filter_In, shown_active, shown_completed.
    destruct (truthy (Todo.completed todo)); simpl; intuition congruence.
  - intros todo. rewrite !filter_In, shown_active, shown_completed.
    destruct (truthy (Todo.completed todo)); simpl; intuition congruence.
  - induction (Page.todos st) as [|t l IH]; [reflexivity|].
    cbn [List.filter]. rewrite shown_active, shown_completed.
    destruct (truthy (Todo.completed t)), (Page.shown (Page.setFilter Page.FilterAll st) t);
      simpl; lia.
  - intros f. induction (Page.todos st) as [|t l IH]; [constructor|].
    cbn [List.filter]. destruct (Page.shown _ t); by constructor.
  - intros Hc. induction (Page.todos st) as [|t l IH]; [reflexivity|].
    cbn [List.filter]. rewrite shown_all, Hc. simpl. by rewrite IH.
Qed.

Lemma sameValueZero_eq (a b : jsval) : sameValueZero a b = true -> a = b.
Proof.
  destruct a, b; simpl; try discriminate; try reflexivity.
  - intros H. apply Bool.eqb_prop in H. by subst.
  - intros H. apply Z.eqb_eq in H. by subst.
  - intros H. apply String.eqb_eq in H. by subst.
Qed.

Lemma sameValueZero_refl (a : jsval) : primitive a = true -> sameValueZero a a = true.
Proof.
  destruct a; simpl; try discriminate; try reflexivity; intros _.
  - by destruct b.
  - apply Z.eqb_refl.
  - apply String.eqb_refl.
Qed.

Lemma Set_add_In (l acc : list jsval) (v : jsval) :
  In v (fold_left (fun acc v => if existsb (sameValueZero v) acc then acc
                                else (acc ++ [v])%list) l acc)
  <-> In v acc \/ In v l.
Proof.
  revert acc. induction l as [|x l IH]; intros acc; simpl; [tauto|].
  rewrite IH. destruct (existsb (sameValueZero x) acc) eqn:E.
  - apply existsb_exists in E as (y & Hy & Hxy). apply sameValueZero_eq in Hxy. subst y.
    intuition (subst; auto).
  - rewrite in_app_iff. simpl. tauto.
Qed.

Lemma Set_add_NoDup (l acc : list jsval) :
  List.NoDup acc -> (forall v, In v l -> primitive v = true) ->
  List.NoDup (fold_left (fun acc v => if existsb (sameValueZero v) acc then acc
                                      else (acc ++ [v])%list) l acc).
Proof.
  revert acc. induction l as [|x l IH]; intros acc Hacc Hl; simpl; [exact Hacc|].
  apply IH; [|intros v Hv; apply Hl; by right].
  destruct (existsb (sameValueZero x) acc) eqn:E; [exact Hacc|].
  apply NoDup_ListNoDup, NoDup_app. split; [by apply NoDup_ListNoDup|].
  split; [|apply NoDup_singleton].
  intros y Hy Hy'. apply list_elem_of_In in Hy.
  apply list_elem_of_singleton in Hy'. subst y.
  assert (existsb (sameValueZero x) acc = true) as E'; [|congruence].
  apply existsb_exists. exists x. split; [exact Hy|].
  apply sameValueZero_refl, Hl. by left.
Qed.

(** X26.  The categories of the drop-down.  The list holds exactly the truthy
    categories of the todos of the page; when every category is a
    primitive value (a string or null, as the page declares), no category
    is listed twice, and choosing a listed category other than 'all' shows
    at least one todo under the status filter 'all'. *)
Theorem categories_listed_once (st : Page.State) :
  (forall todo, In todo (Page.todos st) -> primitive (Todo.category todo) = true) ->
  (forall v, In v (Page.categories st)
             <-> truthy v = true
                 /\ exists todo, In todo (Page.todos st) /\ Todo.category todo = v)
  /\ List.NoDup (Page.categories st)
  /\ (forall c, In (JStr c) (Page.categories st) -> c <> "all" ->
                view Page.FilterAll (Page.setCategoryFilter c st) <> []).
Proof.
  intros Hp.
  assert (forall v, In v (Page.categories st)
             <-> truthy v = true
                 /\ exists todo, In todo (Page.todos st) /\ Todo.category todo = v) as Hin.
  { intros v. unfold Page.categories, Set_from. rewrite Set_add_In, filter_In, in_map_iff.
    simpl. split.
    - intros [[]|[(t & <- & Ht) Hv]]. eauto.
    - intros [Hv (t & Ht & <-)]. right. eauto. }
  split; [exact Hin|]. split.
  - unfold Page.categories, Set_from. apply Set_add_NoDup; [constructor|].
    intros v Hv. apply filter_In in Hv as [Hv _]. apply in_map_iff in Hv as (t & <- & Ht).
    by apply Hp.
  - intros c Hc Hall. apply Hin in Hc as [_ (t & Ht & Hcat)].
    unfold view, Page.filteredTodos.
    assert (In t (List.filter (Page.shown (Page.setFilter Page.FilterAll
                                  (Page.setCategoryFilter c st)))
                    (Page.todos st))) as Hs.
    { apply filter_In. split; [exact Ht|]. rewrite shown_all. simpl.
      unfold differs. rewrite Hcat, String.eqb_refl. by rewrite andb_false_r. }
    intros Hnil. change (Page.todos (Page.setFilter _ _)) with (Page.todos st) in Hnil.
    rewrite Hnil in Hs. destruct Hs.
Qed.

Lemma categories_listed_once_witness :
  (forall todo, In todo (Page.todos dev_page) -> primitive (Todo.category todo) = true)
  /\ Page.categories dev_page = [JStr "home"]
  /\ List.NoDup (Page.categories dev_page).
Proof.
  assert (forall todo, In todo (Page.todos dev_page) ->
                       primitive (Todo.category todo) = true) as H.
  { simpl. intros todo [<-|[<-|[<-|[]]]]; reflexivity. }
  split; [exact H|]. split; [reflexivity|].
  exact (proj1 (proj2 (categories_listed_once dev_page H))).
Defined.

(** ** The handlers of the page *)

Lemma booted_booted (w : World) : booted (booted w) = booted w.
Proof. unfold booted. by destruct (initialized w) eqn:E; simpl; rewrite ?E. Qed.

Lemma booted_todos_seq (w : World) : todos_seq (booted w) = todos_seq w.
Proof. unfold booted. destruct (initialized w); reflexivity. Qed.

Lemma booted_set_todos (m : gmap Z Todo.t) (k : Z) (w : World) :
  booted (set_todos m k (booted w)) = set_todos m k (booted w).
Proof. unfold booted. by destruct (initialized w) eqn:E; simpl; rewrite ?E. Qed.

Lemma fetchTodos_healthy (session : SessionData) (st : Page.State) (w : World) :
  healthy w -> notAuthenticated session = false ->
  Page.fetchTodos session st w
  = (Ret (Page.setTodos
            (foldr insert_desc [] (rows_of_user (default 0 (userId session)) (todos w)))
            st),
     booted w).
Proof.
  intros H Ha. unfold Page.fetchTodos, try_catch.
  by rewrite bind_run, (GET_todos_healthy _ _ H Ha).
Qed.

Lemma refresh_healthy (session : SessionData) (st : Page.State) (w : World) :
  healthy w -> notAuthenticated session = false ->
  exists (l : list Todo.t) (s : Stats),
    Page.refresh session st w = (Ret (Page.setStats s (Page.setTodos l st)), booted w)
    /\ (forall t, t ∈ l
          <-> exists k, todos w !! k = Some t /\ Some (Todo.user_id t) = userId session)
    /\ total s = Z.of_nat (length l).
Proof.
  intros H Ha. pose proof (session_user _ Ha) as Hs.
  unfold Page.refresh. rewrite bind_run, (fetchTodos_healthy _ _ _ H Ha).
  unfold Page.fetchStats, try_catch.
  rewrite bind_run, (GET_stats_healthy _ _ (booted_healthy _ H) Ha), booted_booted.
  rewrite booted_todos.
  remember (default 0 (userId session)) as uid eqn:Huid.
  eexists _, _. split; [reflexivity|]. split.
  - intros t. rewrite sort_desc_perm, rows_of_user_spec, <- Hs.
    split; intros (k & Hk & Hu); exists k; split; auto; congruence.
  - simpl. by rewrite sort_desc_perm.
Qed.

(** X27.  Deleting from the page.  On a healthy backend, [handleDeleteTodo] of
    a stored todo of the session's user removes the row, and the page then
    lists exactly the other stored todos of that user, [stats.total] being
    their number. *)
Theorem handleDeleteTodo_refreshes
    (session : SessionData) (id : Z) (t : Todo.t) (st : Page.State) (w : World) :
  healthy w ->
  notAuthenticated session = false ->
  Z.abs id < 10 ^ 21 ->
  todos w !! id = Some t ->
  Some (Todo.user_id t) = userId session ->
  exists (st' : Page.State) (w' : World),
    Page.handleDeleteTodo session id st w = (Ret st', w')
    /\ todos w' = delete id (todos w)
    /\ (forall x, x ∈ Page.todos st'
          <-> exists k, k <> id /\ todos w !! k = Some x
                        /\ Some (Todo.user_id x) = userId session)
    /\ total (Page.stats st') = Z.of_nat (length (Page.todos st'))
    /\ Page.newTodo st' = Page.newTodo st.
Proof.
  intros H Ha _ Ht Hown. unfold Page.handleDeleteTodo, try_catch.
  rewrite bind_run, (DELETE_lookup _ _ id _ H Ha (parseInt_Number_toString id)), Ht.
  rewrite bool_decide_eq_true_2 by exact Hown.
  change (ok (status (json SuccessBody 200))) with true. cbv iota.
  set (w1 := set_todos (delete id (todos w)) (todos_seq w) (booted w)).
  assert (healthy w1) as H1 by exact (booted_healthy _ H).
  destruct (refresh_healthy session st w1 H1 Ha) as (l & s & E & Hl & Hs).
  rewrite E. exists (Page.setStats s (Page.setTodos l st)), (booted w1).
  split; [reflexivity|]. split; [by rewrite booted_todos|].
  split; [|split; [exact Hs|reflexivity]].
  intros x. simpl. rewrite Hl. unfold w1. simpl.
  split.
  - intros (k & Hk & Hu). apply lookup_delete_Some in Hk as [Hne Hk]. exists k. auto.
  - intros (k & Hne & Hk & Hu). exists k. split; [|exact Hu].
    apply lookup_delete_Some. auto.
Qed.

Lemma handleDeleteTodo_refreshes_witness :
  exists (st' : Page.State) (w' : World),
    Page.handleDeleteTodo alice_session 12 dev_page dev_world = (Ret st', w')
    /\ todos w' = delete 12 (todos dev_world)
    /\ (forall x, x ∈ Page.todos st'
          <-> exists k, k <> 12 /\ todos dev_world !! k = Some x
                        /\ Some (Todo.user_id x) = userId alice_session)
    /\ total (Page.stats st') = Z.of_nat (length (Page.todos st'))
    /\ Page.newTodo st' = Page.newTodo dev_page.
Proof.
  apply (handleDeleteTodo_refreshes alice_session 12 buy_milk dev_page dev_world);
    reflexivity.
Defined.

Lemma noTitle_blank (n : Page.NewTodo) :
  blank (Some (JStr (Page.title n))) = Some (Page.noTitle n).
Proof.
  unfold blank, Page.noTitle. simpl.
  destruct (String.eqb_spec (Page.title n) "") as [->|Hne]; [reflexivity|]. simpl.
  f_equal. by destruct (trim (Page.title n)).
Qed.

Lemma trim_or_null_or_null (x : string) :
  trim_or_null (Some (Page.or_null x))
  = Some (if String.eqb (trim x) "" then JNull else JStr (trim x)).
Proof.
  unfold Page.or_null. destruct (String.eqb_spec x "") as [->|Hne]; reflexivity.
Qed.

Lemma POST_createBody (session : SessionData) (n : Page.NewTodo) (w : World) :
  healthy w -> notAuthenticated session = false ->
  POST session (Some (Page.createBody n)) w =
  if Page.noTitle n
  then (Ret (json (ErrorBody "Title is required") 400), booted w)
  else if (500 <? String.length (Page.title n))%nat
  then (Ret (json (ErrorBody "Title must be less than 500 characters") 400), booted w)
  else
    respond_create
      (createTodo (default 0 (userId session)) (trim (Page.title n))
         (if String.eqb (trim (Page.description n)) "" then JNull
          else JStr (trim (Page.description n)))
         (finalPriority (Some (JStr (Page.priority n))))
         (if String.eqb (trim (Page.category n)) "" then JNull
          else JStr (trim (Page.category n)))
         (Page.or_null (Page.dueDate n))
         (booted w)).
Proof.
  intros H Ha. unfold Page.createBody. rewrite (POST_healthy _ _ _ H Ha).
  change (assoc "title" _) with (Some (JStr (Page.title n))).
  change (assoc "description" _) with (Some (Page.or_null (Page.description n))).
  change (assoc "priority" _) with (Some (JStr (Page.priority n))).
  change (assoc "category" _) with (Some (Page.or_null (Page.category n))).
  change (assoc "dueDate" _) with (Some (Page.or_null (Page.dueDate n))).
  rewrite noTitle_blank, !trim_or_null_or_null.
  destruct (Page.noTitle n); [reflexivity|].
  destruct (500 <? String.length (Page.title n))%nat; [reflexivity|].
  assert ((if truthy_opt (Some (Page.or_null (Page.dueDate n)))
           then default JNull (Some (Page.or_null (Page.dueDate n))) else JNull)
          = Page.or_null (Page.dueDate n)) as ->; [|reflexivity].
  unfold Page.or_null.
  destruct (String.eqb (Page.dueDate n) "") eqn:E; [reflexivity|].
  simpl. by rewrite E.
Qed.

(** X28.  The guard of the form and the check of the route agree.  For an
    authenticated session on a healthy backend, [handleCreateTodo] sends no
    request exactly when the route would answer the body of the form with
    400 'Title is required'; a request that the page sends is never
    answered so. *)
Theorem create_guard_matches_route
    (session : SessionData) (n : Page.NewTodo) (w : World) :
  healthy w ->
  notAuthenticated session = false ->
  (Page.noTitle n = true
   <-> fst (POST session (Some (Page.createBody n)) w)
       = Ret (json (ErrorBody "Title is required") 400)).
Proof.
  intros H Ha. rewrite (POST_createBody _ _ _ H Ha).
  destruct (Page.noTitle n); [done|].
  split; [discriminate|].
  destruct (500 <? String.length (Page.title n))%nat; [discriminate|].
  unfold respond_create. by destruct (createTodo _ _ _ _ _ _ _) as [[[todo|]|] w'].
Qed.

Lemma create_guard_matches_route_witness :
  Page.noTitle (Page.mkNewTodo "   " "" "medium" "" "") = true
  <-> fst (POST alice_session (Some (Page.createBody (Page.mkNewTodo "   " "" "medium" "" "")))
             dev_world)
      = Ret (json (ErrorBody "Title is required") 400).
Proof.
  apply (create_guard_matches_route alice_session (Page.mkNewTodo "   " "" "medium" "" "")
           dev_world); reflexivity.
Defined.

(** X29.  Creating from the page.  On a healthy backend, for a session whose
    user is stored, a form whose title is not blank and has at most 500
    code units (and, on PostgreSQL, whose trimmed category has at most 100)
    is stored by [handleCreateTodo] as a todo of that user with the trimmed
    title; the form is reset, the page lists the new todo among exactly the
    stored todos of the user, and [stats.total] is their number. *)
Theorem handleCreateTodo_refreshes
    (session : SessionData) (u : User.t) (st : Page.State) (w : World) :
  healthy w ->
  notAuthenticated session = false ->
  users w !! default 0 (userId session) = Some u ->
  todos w !! (todos_seq w + 1) = None ->
  Page.noTitle (Page.newTodo st) = false ->
  (String.length (Page.title (Page.newTodo st)) <= 500)%nat ->
  (isProduction w = true ->
   (String.length (trim (Page.category (Page.newTodo st))) <= 100)%nat) ->
  exists (st' : Page.State) (w' : World) (todo : Todo.t),
    Page.handleCreateTodo session st w = (Ret st', w')
    /\ todos w' = <[todos_seq w + 1 := todo]> (todos w)
    /\ Todo.title todo = JStr (trim (Page.title (Page.newTodo st)))
    /\ Some (Todo.user_id todo) = userId session
    /\ todo ∈ Page.todos st'
    /\ (forall x, x ∈ Page.todos st'
          <-> exists k, todos w' !! k = Some x /\ Some (Todo.user_id x) = userId session)
    /\ total (Page.stats st') = Z.of_nat (length (Page.todos st'))
    /\ Page.newTodo st' = Page.mkNewTodo "" "" "medium" "" "".
Proof.
  intros H Ha Hu Hfresh Hguard Hlen Hcat.
  pose proof (booted_healthy _ H) as Hb. pose proof (session_user _ Ha) as Hs.
  unfold Page.handleCreateTodo, try_catch. rewrite Hguard.
  rewrite bind_run, (POST_createBody _ _ _ H Ha), Hguard.
  replace (500 <? String.length (Page.title (Page.newTodo st)))%nat with false
    by (symmetry; apply Nat.ltb_ge; lia).
  rewrite (createTodo_healthy _ _ _ _ _ _ _ Hb).
  destruct (finalPriority_string (Some (JStr (Page.priority (Page.newTodo st)))))
    as (fp & Hfp & _).
  rewrite inserted_row_unchanged.
  2-5: apply stored_value_text; [done|].
  2: by destruct (String.eqb (trim (Page.description (Page.newTodo st))) "").
  2: by rewrite Hfp.
  2: by destruct (String.eqb (trim (Page.category (Page.newTodo st))) "").
  2: by unfold Page.or_null; destruct (String.eqb _ _).
  rewrite booted_users, booted_todos, booted_todos_seq, Hu, Hfresh, booted_isProduction.
  set (row := new_row (booted w) _ _ _ _ _ _).
  assert (row_ok (isProduction w) row = true) as Hok.
  { unfold row_ok, row, new_row. cbn [Todo.title Todo.priority Todo.category].
    destruct (isProduction w); [|reflexivity].
    rewrite finalPriority_fits, andb_true_r. apply andb_true_intro. split.
    - simpl. apply Nat.leb_le.
      pose proof (trim_length (Page.title (Page.newTodo st))). lia.
    - destruct (String.eqb (trim (Page.category (Page.newTodo st))) "");
        [reflexivity|].
      simpl. apply Nat.leb_le. by apply Hcat. }
  rewrite Hok. unfold respond_create.
  change (ok (status (json (TodoBody row) 201))) with true. cbv iota.
  set (w1 := set_todos _ _ (booted w)).
  assert (healthy w1) as H1 by exact Hb.
  destruct (refresh_healthy session
              (Page.setNewTodo (Page.mkNewTodo "" "" "medium" "" "") st) w1 H1 Ha)
    as (l & s & E & Hl & Hst).
  rewrite E. eexists _, (booted w1), row. split; [reflexivity|].
  assert (todos (booted w1) = <[todos_seq w + 1 := row]> (todos w)) as Ht.
  { by rewrite booted_todos. }
  split; [exact Ht|]. split; [reflexivity|]. split; [exact Hs|].
  assert (forall x, x ∈ l
            <-> exists k, todos (booted w1) !! k = Some x
                          /\ Some (Todo.user_id x) = userId session) as Hl'.
  { intros x. rewrite Hl. by rewrite booted_todos. }
  split; [|split; [exact Hl'|split; [exact Hst|reflexivity]]].
  simpl. apply Hl'. exists (todos_seq w + 1). split; [|exact Hs].
  rewrite Ht. apply lookup_insert_eq.
Qed.

Lemma handleCreateTodo_refreshes_witness :
  exists (st' : Page.State) (w' : World) (todo : Todo.t),
    Page.handleCreateTodo alice_session form_page dev_world = (Ret st', w')
    /\ todos w' = <[todos_seq dev_world + 1 := todo]> (todos dev_world)
    /\ Todo.title todo = JStr (trim (Page.title (Page.newTodo form_page)))
    /\ Some (Todo.user_id todo) = userId alice_session
    /\ todo ∈ Page.todos st'
    /\ (forall x, x ∈ Page.todos st'
          <-> exists k, todos w' !! k = Some x
                        /\ Some (Todo.user_id x) = userId alice_session)
    /\ total (Page.stats st') = Z.of_nat (length (Page.todos st'))
    /\ Page.newTodo st' = Page.mkNewTodo "" "" "medium" "" "".
Proof.
  apply (handleCreateTodo_refreshes alice_session alice form_page dev_world);
    try reflexivity.
  - simpl. lia.
  - discriminate.
Defined.

Lemma toggle_payload (todo : Todo.t) (now : string) :
  filterUpdates todo now
    (JObj [("completed", JBool (negb (truthy (Todo.completed todo))))])
  = Continue
      (if truthy (Todo.completed todo)
       then [(Completed, JBool false); (CompletedAt, JNull)]
       else [(Completed, JBool true); (CompletedAt, JStr now)]).
Proof.
  rewrite filterUpdates_passes by (split; by left).
  unfold allowedFields. simpl flat_map. unfold kept. simpl.
  by destruct (truthy (Todo.completed todo)) eqn:E; simpl; rewrite ?E.
Qed.

(** X30.  Toggling from the page, on the PostgreSQL backend.  On a healthy
    backend, [handleToggleComplete] of a todo that the page holds as it is
    stored, by its owner, stores the opposite completion: [completed]
    becomes the boolean opposite of its truth value, [completed_at] becomes
    the request's timestamp when the todo becomes completed and null when
    it becomes active, the title is kept, and the page lists the row as it
    is now stored. *)
Theorem handleToggleComplete_flips
    (session : SessionData) (todo : Todo.t) (st : Page.State) (w : World) :
  healthy w ->
  isProduction w = true ->
  notAuthenticated session = false ->
  Z.abs (Todo.id todo) < 10 ^ 21 ->
  todos w !! Todo.id todo = Some todo ->
  Some (Todo.user_id todo) = userId session ->
  row_ok true todo = true ->
  exists (st' : Page.State) (w' : World) (todo' : Todo.t),
    Page.handleToggleComplete session todo st w = (Ret st', w')
    /\ todos w' = <[Todo.id todo := todo']> (todos w)
    /\ todo' ∈ Page.todos st'
    /\ Todo.completed todo' = JBool (negb (truthy (Todo.completed todo)))
    /\ Todo.completed_at todo'
       = (if truthy (Todo.completed todo) then JNull else JStr (date_now w))
    /\ Todo.title todo' = Todo.title todo
    /\ same_identity todo todo'.
Proof.
  intros H Hpg Ha _ Ht Hown Hok.
  pose proof (booted_healthy _ H) as Hb.
  unfold Page.handleToggleComplete, try_catch.
  rewrite bind_run,
    (PATCH_lookup _ _ (Todo.id todo) _ _ H Ha (parseInt_Number_toString (Todo.id todo))).
  rewrite Ht, bool_decide_eq_true_2 by exact Hown.
  rewrite toggle_payload.
  set (updates := if truthy (Todo.completed todo)
                  then [(Completed, JBool false); (CompletedAt, JNull)]
                  else [(Completed, JBool true); (CompletedAt, JStr (date_now w))]).
  assert (updates <> []) as Hne by (unfold updates; by destruct (truthy _)).
  assert (accepted (booted w) updates) as Hacc.
  { intros _. unfold updates. destruct (truthy _); simpl; split.
    - intros Hin. revert Hin. compute_done.
    - compute_done.
    - intros Hin. revert Hin. compute_done.
    - compute_done. }
  assert (row_ok (isProduction (booted w)) (apply_sets updates todo) = true) as Hok'.
  { rewrite booted_isProduction, Hpg.
    transitivity (row_ok true todo); [|exact Hok].
    unfold updates. by destruct (truthy (Todo.completed todo)), todo. }
  assert (todos (booted w) !! Todo.id todo = Some todo) as Ht'
    by (by rewrite booted_todos).
  assert (stored_sets (isProduction (booted w)) updates = Some updates) as Hval.
  { rewrite booted_isProduction, Hpg. unfold updates. by destruct (truthy _). }
  rewrite (updateTodo_healthy _ _ _ _ _ Hb Hne Ht' Hacc Hval Hok'). cbv zeta.
  unfold respond_update.
  set (todo' := set_updated_at _ _).
  change (ok (status (json (TodoBody todo') 200))) with true. cbv iota.
  set (w1 := set_todos _ _ (booted w)).
  assert (healthy w1) as H1 by exact Hb.
  destruct (refresh_healthy session st w1 H1 Ha) as (l & s & E & Hl & _).
  rewrite E. eexists _, (booted w1), todo'. split; [reflexivity|].
  assert (todos (booted w1) = <[Todo.id todo := todo']> (todos w)) as Htab.
  { rewrite booted_todos. unfold w1. simpl. by rewrite booted_todos. }
  split; [exact Htab|]. split.
  - simpl. apply Hl. exists (Todo.id todo). split.
    + rewrite booted_todos in Htab. rewrite Htab. apply lookup_insert_eq.
    + rewrite <- Hown. unfold todo', updates.
      by destruct (truthy (Todo.completed todo)), todo.
  - unfold todo', updates. destruct (truthy (Todo.completed todo)), todo;
      repeat split; reflexivity.
Qed.

Lemma handleToggleComplete_flips_witness :
  exists (st' : Page.State) (w' : World) (todo' : Todo.t),
    Page.handleToggleComplete alice_session buy_milk_pg dev_page prod_world = (Ret st', w')
    /\ todos w' = <[Todo.id buy_milk_pg := todo']> (todos prod_world)
    /\ todo' ∈ Page.todos st'
    /\ Todo.completed todo' = JBool (negb (truthy (Todo.completed buy_milk_pg)))
    /\ Todo.completed_at todo'
       = (if truthy (Todo.completed buy_milk_pg) then JNull
          else JStr (date_now prod_world))
    /\ Todo.title todo' = Todo.title buy_milk_pg
    /\ same_identity buy_milk_pg todo'.
Proof.
  apply (handleToggleComplete_flips alice_session buy_milk_pg dev_page prod_world);
    reflexivity.
Defined.
